(** * m.css Python documentation generator: signature parsing, name mapping
      and member filtering of [documentation/python.py]

    A shallow embedding of the parts of [documentation/python.py] that decide
    how names are rewritten ([map_name_prefix]), how pybind11 docstring
    signatures are parsed ([parse_pybind_type], [parse_pybind_signature],
    [parse_pybind_docstring]), how members are filtered
    ([is_internal_function_name], [is_internal_or_imported_module_member],
    the dunder tables) and how methods are sorted into the buckets of a
    class page ([render_class]).

    Python [str] values are modelled by [string], as their UTF-8
    encoding.  The string operations used by the source (prefix test,
    slicing at an index found by searching for ASCII text, concatenation,
    comparison) commute with the encoding, so a character outside ASCII is
    simply a run of bytes above 127 that no character class of the source
    mentions.  The one operation that counts characters is a slice with a
    negative stop, for which [Py.slice] counts them. *)

From Stdlib Require Import Bool Arith Lia List ZArith.
From Stdlib Require Numbers.DecimalNat.
From Stdlib Require Import Strings.Ascii Strings.String Numbers.DecimalString.
Import ListNotations.

Local Open Scope list_scope.
Local Open Scope string_scope.

(* ================================================================== *)
(** ** Python string primitives *)
(* ================================================================== *)

Module Py.

(** The line feed, ['\n']. *)
Definition LF : ascii := "010"%char.
Definition nl : string := String LF EmptyString.

(** [s[n:]] for [0 <= n]. *)
Fixpoint drop (n : nat) (s : string) : string :=
  match n, s with
  | O, _ => s
  | S _, EmptyString => EmptyString
  | S n', String _ s' => drop n' s'
  end.

(** [s[:n]] for [0 <= n]. *)
Fixpoint take (n : nat) (s : string) : string :=
  match n, s with
  | O, _ => EmptyString
  | S _, EmptyString => EmptyString
  | S n', String c s' => String c (take n' s')
  end.

(** [s.startswith(p)]. *)
Definition startswith (s p : string) : bool := String.prefix p s.

(** [s.endswith(p)]. *)
Definition endswith (s p : string) : bool :=
  Nat.leb (String.length p) (String.length s)
  && String.eqb (drop (String.length s - String.length p) s) p.

(** Position of the first occurrence of [sub] in [s], counted from [i]. *)
Fixpoint find_from (i : nat) (s sub : string) : option nat :=
  if String.prefix sub s then Some i
  else match s with
       | EmptyString => None
       | String _ s' => find_from (S i) s' sub
       end.

(** [s.find(sub)]: the lowest index of [sub] in [s], or [-1]. *)
Definition find (s sub : string) : Z :=
  match find_from 0 s sub with
  | Some i => Z.of_nat i
  | None => (-1)%Z
  end.

(** A byte that continues a character of a UTF-8 text: [10xxxxxx]. *)
Definition is_continuation (c : ascii) : bool :=
  Nat.leb 128 (nat_of_ascii c) && Nat.ltb (nat_of_ascii c) 192.

(** The number of bytes of the last character of a text, given its bytes
    in reverse. *)
Fixpoint last_char_bytes (reversed : list ascii) : nat :=
  match reversed with
  | [] => 0
  | c :: reversed' =>
      if is_continuation c then S (last_char_bytes reversed') else 1
  end.

(** The number of bytes of the last [n] characters. *)
Fixpoint last_chars_bytes (n : nat) (reversed : list ascii) : nat :=
  match n with
  | O => 0
  | S n' =>
      let k := last_char_bytes reversed in
      k + last_chars_bytes n' (skipn k reversed)
  end.

(** [s[a:b]] for [a], and [b] when it is not negative, at the start of a
    character: a negative [b] counts characters from the end of the
    string, as Python slices do. *)
Definition slice (s : string) (a : nat) (b : Z) : string :=
  let len := String.length s in
  let stop :=
    if (b <? 0)%Z
    then len - last_chars_bytes (Z.to_nat (- b)) (rev (list_ascii_of_string s))
    else Nat.min (Z.to_nat b) len in
  drop a (take stop s).

(** [s[i]], which raises [IndexError] (here [None]) out of range. *)
Definition item (s : string) (i : nat) : option ascii := String.get i s.

(** [str(n)] for a natural number. *)
Definition str (n : nat) : string := NilEmpty.string_of_uint (Nat.to_uint n).

(** ['sep'.join(l)]. *)
Definition join (sep : string) (l : list string) : string := String.concat sep l.

(** Truthiness of a string: [bool(s)]. *)
Definition truthy (s : string) : bool :=
  match s with EmptyString => false | String _ _ => true end.

(** The longest prefix of [s] whose characters all satisfy [p], and the
    rest: what [re.compile('[...]*').match(s).group(0)] consumes. *)
Fixpoint span (p : ascii -> bool) (s : string) : string * string :=
  match s with
  | EmptyString => (EmptyString, EmptyString)
  | String c s' =>
      if p c then let (m, r) := span p s' in (String c m, r)
      else (EmptyString, s)
  end.

(** [re.compile('[...]+').match(s)]: [None] when not even one character
    matches, where the source's [.group(0)] raises [AttributeError]. *)
Definition span1 (p : ascii -> bool) (s : string) : option (string * string) :=
  match span p s with
  | (EmptyString, _) => None
  | (m, r) => Some (m, r)
  end.

Definition in_range (lo hi c : ascii) : bool :=
  Nat.leb (nat_of_ascii lo) (nat_of_ascii c)
  && Nat.leb (nat_of_ascii c) (nat_of_ascii hi).

(** [[a-zA-Z0-9_]] *)
Definition is_word_char (c : ascii) : bool :=
  in_range "a" "z" c || in_range "A" "Z" c || in_range "0" "9" c
  || Ascii.eqb c "_".

End Py.

(* ================================================================== *)
(** ** Exceptions *)
(* ================================================================== *)

Inductive exn : Type :=
| AttributeError
| IndexError
| AssertionError
| TypeError.

(** The outcome of running a piece of the program: a value, a raised
    exception, or an exhausted recursion budget.  The last does not happen
    with the budgets the entry points start from
    ([parse_pybind_type_terminates], [parse_pybind_signature_terminates],
    [parse_pybind_docstring_terminates]). *)
Inductive result (A : Type) : Type :=
| Ok (a : A)
| Raise (e : exn)
| OutOfFuel.

Arguments Ok {A} a.
Arguments Raise {A} e.
Arguments OutOfFuel {A}.

Definition bind {A B : Type} (m : result A) (k : A -> result B) : result B :=
  match m with
  | Ok a => k a
  | Raise e => Raise e
  | OutOfFuel => OutOfFuel
  end.

Notation "x <- m ;; k" := (bind m (fun x => k))
  (at level 61, m at next level, right associativity).
Notation "' p <- m ;; k" := (bind m (fun x => match x with p => k end))
  (at level 61, p pattern, m at next level, right associativity).

(** [assert b] *)
Definition py_assert (b : bool) : result unit :=
  if b then Ok tt else Raise AssertionError.

(** [object.attr] for an attribute that may be missing. *)
Definition getattr {A : Type} (attr : option A) : result A :=
  match attr with
  | Some a => Ok a
  | None => Raise AttributeError
  end.

(* ================================================================== *)
(** ** State *)
(* ================================================================== *)

(** The fields of [State] read by the functions below.  [module_mapping]
    is a [dict]; it is iterated in insertion order and only ever extended
    with keys it does not hold yet, so it is kept as the list of its items
    in insertion order. *)
Record State : Type := mkState {
  PYBIND11_COMPATIBILITY : bool;
  module_mapping : list (string * string)
}.

(** [key in state.module_mapping] *)
Definition mapping_has (key : string) (m : list (string * string)) : bool :=
  existsb (fun kv => String.eqb (fst kv) key) m.

(* ================================================================== *)
(** ** Name filters and the name mapper *)
(* ================================================================== *)

Definition is_internal_function_name (name : string) : bool :=
  Py.startswith name "_"
  && negb (Py.startswith name "__" && Py.endswith name "__").

(** The test of the loop body of [map_name_prefix]. *)
Definition prefix_matches (type prefix : string) : bool :=
  String.eqb type prefix || Py.startswith type (prefix ++ ".").

Fixpoint map_name_prefix_items (items : list (string * string)) (type : string)
  : string :=
  match items with
  | [] => type
  | (prefix, replace) :: items' =>
      if prefix_matches type prefix
      then replace ++ Py.drop (String.length prefix) type
      else map_name_prefix_items items' type
  end.

Definition map_name_prefix (state : State) (type : string) : string :=
  map_name_prefix_items (module_mapping state) type.

(* ================================================================== *)
(** ** Library functions the source calls *)
(* ================================================================== *)

(** [inspect.cleandoc], [html.escape] and the docutils-backed
    [render_inline_rst] are not part of the file under study; the
    development is parametric in them. *)
Class Library : Type := {
  cleandoc : string -> string;
  html_escape : string -> string;
  render_inline_rst : State -> string -> string
}.

(** An entry of [module_docs], [class_docs] or [data_docs]. *)
Record ExternalDoc : Type := mkExternalDoc {
  doc_summary : string;
  doc_content : string
}.

Fixpoint dict_get {V : Type} (key : string) (d : list (string * V)) : option V :=
  match d with
  | [] => None
  | (k, v) :: d' => if String.eqb k key then Some v else dict_get key d'
  end.

(* ================================================================== *)
(** ** The pybind11 signature parser *)
(* ================================================================== *)

(** [_pybind_name_rx], [_pybind_arg_name_rx], [_pybind_type_rx] and
    [_pybind_default_value_rx] as character classes. *)
Definition _pybind_name_rx (c : ascii) : bool := Py.is_word_char c.
Definition _pybind_arg_name_rx (c : ascii) : bool :=
  Ascii.eqb c "*" || Py.is_word_char c.
Definition _pybind_type_rx (c : ascii) : bool :=
  Py.is_word_char c || Ascii.eqb c ".".
Definition _pybind_default_value_rx (c : ascii) : bool :=
  negb (Ascii.eqb c "," || Ascii.eqb c ")").

(** One parsed argument: [(arg_name, arg_type, default)]. *)
Definition Arg : Type := (string * option string * option string)%type.

(** One parsed signature: [(name, summary, args, return_type)]. *)
Definition Signature : Type :=
  (string * string * list Arg * option string)%type.

(** [parse_pybind_type] with a recursion budget.  [parse_pybind_type_fuel]
    is the function body, [parse_pybind_type_loop] the [while] loop over
    the bracketed inner types; the loop returns the signature and the type
    text at the moment it is left, both exits having [']'] in front. *)
Fixpoint parse_pybind_type_fuel (fuel : nat) (state : State) (signature : string)
  {struct fuel} : result (string * string) :=
  match fuel with
  | O => OutOfFuel
  | S fuel' =>
      match Py.span1 _pybind_type_rx signature with
      | None => Raise AttributeError
      | Some (input_type, signature) =>
          let type := map_name_prefix state input_type in
          if Py.startswith signature "["
          then
            let type := type ++ "[" in
            let signature := Py.drop 1 signature in
            '(signature, type) <-
               parse_pybind_type_loop fuel' state signature type ;;
            _ <- py_assert (Py.startswith signature "]") ;;
            Ok (Py.drop 1 signature, type ++ "]")
          else Ok (signature, type)
      end
  end
with parse_pybind_type_loop (fuel : nat) (state : State) (signature type : string)
  {struct fuel} : result (string * string) :=
  match fuel with
  | O => OutOfFuel
  | S fuel' =>
      match signature with
      | EmptyString => Raise IndexError
      | String c _ =>
          if Ascii.eqb c "]" then Ok (signature, type)
          else
            '(signature, inner_type) <-
               parse_pybind_type_fuel fuel' state signature ;;
            let type := type ++ inner_type in
            match signature with
            | EmptyString => Raise IndexError
            | String c _ =>
                if Ascii.eqb c "]" then Ok (signature, type)
                else
                  _ <- py_assert (Py.startswith signature ", ") ;;
                  parse_pybind_type_loop fuel' state (Py.drop 2 signature)
                                         (type ++ ", ")
            end
      end
  end.

Definition parse_pybind_type (state : State) (signature : string)
  : result (string * string) :=
  parse_pybind_type_fuel (2 * String.length signature + 2) state signature.

Section Parser.
Context {lib : Library}.

Definition extract_summary (state : State)
    (external_docs : list (string * ExternalDoc)) (path : list string)
    (doc : option string) : string :=
  let path_str := Py.join "." path in
  let external :=
    match dict_get path_str external_docs with
    | Some d => if Py.truthy (doc_summary d) then Some (doc_summary d) else None
    | None => None
    end in
  match external with
  | Some summary => render_inline_rst state summary
  | None =>
      match doc with
      | None => ""
      | Some "" => ""
      | Some doc =>
          let doc := cleandoc doc in
          let end_ := Py.find doc (Py.nl ++ Py.nl) in
          html_escape (if (end_ =? -1)%Z then doc
                       else Py.take (Z.to_nat end_) doc)
      end
  end.

(** The argument list a signature that could not be parsed gets. *)
Definition ellipsis_args : list Arg := [("…", None, None)].

(** The two identical "failed to parse" blocks of [parse_pybind_signature]:
    the warning that is logged and the tuple that is returned. *)
Definition parse_failure (state : State) (original_signature name : string)
  : Signature * list string :=
  let end_ := Py.find original_signature Py.nl in
  let shown := if (end_ =? -1)%Z then original_signature
               else Py.take (Z.to_nat end_) original_signature in
  let warning := "cannot parse pybind11 function signature " ++ shown in
  let summary :=
    if negb (end_ =? -1)%Z
       && (Z.to_nat end_ + 1 <? String.length original_signature)%nat
       && match Py.item original_signature (Z.to_nat end_ + 1) with
          | Some c => Ascii.eqb c Py.LF
          | None => false
          end
    then extract_summary state [] []
           (Some (Py.drop (Z.to_nat end_ + 1) original_signature))
    else "" in
  ((name, summary, ellipsis_args, None), [warning]).

(** The body of the argument loop up to [args += [...]]: the name, the
    optional type and the optional default of one argument. *)
Definition parse_pybind_arg (state : State) (signature : string)
  : result (string * Arg) :=
  match Py.span1 _pybind_arg_name_rx signature with
  | None => Raise AttributeError
  | Some (arg_name, signature) =>
      '(signature, arg_type) <-
         (if Py.startswith signature ": "
          then '(signature, arg_type) <-
                  parse_pybind_type state (Py.drop 2 signature) ;;
               Ok (signature, Some arg_type)
          else Ok (signature, None)) ;;
      '(signature, default) <-
         (if Py.startswith signature "="
          then match Py.span1 _pybind_default_value_rx (Py.drop 1 signature) with
               | None => Raise AttributeError
               | Some (default, signature) => Ok (signature, Some default)
               end
          else Ok (signature, None)) ;;
      Ok (signature, (arg_name, arg_type, default))
  end.

(** The argument loop.  [inl] is the early [return] of the failure block,
    [inr] the signature and arguments with which the loop is left. *)
Fixpoint parse_pybind_args (fuel : nat) (state : State)
    (original_signature name signature : string) (args : list Arg)
  : result (Signature * list string + string * list Arg) :=
  match fuel with
  | O => OutOfFuel
  | S fuel' =>
      match signature with
      | EmptyString => Raise IndexError
      | String c _ =>
          if Ascii.eqb c ")" then Ok (inr (signature, args))
          else
            '(signature, arg) <- parse_pybind_arg state signature ;;
            let args := (args ++ [arg])%list in
            match signature with
            | EmptyString => Raise IndexError
            | String c _ =>
                if Ascii.eqb c ")" then Ok (inr (signature, args))
                else if negb (Py.startswith signature ", ")
                then Ok (inl (parse_failure state original_signature name))
                else parse_pybind_args fuel' state original_signature name
                                       (Py.drop 2 signature) args
            end
      end
  end.

Definition parse_pybind_signature (state : State) (signature : string)
  : result (Signature * list string) :=
  let original_signature := signature in
  let '(name, signature) := Py.span _pybind_name_rx signature in
  match signature with
  | EmptyString => Raise IndexError
  | String c signature =>
      _ <- py_assert (Ascii.eqb c "(") ;;
      r <- parse_pybind_args (S (String.length signature)) state
             original_signature name signature [] ;;
      match r with
      | inl failed => Ok failed
      | inr (signature, args) =>
          _ <- py_assert (Py.startswith signature ")") ;;
          let signature := Py.drop 1 signature in
          '(signature, return_type) <-
             (if Py.startswith signature " -> "
              then '(signature, return_type) <-
                      parse_pybind_type state (Py.drop 4 signature) ;;
                   Ok (signature, Some return_type)
              else Ok (signature, None)) ;;
          if Py.truthy signature && negb (Py.startswith signature Py.nl)
          then Ok (parse_failure state original_signature name)
          else
            let summary :=
              if (1 <? String.length signature)%nat
                 && match Py.item signature 1 with
                    | Some c => Ascii.eqb c Py.LF
                    | None => false
                    end
              then extract_summary state [] [] (Some (Py.drop 2 signature))
              else "" in
            Ok ((name, summary, args, return_type), [])
      end
  end.

(** ['{}. {}('.format(id, name)] *)
Definition overload_marker (id : nat) (name : string) : string :=
  Py.str id ++ ". " ++ name ++ "(".

(** The [while True] loop of [parse_pybind_docstring]; the warnings of the
    signatures parsed so far are carried along with [overloads]. *)
Fixpoint parse_pybind_overloads (fuel : nat) (state : State) (name doc : string)
    (id : nat) (overloads : list Signature) (log : list string)
  : result (list Signature * list string) :=
  match fuel with
  | O => OutOfFuel
  | S fuel' =>
      _ <- py_assert (Py.startswith doc (overload_marker id name)) ;;
      let id := id + 1 in
      let next := Py.find doc (overload_marker id name) in
      '(parsed, warnings) <-
         parse_pybind_signature state
           (Py.slice doc (String.length (Py.str (id - 1)) + 2) next) ;;
      let overloads := (overloads ++ [parsed])%list in
      let log := (log ++ warnings)%list in
      _ <- py_assert (String.eqb (fst (fst (fst parsed))) name) ;;
      if (next =? -1)%Z then Ok (overloads, log)
      else parse_pybind_overloads fuel' state name
             (Py.drop (Z.to_nat next) doc) id overloads log
  end.

Definition parse_pybind_docstring (state : State) (name doc : string)
  : result (list Signature * list string) :=
  let overload_header :=
    name ++ "(*args, **kwargs)" ++ Py.nl ++ "Overloaded function."
         ++ Py.nl ++ Py.nl in
  if Py.startswith doc overload_header
  then
    let doc := Py.drop (String.length overload_header) doc in
    parse_pybind_overloads (S (String.length doc)) state name doc 1 [] []
  else
    '(parsed, warnings) <- parse_pybind_signature state doc ;;
    Ok ([parsed], warnings).

End Parser.

(* ================================================================== *)
(** ** Runtime objects as the walker sees them *)
(* ================================================================== *)

(** What [inspect.signature] reports for an annotation: the marker
    [inspect.Signature.empty], a string, or any other object, of which
    [extract_annotation] reads [__module__] and [__name__] ([None] for an
    attribute the object does not have, as [None] itself and instances of
    most classes do not) and [str(annotation)]. *)
Inductive Annotation : Type :=
| AnnEmpty
| AnnStr (text : string)
| AnnObject (module name : option string) (text : string).

Record PyParameter : Type := mkPyParameter {
  parameter_name : string;
  parameter_annotation : Annotation;
  parameter_default : option string;    (* [repr(default)], if there is one *)
  parameter_kind : string               (* [str(kind)] *)
}.

Record PySignature : Type := mkPySignature {
  return_annotation : Annotation;
  parameters : list PyParameter
}.

(** The attributes and [inspect] predicates of a runtime object that the
    walker reads.  For [__name__] and [__module__], [None] is a missing
    attribute ([hasattr] is false); for [__package__] and [__doc__], which
    modules and documented objects always carry, it is the value [None].
    Objects whose [__name__] or [__module__] is present and not a string
    are outside the model. *)
Record PyObject : Type := mkPyObject {
  ismodule : bool;
  isclass : bool;
  ismethod : bool;
  __name__ : option string;
  __module__ : option string;
  __package__ : option string;
  __doc__ : option string;
  (* [inspect.signature(object)]; [None] where it raises [ValueError] *)
  signature : option PySignature;
  (* the names [n] with [isinstance(object.__dict__[n], staticmethod)] *)
  dict_staticmethods : list string
}.

(* ================================================================== *)
(** ** Member extraction: functions *)
(* ================================================================== *)

Record Param : Type := mkParam {
  param_name : string;
  param_type : option string;
  param_default : option string;
  param_kind : option string;
  param_name_type : option string
}.

(** The record [extract_function_doc] fills in.  [is_classmethod] and
    [is_staticmethod] are [None] while the attribute is not set. *)
Record FunctionDoc : Type := mkFunctionDoc {
  fn_name : string;
  fn_params : list Param;
  fn_has_complex_params : bool;
  fn_has_details : bool;
  fn_summary : string;
  fn_type : option string;
  is_classmethod : option bool;
  is_staticmethod : option bool
}.

Definition extract_type (module name : string) : string :=
  (if negb (String.eqb module "builtins") then module ++ "." else "") ++ name.

Definition extract_annotation (state : State) (annotation : Annotation)
  : result (option string) :=
  match annotation with
  | AnnEmpty => Ok None
  | AnnStr text => Ok (Some (map_name_prefix state text))
  | AnnObject module name text =>
      module <- getattr module ;;
      if String.eqb module "typing"
      then Ok (Some (map_name_prefix state text))
      else
        name <- getattr name ;;
        Ok (Some (map_name_prefix state (extract_type module name)))
  end.

(** Truthiness of an optional string: [None] and [''] are false. *)
Definition opt_truthy (s : option string) : bool :=
  match s with Some s => Py.truthy s | None => false end.

(** [path[-1]] *)
Definition path_last (path : list string) : result string :=
  match rev path with
  | [] => Raise IndexError
  | name :: _ => Ok name
  end.

(** [all(name == 'arg{}'.format(i) for i, (name, _, _) in enumerate(args, i))],
    which is what the two guessing loops of the pybind11 path compute. *)
Fixpoint positional_only_names (i : nat) (args : list Arg) : bool :=
  match args with
  | [] => true
  | (name, _, _) :: args' =>
      if negb (String.eqb name ("arg" ++ Py.str i)) then false
      else positional_only_names (S i) args'
  end.

(** [args and args[0][0] == 'self'] *)
Definition first_is_self (args : list Arg) : bool :=
  match args with
  | (name, _, _) :: _ => String.eqb name "self"
  | [] => false
  end.

Section Extraction.
Context {lib : Library}.

(** The parameter record built for one parsed argument. *)
Definition pybind_param (positional_only : bool) (arg : Arg) : Param :=
  let '(name, type, default) := arg in
  let type' := if String.eqb name "self" then None else type in
  let default' :=
    Some (html_escape (if opt_truthy default
                       then match default with Some d => d | None => "" end
                       else "")) in
  if String.eqb name "*args"
  then mkParam "args" type' default' (Some "VAR_POSITIONAL") None
  else if String.eqb name "**kwargs"
  then mkParam "kwargs" type' default' (Some "VAR_KEYWORD") None
  else mkParam name type' default'
         (Some (if positional_only then "POSITIONAL_ONLY"
                else "POSITIONAL_OR_KEYWORD")) None.

(** The body of the loop over the parsed overloads. *)
Definition pybind_function_doc (parent : PyObject) (path_name : string)
    (func : Signature) : result FunctionDoc :=
  let '(name, summary, args, type) := func in
  let out_type :=
    match type with
    | Some t => if String.eqb t "None" then None else type
    | None => None
    end in
  let out_is_staticmethod :=
    if isclass parent && first_is_self args then false else true in
  positional_only <-
    (if isclass parent && negb out_is_staticmethod
     then _ <- py_assert (first_is_self args) ;;
          Ok (positional_only_names 0 (tl args))
     else Ok (positional_only_names 0 args)) ;;
  Ok {| fn_name := path_name;
        fn_params := map (pybind_param positional_only) args;
        fn_has_complex_params :=
          existsb (fun arg : Arg =>
                     let '(_, type, default) := arg in
                     opt_truthy type || opt_truthy default) args;
        fn_has_details := false;
        fn_summary := summary;
        fn_type := out_type;
        is_classmethod := Some false;
        is_staticmethod := Some out_is_staticmethod |}.

Fixpoint pybind_function_docs (parent : PyObject) (path_name : string)
    (funcs : list Signature) : result (list FunctionDoc) :=
  match funcs with
  | [] => Ok []
  | func :: funcs' =>
      out <- pybind_function_doc parent path_name func ;;
      overloads <- pybind_function_docs parent path_name funcs' ;;
      Ok (out :: overloads)
  end.

(** The parameter record of the introspection path. *)
Definition reflected_param (state : State) (i : PyParameter) : result Param :=
  type <- extract_annotation state (parameter_annotation i) ;;
  Ok (mkParam (parameter_name i) type (parameter_default i)
              (Some (parameter_kind i)) None).

(** The loop over [signature.parameters.values()]. *)
Fixpoint reflected_params (state : State) (parameters : list PyParameter)
  : result (list Param) :=
  match parameters with
  | [] => Ok []
  | i :: parameters' =>
      param <- reflected_param state i ;;
      params <- reflected_params state parameters' ;;
      Ok (param :: params)
  end.

Definition reflected_function_doc (state : State) (parent function : PyObject)
    (path_name : string) : result FunctionDoc :=
  let summary := extract_summary state [] [] (__doc__ function) in
  let is_class := isclass parent in
  let classmethod := if is_class then Some (ismethod function) else None in
  let staticmethod :=
    if is_class
    then Some (existsb (String.eqb path_name) (dict_staticmethods parent))
    else None in
  match signature function with
  | Some sig =>
      type <- extract_annotation state (return_annotation sig) ;;
      params <- reflected_params state (parameters sig) ;;
      Ok {| fn_name := path_name;
            fn_params := params;
            fn_has_complex_params :=
              existsb (fun param : Param =>
                         opt_truthy (param_type param)
                         || match param_default param with
                            | Some _ => true
                            | None => false
                            end) params;
            fn_has_details := false;
            fn_summary := summary;
            fn_type := type;
            is_classmethod := classmethod;
            is_staticmethod := staticmethod |}
  | None =>
      Ok {| fn_name := path_name;
            fn_params := [mkParam "..." None None None (Some "...")];
            fn_has_complex_params := false;
            fn_has_details := false;
            fn_summary := summary;
            fn_type := None;
            is_classmethod := classmethod;
            is_staticmethod := staticmethod |}
  end.

(** [extract_function_doc]: the records and the warnings logged on the way.
    The opening [assert] on the kind of [function] holds for every routine
    the walker passes in and is left out. *)
Definition extract_function_doc (state : State) (parent : PyObject)
    (path : list string) (function : PyObject)
  : result (list FunctionDoc * list string) :=
  use_docstring <-
    (if PYBIND11_COMPATIBILITY state
     then match __doc__ function with
          | None => Raise AttributeError
          | Some doc =>
              path_name <- path_last path ;;
              Ok (Py.startswith doc path_name)
          end
     else Ok false) ;;
  path_name <- path_last path ;;
  if use_docstring : bool
  then
    let doc := match __doc__ function with Some doc => doc | None => "" end in
    '(funcs, warnings) <- parse_pybind_docstring state path_name doc ;;
    overloads <- pybind_function_docs parent path_name funcs ;;
    Ok (overloads, warnings)
  else
    out <- reflected_function_doc state parent function path_name ;;
    Ok ([out], []).

End Extraction.

(* ================================================================== *)
(** ** Visibility of module members *)
(* ================================================================== *)

(** [not s] for an attribute that is [None] or a string. *)
Definition opt_falsy (s : option string) : bool := negb (opt_truthy s).

Definition optstr_eqb (a b : option string) : bool :=
  match a, b with
  | Some a, Some b => String.eqb a b
  | None, None => true
  | _, _ => false
  end.

Definition is_internal_or_imported_module_member (state : State)
    (parent : PyObject) (path : list string) (name : string)
    (object : PyObject) : bool :=
  if Py.startswith name "_" then true
  else if negb (ismodule object)
  then
    match __module__ object with
    | Some module =>
        if negb (String.eqb (map_name_prefix state module) (Py.join "." path))
        then true else false
    | None => false
    end
  else
    if PYBIND11_COMPATIBILITY state
       && match __package__ object with None => true | Some _ => false end
    then false
    else if opt_falsy (__package__ parent) then true
    else
      match __package__ parent with
      | Some package =>
          if negb (optstr_eqb (__package__ object) (Some package)
                   || optstr_eqb (__package__ object)
                                 (Some (package ++ "." ++ name)))
          then true else false
      | None => true
      end.

(* ================================================================== *)
(** ** The export list of a module: the mapping pass *)
(* ================================================================== *)

(** [state.module_mapping[key] = value] for a key the dict does not hold. *)
Definition register_mapping (state : State) (key value : string) : State :=
  {| PYBIND11_COMPATIBILITY := PYBIND11_COMPATIBILITY state;
     module_mapping := (module_mapping state ++ [(key, value)])%list |}.

(** The body of the first loop over [module.__all__] in [render_module].
    [attrs] are the attributes of the module. *)
Definition export_mapping_step (state : State) (path : list string)
    (attrs : list (string * PyObject)) (name : string) : result State :=
  object <- getattr (dict_get name attrs) ;;
  let subpath := (path ++ [name])%list in
  differs <-
    (if ismodule object
     then object_name <- getattr (__name__ object) ;;
          Ok (negb (String.eqb object_name (Py.join "." subpath)))
     else Ok false) ;;
  if differs : bool
  then
    object_name <- getattr (__name__ object) ;;
    _ <- py_assert (negb (mapping_has object_name (module_mapping state))) ;;
    Ok (register_mapping state object_name (Py.join "." subpath))
  else
    match __module__ object with
    | Some module =>
        object_name <- getattr (__name__ object) ;;
        let subname := module ++ "." ++ object_name in
        if negb (String.eqb subname (Py.join "." subpath))
        then
          _ <- py_assert (negb (mapping_has subname (module_mapping state))) ;;
          Ok (register_mapping state subname (Py.join "." subpath))
        else Ok state
    | None => Ok state
    end.

Fixpoint export_mapping_pass (state : State) (path : list string)
    (attrs : list (string * PyObject)) (all : list string) : result State :=
  match all with
  | [] => Ok state
  | name :: all' =>
      state <- export_mapping_step state path attrs name ;;
      export_mapping_pass state path attrs all'
  end.

Section ExportList.
(** The second loop over [module.__all__], which extracts the members and
    renders the inner modules and classes, is a parameter here. *)
Context {Page : Type}.
Variable extract_exports :
  State -> list string -> list (string * PyObject) -> list string -> result Page.

(** The [if hasattr(module, '__all__')] branch of [render_module]. *)
Definition render_module_exports (state : State) (path : list string)
    (attrs : list (string * PyObject)) (all : list string) : result Page :=
  state <- export_mapping_pass state path attrs all ;;
  extract_exports state path attrs all.

End ExportList.

(* ================================================================== *)
(** ** Class pages: dunder tables, member filters and method buckets *)
(* ================================================================== *)

(** The entries of [_filtered_builtin_functions] common to all versions. *)
Definition filtered_builtin_functions_common : list (string * string) :=
  [ ("__delattr__", "Implement delattr(self, name).");
    ("__eq__", "Return self==value.");
    ("__ge__", "Return self>=value.");
    ("__getattribute__", "Return getattr(self, name).");
    ("__gt__", "Return self>value.");
    ("__hash__", "Return hash(self).");
    ("__init__",
     "Initialize self.  See help(type(self)) for accurate signature.");
    ("__init_subclass__",
     "This method is called when a class is subclassed." ++ Py.nl ++ Py.nl
     ++ "The default implementation does nothing. It may be" ++ Py.nl
     ++ "overridden to extend subclasses." ++ Py.nl);
    ("__le__", "Return self<=value.");
    ("__lt__", "Return self<value.");
    ("__ne__", "Return self!=value.");
    ("__new__",
     "Create and return a new object.  See help(type) for accurate signature.");
    ("__repr__", "Return repr(self).");
    ("__setattr__", "Implement setattr(self, name, value).");
    ("__str__", "Return str(self).");
    ("__subclasshook__",
     "Abstract classes can override this to customize issubclass()."
     ++ Py.nl ++ Py.nl
     ++ "This is invoked early on by abc.ABCMeta.__subclasscheck__()." ++ Py.nl
     ++ "It should return True, False or NotImplemented.  If it returns" ++ Py.nl
     ++ "NotImplemented, the normal algorithm is used.  Otherwise, it" ++ Py.nl
     ++ "overrides the normal algorithm (and the outcome is cached)." ++ Py.nl)
  ].

(** The entries added on Python 3.7 and later. *)
Definition filtered_builtin_functions_37 : list (string * string) :=
  [ ("__dir__", "Default dir() implementation.");
    ("__format__", "Default object formatter.");
    ("__reduce__", "Helper for pickle.");
    ("__reduce_ex__", "Helper for pickle.");
    ("__sizeof__", "Size of object in memory, in bytes.") ].

(** The entries added on Python 3.6. *)
Definition filtered_builtin_functions_36 : list (string * string) :=
  [ ("__dir__", "__dir__() -> list" ++ Py.nl ++ "default dir() implementation");
    ("__format__", "default object formatter");
    ("__reduce__", "helper for pickle");
    ("__reduce_ex__", "helper for pickle");
    ("__sizeof__",
     "__sizeof__() -> int" ++ Py.nl ++ "size of object in memory, in bytes") ].

(** [_filtered_builtin_functions]; [py37] is
    [LooseVersion(sys.version) >= LooseVersion("3.7")].  The source builds a
    [set], of which only membership is used. *)
Definition _filtered_builtin_functions (py37 : bool) : list (string * string) :=
  (filtered_builtin_functions_common
   ++ (if py37 then filtered_builtin_functions_37
       else filtered_builtin_functions_36))%list.

Definition _filtered_builtin_properties : list (string * string) :=
  [ ("__weakref__", "list of weak references to the object (if defined)") ].

(** [(name, doc) in table], where [doc] is [object.__doc__] and may be
    [None], which no entry of a table equals. *)
Definition in_table (name : string) (doc : option string)
    (table : list (string * string)) : bool :=
  match doc with
  | Some doc =>
      existsb (fun entry => String.eqb (fst entry) name
                            && String.eqb (snd entry) doc) table
  | None => false
  end.

(** The two [continue] tests at the head of the method loop of
    [render_class]: [true] when the routine is skipped. *)
Definition method_skipped (py37 : bool) (name : string) (doc : option string)
  : bool :=
  if is_internal_function_name name then true
  else if Py.startswith name "__"
          && in_table name doc (_filtered_builtin_functions py37)
  then true
  else false.

(** The two [continue] tests at the head of the property loop. *)
Definition property_skipped (name : string) (doc : option string) : bool :=
  if in_table name doc _filtered_builtin_properties then true
  else if Py.startswith name "_" then true
  else false.

(** The [continue] tests of the loops over inner classes, and over enums
    and data. *)
Definition inner_class_skipped (name : string) : bool :=
  if existsb (String.eqb name) ["__base__"; "__class__"] then true
  else if Py.startswith name "_" then true
  else false.

Definition enum_or_data_skipped (name : string) : bool :=
  if Py.startswith name "_" then true else false.

(** The method lists of a class page. *)
Record ClassPage : Type := mkClassPage {
  classmethods : list FunctionDoc;
  staticmethods : list FunctionDoc;
  dunder_methods : list FunctionDoc;
  methods : list FunctionDoc
}.

Definition empty_class_page : ClassPage := mkClassPage [] [] [] [].

Inductive Bucket : Type :=
| Classmethods
| Staticmethods
| DunderMethods
| Methods.

(** [page.<bucket> += [function]] *)
Definition add_to (bucket : Bucket) (function : FunctionDoc) (page : ClassPage)
  : ClassPage :=
  match bucket with
  | Classmethods =>
      mkClassPage (classmethods page ++ [function])%list (staticmethods page)
                  (dunder_methods page) (methods page)
  | Staticmethods =>
      mkClassPage (classmethods page) (staticmethods page ++ [function])%list
                  (dunder_methods page) (methods page)
  | DunderMethods =>
      mkClassPage (classmethods page) (staticmethods page)
                  (dunder_methods page ++ [function])%list (methods page)
  | Methods =>
      mkClassPage (classmethods page) (staticmethods page)
                  (dunder_methods page) (methods page ++ [function])%list
  end.

(** The [if]/[elif] chain in the body of the loop over the records of one
    routine.  Reading a flag that was never set raises [AttributeError]. *)
Definition method_bucket (name : string) (function : FunctionDoc)
  : result Bucket :=
  if Py.startswith name "__" then Ok DunderMethods
  else
    classmethod <- getattr (is_classmethod function) ;;
    if classmethod : bool then Ok Classmethods
    else
      staticmethod <- getattr (is_staticmethod function) ;;
      if staticmethod : bool then Ok Staticmethods
      else Ok Methods.

Fixpoint place_methods (name : string) (functions : list FunctionDoc)
    (page : ClassPage) : result ClassPage :=
  match functions with
  | [] => Ok page
  | function :: functions' =>
      bucket <- method_bucket name function ;;
      place_methods name functions' (add_to bucket function page)
  end.

Section ClassMethods.
Context {lib : Library}.

(** The loop [for name, object in inspect.getmembers(class_, inspect.isroutine)]
    of [render_class], over the members [inspect.getmembers] returned. *)
Fixpoint render_class_methods (py37 : bool) (state : State) (path : list string)
    (class_ : PyObject) (members : list (string * PyObject))
    (page : ClassPage) (log : list string)
  : result (ClassPage * list string) :=
  match members with
  | [] => Ok (page, log)
  | (name, object) :: members' =>
      if method_skipped py37 name (__doc__ object)
      then render_class_methods py37 state path class_ members' page log
      else
        let subpath := (path ++ [name])%list in
        let log :=
          if opt_falsy (__doc__ object)
          then (log ++ [(Py.join "." subpath ++ "() is undocumented")%string])%list
          else log in
        '(functions, warnings) <-
           extract_function_doc state class_ subpath object ;;
        page <- place_methods name functions page ;;
        render_class_methods py37 state path class_ members' page
                             (log ++ warnings)%list
  end.

End ClassMethods.

(* ================================================================== *)
(** * Notions the statements are written in *)
(* ================================================================== *)

(** ** Matching of keys *)

(** A key matches a name when the name equals the key or starts with the
    key followed by a dot. *)
Definition key_matches (n key : string) : Prop :=
  n = key \/ exists rest, n = key ++ "." ++ rest.

(* ================================================================== *)
(** ** Dunder names, and sample objects *)
(* ================================================================== *)

(** A dunder name: two leading and two trailing underscores. *)
Definition is_dunder (name : string) : bool :=
  Py.startswith name "__" && Py.endswith name "__".

(** A plain data attribute of a module, which carries no [__module__]. *)
Definition sample_data : PyObject :=
  mkPyObject false false false None None None None None [].

(** A single-file module. *)
Definition sample_module : PyObject :=
  mkPyObject true false false (Some "m") None (Some "") None None [].

(* ================================================================== *)
(** ** The buckets of a class page *)
(* ================================================================== *)

(** The list of a page a bucket stands for. *)
Definition bucket_list (bucket : Bucket) (page : ClassPage) : list FunctionDoc :=
  match bucket with
  | Classmethods => classmethods page
  | Staticmethods => staticmethods page
  | DunderMethods => dunder_methods page
  | Methods => methods page
  end.

Definition bucket_eqb (a b : Bucket) : bool :=
  match a, b with
  | Classmethods, Classmethods | Staticmethods, Staticmethods
  | DunderMethods, DunderMethods | Methods, Methods => true
  | _, _ => false
  end.

(** The bucket of a routine, in the order the specification gives: a name that
    starts with two underscores first, then the classmethod flag, then the
    staticmethod flag, else an instance method. *)
Definition bucket_in_order (name : string) (function : FunctionDoc) : Bucket :=
  if Py.startswith name "__" then DunderMethods
  else match is_classmethod function with
       | Some true => Classmethods
       | _ => match is_staticmethod function with
              | Some true => Staticmethods
              | _ => Methods
              end
       end.

(** Both flags of a record are set. *)
Definition flags_set (function : FunctionDoc) : Prop :=
  is_classmethod function <> None /\ is_staticmethod function <> None.

(** The records of the routines of a class that pass the filters, each with
    the name of its member, in the order of the members. *)
Fixpoint extracted_methods {lib : Library} (py37 : bool) (state : State)
    (path : list string) (class_ : PyObject) (members : list (string * PyObject))
  : result (list (string * FunctionDoc)) :=
  match members with
  | [] => Ok []
  | (name, object) :: members' =>
      if method_skipped py37 name (__doc__ object)
      then extracted_methods py37 state path class_ members'
      else
        '(functions, _) <-
           extract_function_doc state class_ (path ++ [name])%list object ;;
        rest <- extracted_methods py37 state path class_ members' ;;
        Ok (map (pair name) functions ++ rest)%list
  end.

(** The records of [bucket] among [extracted]. *)
Definition in_bucket (bucket : Bucket) (extracted : list (string * FunctionDoc))
  : list FunctionDoc :=
  map snd (filter (fun nf => bucket_eqb (bucket_in_order (fst nf) (snd nf)) bucket)
                  extracted).

(** The library functions replaced by the identity, for running examples. *)
Definition plain_library : Library :=
  {| cleandoc := fun doc => doc;
     html_escape := fun text => text;
     render_inline_rst := fun _ source => source |}.

(** A class with a dunder method, a classmethod, a staticmethod, an
    instance method and a private method, none of them documented. *)
Definition sample_class : PyObject :=
  mkPyObject false true false (Some "Shape") (Some "m") None
             (Some "A shape.") None ["unit"].

Definition sample_routine (bound : bool) (params : list string) : PyObject :=
  mkPyObject false false bound None (Some "m") None None
    (Some (mkPySignature AnnEmpty
             (map (fun p => mkPyParameter p AnnEmpty None "POSITIONAL_OR_KEYWORD")
                  params)))
    [].

Definition sample_members : list (string * PyObject) :=
  [ ("__str__", sample_routine false ["self"]);
    ("_hidden", sample_routine false ["self"]);
    ("area", sample_routine false ["self"]);
    ("from_points", sample_routine true ["points"]);
    ("unit", sample_routine false []) ].

Definition sample_record (name : string) (params : list string)
    (classmethod staticmethod : bool) : FunctionDoc :=
  mkFunctionDoc name
    (map (fun p => mkParam p None None (Some "POSITIONAL_OR_KEYWORD") None) params)
    false false "" None (Some classmethod) (Some staticmethod).

(* ================================================================== *)
(** ** The convention on [self] *)
(* ================================================================== *)

(** The first parsed argument is named [self]. *)
Definition leading_self (args : list Arg) : Prop :=
  exists type default rest, args = ("self", type, default) :: rest.

(** What the specification says of the record built from one parsed
    signature. *)
Definition self_convention (parent : PyObject) (func : Signature)
    (out : FunctionDoc) : Prop :=
  let args := snd (fst func) in
  is_classmethod out = Some false
  /\ (isclass parent = true ->
      forall type default rest,
        args = ("self", type, default) :: rest ->
        is_staticmethod out = Some false
        /\ exists self params,
             fn_params out = self :: params
             /\ List.length params = List.length rest
             /\ param_name self = "self" /\ param_type self = None)
  /\ (isclass parent = true -> ~ leading_self args ->
        is_staticmethod out = Some true)
  /\ (isclass parent = false -> is_staticmethod out = Some true).

(** A class, and the docstring pybind11 writes for a method of it. *)
Definition sample_pybind_class : PyObject :=
  mkPyObject false true false (Some "Foo") (Some "m") None None None [].

Definition sample_pybind_method : PyObject :=
  mkPyObject false false false (Some "scale") None None
             (Some "scale(self: m.Foo, arg0: float) -> None") None [].

(* ================================================================== *)
(** ** Natural names of exported objects *)
(* ================================================================== *)

(** The qualified name an object has by itself: [__name__] for a module,
    [__module__ + '.' + __name__] for anything else that has both. *)
Definition natural_name (object : PyObject) : option string :=
  if ismodule object then __name__ object
  else match __module__ object, __name__ object with
       | Some module, Some name => Some (module ++ "." ++ name)
       | _, _ => None
       end.

(** The dotted path of the entry [name] of the export list of [path]. *)
Definition export_path (path : list string) (name : string) : string :=
  Py.join "." (path ++ [name])%list.

(** A class whose native qualified name is [pkg._impl.Pub]. *)
Definition sample_pub : PyObject :=
  mkPyObject false true false (Some "Pub") (Some "pkg._impl") None None None [].

Definition sample_pub_state : State :=
  mkState false [("pkg._impl.Pub", "root.Pub")].

(* ================================================================== *)
(** ** The grammar of types *)
(* ================================================================== *)

(** A type of the grammar: a token, optionally followed by a bracketed
    list of inner types. *)
Inductive TypeExpr : Type :=
| Plain (token : string)
| Generic (token : string) (inner : TypeList)
with TypeList : Type :=
| TNil
| TCons (first : TypeExpr) (others : TypeList).

Scheme TypeExpr_mut := Induction for TypeExpr Sort Prop
  with TypeList_mut := Induction for TypeList Sort Prop.
Combined Scheme type_mutind from TypeExpr_mut, TypeList_mut.

(** The text of a type; inner types are separated by [", "]. *)
Fixpoint render (t : TypeExpr) : string :=
  match t with
  | Plain token => token
  | Generic token inner => token ++ "[" ++ render_list inner ++ "]"
  end
with render_list (l : TypeList) : string :=
  match l with
  | TNil => ""
  | TCons first others =>
      render first ++ match others with
                      | TNil => ""
                      | TCons _ _ => ", " ++ render_list others
                      end
  end.

(** The same type with [map_name_prefix] applied to every token. *)
Fixpoint map_types (state : State) (t : TypeExpr) : TypeExpr :=
  match t with
  | Plain token => Plain (map_name_prefix state token)
  | Generic token inner =>
      Generic (map_name_prefix state token) (map_type_list state inner)
  end
with map_type_list (state : State) (l : TypeList) : TypeList :=
  match l with
  | TNil => TNil
  | TCons first others =>
      TCons (map_types state first) (map_type_list state others)
  end.

Definition top_token (t : TypeExpr) : string :=
  match t with Plain token | Generic token _ => token end.

(** Depth of bracket nesting of a type. *)
Fixpoint nesting (t : TypeExpr) : nat :=
  match t with
  | Plain _ => 0
  | Generic _ inner => S (nesting_list inner)
  end
with nesting_list (l : TypeList) : nat :=
  match l with
  | TNil => 0
  | TCons first others => Nat.max (nesting first) (nesting_list others)
  end.

Fixpoint all_chars (p : ascii -> bool) (s : string) : bool :=
  match s with
  | EmptyString => true
  | String c s' => p c && all_chars p s'
  end.

(** A token of the grammar: one or more characters of [[a-zA-Z0-9_.]]. *)
Definition is_type_token (token : string) : bool :=
  Py.truthy token && all_chars _pybind_type_rx token.

Fixpoint well_formed (t : TypeExpr) : bool :=
  match t with
  | Plain token => is_type_token token
  | Generic token inner => is_type_token token && well_formed_list inner
  end
with well_formed_list (l : TypeList) : bool :=
  match l with
  | TNil => true
  | TCons first others => well_formed first && well_formed_list others
  end.

(** What may follow a type in the input: nothing, or a character that
    neither continues the token nor opens a bracket. *)
Definition type_boundary (rest : string) : bool :=
  match rest with
  | EmptyString => true
  | String c _ => negb (_pybind_type_rx c) && negb (Ascii.eqb c "[")
  end.

(** Depth of bracket nesting of a text: the largest number of brackets
    open at any point of a scan from the left. *)
Fixpoint depth_scan (open deepest : nat) (s : string) : nat :=
  match s with
  | EmptyString => deepest
  | String c s' =>
      if Ascii.eqb c "[" then depth_scan (S open) (Nat.max deepest (S open)) s'
      else if Ascii.eqb c "]" then depth_scan (Nat.pred open) deepest s'
      else depth_scan open deepest s'
  end.

Definition bracket_depth (s : string) : nat := depth_scan 0 0 s.

Definition is_bracket (c : ascii) : bool := Ascii.eqb c "[" || Ascii.eqb c "]".

Definition bracket_free (s : string) : bool :=
  all_chars (fun c => negb (is_bracket c)) s.

(** Recursion budget that parsing a type takes. *)
Fixpoint parse_cost (t : TypeExpr) : nat :=
  match t with
  | Plain _ => 1
  | Generic _ inner => S (parse_cost_list inner)
  end
with parse_cost_list (l : TypeList) : nat :=
  match l with
  | TNil => 1
  | TCons first others => S (parse_cost first + parse_cost_list others)
  end.

Definition stops (p : ascii -> bool) (rest : string) : bool :=
  match rest with
  | EmptyString => true
  | String c _ => negb (p c)
  end.

(** Every token of a type is free of brackets. *)
Fixpoint tokens_bracket_free (t : TypeExpr) : bool :=
  match t with
  | Plain token => bracket_free token
  | Generic token inner => bracket_free token && tokens_bracket_free_list inner
  end
with tokens_bracket_free_list (l : TypeList) : bool :=
  match l with
  | TNil => true
  | TCons first others =>
      tokens_bracket_free first && tokens_bracket_free_list others
  end.

(** All replacements of the table are free of brackets, as dotted paths
    are. *)
Definition replacements_bracket_free (state : State) : Prop :=
  Forall (fun item => bracket_free (snd item) = true) (module_mapping state).

Definition sample_type : TypeExpr :=
  Generic "List"
    (TCons (Generic "Tuple" (TCons (Plain "int")
                               (TCons (Plain "pkg._impl.Pub") TNil)))
           (TCons (Plain "str") TNil)).

(* ================================================================== *)
(** ** Signatures on which parsing gives up *)
(* ================================================================== *)

(** One or more arguments are consumed from [signature], separated by
    [", "], and [rest] is what follows the last of them. *)
Inductive args_consumed (state : State) : string -> list Arg -> string -> Prop :=
| consumed_last (signature rest : string) (arg : Arg) :
    parse_pybind_arg state signature = Ok (rest, arg) ->
    args_consumed state signature [arg] rest
| consumed_more (signature next rest : string) (arg : Arg) (args : list Arg) :
    parse_pybind_arg state signature = Ok (", " ++ next, arg) ->
    args_consumed state next args rest ->
    args_consumed state signature (arg :: args) rest.

(** The argument list is complete: [rest] begins with the closing
    parenthesis, reached at once, after an argument, or after the
    separator that follows an argument. *)
Inductive args_done (state : State) : string -> list Arg -> string -> Prop :=
| done_here (signature : string) :
    Py.startswith signature ")" = true ->
    args_done state signature [] signature
| done_after (signature rest : string) (arg : Arg) :
    parse_pybind_arg state signature = Ok (rest, arg) ->
    Py.startswith rest ")" = true ->
    args_done state signature [arg] rest
| done_more (signature next rest : string) (arg : Arg) (args : list Arg) :
    parse_pybind_arg state signature = Ok (", " ++ next, arg) ->
    args_done state next args rest ->
    args_done state signature (arg :: args) rest.

(** The optional return type is read from [after], leaving [rest]. *)
Definition return_type_read (state : State) (after rest : string) : Prop :=
  (Py.startswith after " -> " = true
   /\ exists type, parse_pybind_type state (Py.drop 4 after) = Ok (rest, type))
  \/ (Py.startswith after " -> " = false /\ rest = after).

(** The text after the name of a signature on which parsing gives up:
    after one or more arguments there is text that is neither [", "] nor
    [")"], or after the closing parenthesis and the optional return type
    there is text that does not begin with a line break. *)
Inductive malformed (state : State) : string -> Prop :=
| malformed_argument (body rest : string) (args : list Arg) :
    args_consumed state body args rest ->
    Py.truthy rest = true ->
    Py.startswith rest ")" = false ->
    Py.startswith rest ", " = false ->
    malformed state ("(" ++ body)
| malformed_tail (body after rest : string) (args : list Arg) :
    args_done state body args (")" ++ after) ->
    return_type_read state after rest ->
    Py.truthy rest = true ->
    Py.startswith rest Py.nl = false ->
    malformed state ("(" ++ body).

Definition not_newline (c : ascii) : bool := negb (Ascii.eqb c Py.LF).

(** The text up to the first line break. *)
Definition first_line (s : string) : string := fst (Py.span not_newline s).

(** The text after the first line break; empty when there is none. *)
Definition after_first_line (s : string) : string :=
  Py.drop 1 (snd (Py.span not_newline s)).

(** The summary of a signature that could not be parsed: when a blank line
    directly follows the first line, the summary of the text from that
    blank line on, otherwise nothing. *)
Definition degenerate_summary {lib : Library} (state : State)
    (original_signature : string) : string :=
  if Py.startswith (after_first_line original_signature) Py.nl
  then extract_summary state [] [] (Some (after_first_line original_signature))
  else "".

(* ================================================================== *)
(** ** Runs that end by themselves *)
(* ================================================================== *)

(** A run ends by itself, with a value or with an exception. *)
Definition terminates {A : Type} (r : result A) : Prop := r <> OutOfFuel.

Definition is_digit (c : ascii) : bool := Py.in_range "0" "9" c.

(* ================================================================== *)
(** * Further parts of the program *)
(* ================================================================== *)

(** ** Page URLs, breadcrumbs and the links to inner pages *)

Definition make_url (path : list string) : string :=
  Py.join "." path ++ ".html".

(** [l[-1]] *)
Definition py_last {A : Type} (l : list A) : result A :=
  match rev l with
  | [] => Raise IndexError
  | x :: _ => Ok x
  end.

(** The loop at the head of [render_module] and [render_class] that builds
    [breadcrumb]. *)
Fixpoint breadcrumb_loop (url_base : string) (breadcrumb : list (string * string))
    (path : list string) : list (string * string) :=
  match path with
  | [] => breadcrumb
  | i :: path' =>
      let url_base := url_base ++ i ++ "." in
      breadcrumb_loop url_base
        (breadcrumb ++ [(i, (url_base ++ "html")%string)])%list path'
  end.

(** The fields of [page] set before the members are collected, and the
    name of the index entry. *)
Record PageHead : Type := mkPageHead {
  page_summary : string;
  page_url : string;
  page_breadcrumb : list (string * string);
  page_prefix_wbr : string;
  index_entry_name : string
}.

(** The head of [render_module] ([docs] is [state.module_docs]) and of
    [render_class] ([docs] is [state.class_docs]), up to the index entry. *)
Definition page_head {lib : Library} (state : State)
    (docs : list (string * ExternalDoc)) (path : list string)
    (doc : option string) : result PageHead :=
  let breadcrumb := breadcrumb_loop "" [] path in
  let summary := extract_summary state docs path doc in
  '(_, url) <- py_last breadcrumb ;;
  let prefix_wbr := Py.join ".<wbr />" (path ++ [""])%list in
  '(name, _) <- py_last breadcrumb ;;
  Ok (mkPageHead summary url breadcrumb prefix_wbr name).

(** What [extract_module_doc] and [extract_class_doc] return: the entry of
    an inner module or class on the page of its parent. *)
Record LinkDoc : Type := mkLinkDoc {
  link_url : string;
  link_name : string;
  link_summary : string
}.

(** [extract_module_doc]; the source passes [state.class_docs] here. *)
Definition extract_module_doc {lib : Library} (state : State)
    (class_docs : list (string * ExternalDoc)) (path : list string)
    (module : PyObject) : result LinkDoc :=
  _ <- py_assert (ismodule module) ;;
  let url := make_url path in
  name <- path_last path ;;
  Ok (mkLinkDoc url name (extract_summary state class_docs path (__doc__ module))).

Definition extract_class_doc {lib : Library} (state : State)
    (class_docs : list (string * ExternalDoc)) (path : list string)
    (class_ : PyObject) : result LinkDoc :=
  _ <- py_assert (isclass class_) ;;
  let url := make_url path in
  name <- path_last path ;;
  Ok (mkLinkDoc url name (extract_summary state class_docs path (__doc__ class_))).

(** The loop over [inspect.getmembers(module, inspect.ismodule)] of
    [render_module]: the entries of [page.modules] and the modules queued
    in [modules_to_render]. *)
Fixpoint inspect_modules {lib : Library} (state : State)
    (class_docs : list (string * ExternalDoc)) (module : PyObject)
    (path : list string) (members : list (string * PyObject))
    (modules : list LinkDoc) (modules_to_render : list (list string * PyObject))
  : result (list LinkDoc * list (list string * PyObject)) :=
  match members with
  | [] => Ok (modules, modules_to_render)
  | (name, object) :: members' =>
      if is_internal_or_imported_module_member state module path name object
      then inspect_modules state class_docs module path members'
                           modules modules_to_render
      else
        let subpath := (path ++ [name])%list in
        doc <- extract_module_doc state class_docs subpath object ;;
        inspect_modules state class_docs module path members'
                        (modules ++ [doc])%list
                        (modules_to_render ++ [(subpath, object)])%list
  end.

(** The loop over the classes of a module that are not enums; the warnings
    for classes without a docstring are returned as well. *)
Fixpoint inspect_classes {lib : Library} (state : State)
    (class_docs : list (string * ExternalDoc)) (module : PyObject)
    (path : list string) (members : list (string * PyObject))
    (classes : list LinkDoc) (classes_to_render : list (list string * PyObject))
    (log : list string)
  : result (list LinkDoc * list (list string * PyObject) * list string) :=
  match members with
  | [] => Ok (classes, classes_to_render, log)
  | (name, object) :: members' =>
      if is_internal_or_imported_module_member state module path name object
      then inspect_classes state class_docs module path members'
                           classes classes_to_render log
      else
        let subpath := (path ++ [name])%list in
        let log :=
          if opt_falsy (__doc__ object)
          then (log ++ [(Py.join "." subpath ++ " is undocumented")%string])%list
          else log in
        doc <- extract_class_doc state class_docs subpath object ;;
        inspect_classes state class_docs module path members'
                        (classes ++ [doc])%list
                        (classes_to_render ++ [(subpath, object)])%list log
  end.

(** ** Notions for the statements about pages *)

(** The non-empty prefixes of a path, shortest first. *)
Fixpoint prefixes (path : list string) : list (list string) :=
  match path with
  | [] => []
  | i :: path' => [i] :: map (cons i) (prefixes path')
  end.

(** The names of the members the module filter keeps. *)
Definition kept_names (state : State) (module : PyObject) (path : list string)
    (members : list (string * PyObject)) : list string :=
  map fst
    (filter (fun member =>
               negb (is_internal_or_imported_module_member
                       state module path (fst member) (snd member)))
            members).
(** Three lists of equal length, related position by position. *)
Inductive Forall3 {A B C : Type} (R : A -> B -> C -> Prop)
  : list A -> list B -> list C -> Prop :=
| Forall3_nil : Forall3 R [] [] []
| Forall3_cons (a : A) (b : B) (c : C) (la : list A) (lb : list B) (lc : list C) :
    R a b c -> Forall3 R la lb lc -> Forall3 R (a :: la) (b :: lb) (c :: lc).

(** A link of a page and the queued page it stands for: the names agree
    and the link is the URL the page of the queued path gets. *)
Definition linked {lib : Library} (state : State) (path : list string)
    (name : string) (link : LinkDoc) (queued : list string * PyObject) : Prop :=
  fst queued = (path ++ [name])%list
  /\ link_name link = name
  /\ forall docs doc,
       exists head,
         page_head state docs (fst queued) doc = Ok head
         /\ page_url head = link_url link.

(** ** The index tree *)

(** [IndexEntry].  The class declares [has_nestaable_children];
    [mark_nested_modules] sets an attribute of another name,
    [has_nestable_children], which is [None] until it is set.  The
    induction principle is [IndexEntry_forall_ind] below. *)
#[local] Unset Elimination Schemes.
Inductive IndexEntry : Type := mkIndexEntry {
  entry_kind : string;
  entry_name : string;
  entry_url : string;
  entry_summary : string;
  has_nestaable_children : bool;
  has_nestable_children : option bool;
  entry_children : list IndexEntry
}.
#[local] Set Elimination Schemes.

(** The loop of [mark_nested_modules] over its argument, with the flag
    [has_nestable_children] it accumulates; [mark_children] is what the
    recursive call does to a module entry. *)
Fixpoint mark_nested_loop (mark_children : IndexEntry -> IndexEntry)
    (entries : list IndexEntry) (has_nestable_children : bool)
  : bool * list IndexEntry :=
  match entries with
  | [] => (has_nestable_children, [])
  | i :: entries' =>
      if negb (String.eqb (entry_kind i) "module")
      then
        let (result, marked) :=
          mark_nested_loop mark_children entries' has_nestable_children in
        (result, i :: marked)
      else
        let (result, marked) := mark_nested_loop mark_children entries' true in
        (result, mark_children i :: marked)
  end.

(** [i.has_nestable_children = mark_nested_modules(i.children)] *)
Fixpoint mark_entry (i : IndexEntry) : IndexEntry :=
  match i with
  | mkIndexEntry kind name url summary declared _ children =>
      let (result, children') := mark_nested_loop mark_entry children false in
      mkIndexEntry kind name url summary declared (Some result) children'
  end.

(** [mark_nested_modules(list)]: the value returned and the entries after
    the call. *)
Definition mark_nested_modules (entries : list IndexEntry)
  : bool * list IndexEntry :=
  mark_nested_loop mark_entry entries false.

(** ** Notions for the statements about the index *)

Definition is_module_entry (i : IndexEntry) : bool :=
  String.eqb (entry_kind i) "module".

(** An entry and all entries below it with the flag taken away. *)
Fixpoint without_marks (i : IndexEntry) : IndexEntry :=
  match i with
  | mkIndexEntry kind name url summary declared _ children =>
      mkIndexEntry kind name url summary declared None (map without_marks children)
  end.

(** Every module entry of the list carries the flag, which says whether
    one of its children is a module, and so do the module entries reached
    through module entries below it. *)
Fixpoint modules_marked_in (i : IndexEntry) : Prop :=
  match i with
  | mkIndexEntry kind _ _ _ _ flag children =>
      String.eqb kind "module" = true ->
      flag = Some (existsb is_module_entry children)
      /\ (fix all (l : list IndexEntry) : Prop :=
            match l with
            | [] => True
            | j :: l' => modules_marked_in j /\ all l'
            end) children
  end.

Definition modules_marked (entries : list IndexEntry) : Prop :=
  Forall modules_marked_in entries.

(** Induction over an entry with the hypothesis for all its children. *)
Fixpoint IndexEntry_forall_ind (P : IndexEntry -> Prop)
    (step : forall kind name url summary declared flag children,
        Forall P children ->
        P (mkIndexEntry kind name url summary declared flag children))
    (i : IndexEntry) : P i :=
  match i with
  | mkIndexEntry kind name url summary declared flag children =>
      step kind name url summary declared flag children
           ((fix all (l : list IndexEntry) : Forall P l :=
               match l with
               | [] => Forall_nil P
               | j :: l' =>
                   Forall_cons j (IndexEntry_forall_ind P step j) (all l')
               end) children)
  end.

(** ** Notions for the statements about the export list *)

(** An entry of an export list that is exported from where it is defined:
    a module named as its place in the list, or another object whose
    [__module__] and [__name__] give that place, or that has no
    [__module__] at all. *)
Definition native_export (path : list string) (name : string)
    (object : PyObject) : Prop :=
  if ismodule object
  then __name__ object = Some (export_path path name)
       /\ __module__ object = None
  else match __module__ object with
       | None => True
       | Some module =>
           exists object_name,
             __name__ object = Some object_name
             /\ module ++ "." ++ object_name = export_path path name
       end.

(** A class re-exported under two names. *)
Definition sample_alias_attrs : list (string * PyObject) :=
  [("Pub", sample_pub); ("Alias", sample_pub)].

(** A module re-exported under another name, and a function defined in
    it. *)
Definition sample_native_module : PyObject :=
  mkPyObject true false false (Some "pkg._native.sub") None (Some "pkg._native")
             None None [].

Definition sample_native_function : PyObject :=
  mkPyObject false false false (Some "func") (Some "pkg._native.sub") None
             (Some "Does something.") None [].

Definition sample_submodule_state : State :=
  mkState false [("pkg._native.sub", "root.submodule")].

(** ** Notions for the statements about signatures *)

(** The text of one argument of a signature: its name, optional type and
    optional default value. *)
Record ArgText : Type := mkArgText {
  text_name : string;
  text_type : option TypeExpr;
  text_default : option string
}.

Definition render_arg (a : ArgText) : string :=
  text_name a
  ++ match text_type a with
     | Some t => ": " ++ render t
     | None => ""
     end
  ++ match text_default a with
     | Some d => "=" ++ d
     | None => ""
     end.

Fixpoint render_args (args : list ArgText) : string :=
  match args with
  | [] => ""
  | a :: others =>
      render_arg a ++ match others with
                      | [] => ""
                      | _ :: _ => ", " ++ render_args others
                      end
  end.

(** [name(arg, ...)] followed by [ -> type] when there is a return type. *)
Definition render_signature (name : string) (args : list ArgText)
    (return_type : option TypeExpr) : string :=
  name ++ "(" ++ render_args args ++ ")"
  ++ match return_type with
     | Some t => " -> " ++ render t
     | None => ""
     end.

(** The name is one or more characters of [[*a-zA-Z0-9_]], the type a type
    of the grammar, the default one or more characters other than [,] and
    [)]. *)
Definition arg_well_formed (a : ArgText) : bool :=
  Py.truthy (text_name a) && all_chars _pybind_arg_name_rx (text_name a)
  && match text_type a with
     | Some t => well_formed t
     | None => true
     end
  && match text_default a with
     | Some d => Py.truthy d && all_chars _pybind_default_value_rx d
     | None => true
     end.

(** The text of a type after name mapping. *)
Definition mapped_type (state : State) (t : option TypeExpr) : option string :=
  option_map (fun t => render (map_types state t)) t.

(** The tuple the parser is to return for an argument. *)
Definition parsed_arg (state : State) (a : ArgText) : Arg :=
  (text_name a, mapped_type state (text_type a), text_default a).

(** The character after an argument: a comma or a closing parenthesis. *)
Definition arg_end (rest : string) : bool :=
  match rest with
  | EmptyString => false
  | String c _ => Ascii.eqb c "," || Ascii.eqb c ")"
  end.

(** ["{}(*args, **kwargs)\nOverloaded function.\n\n".format(name)] *)
Definition overload_header (name : string) : string :=
  name ++ "(*args, **kwargs)" ++ Py.nl ++ "Overloaded function."
       ++ Py.nl ++ Py.nl.

Definition sample_args : list ArgText :=
  [ mkArgText "self" (Some (Plain "pkg._impl.Pub")) None;
    mkArgText "items"
      (Some (Generic "List" (TCons (Plain "int") TNil))) (Some "[]");
    mkArgText "*args" None None;
    mkArgText "**kwargs" None None ].

(** ** Notions for the statements about summaries *)

(** The externally supplied summary of a path, when there is one and it is
    not empty. *)
Definition external_summary (docs : list (string * ExternalDoc))
    (path : list string) : option string :=
  match dict_get (Py.join "." path) docs with
  | Some d => if Py.truthy (doc_summary d) then Some (doc_summary d) else None
  | None => None
  end.

(** [sub] occurs in [s]. *)
Definition occurs_in (sub s : string) : Prop :=
  exists before after, s = before ++ sub ++ after.

(** A blank line: two line breaks in a row. *)
Definition blank_line : string := Py.nl ++ Py.nl.

(** ** Member extraction: enums *)

(** A member of an enum class, as the loop [for i in enum_] sees it. *)
Record PyEnumMember : Type := mkPyEnumMember {
  member_name : string;
  member_value_repr : string;           (* [repr(i.value)] *)
  member_doc : option string
}.

(** What [extract_enum_doc] reads of an enum. *)
Record PyEnum : Type := mkPyEnum {
  is_Enum_subclass : bool;              (* [issubclass(enum_, enum.Enum)] *)
  enum___doc__ : option string;
  enum___base__ : string * string;      (* [__module__] and [__name__] of it *)
  enum_iter : list PyEnumMember;
  (* [__members__.items()] with [int(v)] for the values; [None] without
     the attribute *)
  enum___members__ : option (list (string * Z))
}.

Record EnumValueDoc : Type := mkEnumValueDoc {
  value_name : string;
  value_value : string + Z;             (* escaped [repr], or an integer *)
  value_summary : string
}.

(** The record [extract_enum_doc] fills in; [summary] and [base] are
    [None] while the attribute is not set. *)
Record EnumDoc : Type := mkEnumDoc {
  enum_name : string;
  enum_values : list EnumValueDoc;
  enum_has_details : bool;
  enum_has_value_details : bool;
  enum_summary : option string;
  enum_base : option (option string)
}.

Section Enums.
Context {lib : Library}.

(** The loop [for i in enum_] with the three attributes it updates. *)
Fixpoint enum_values_loop (state : State) (enum_doc : option string)
    (members : list PyEnumMember) (values : list EnumValueDoc)
    (has_details has_value_details : bool)
  : list EnumValueDoc * bool * bool :=
  match members with
  | [] => (values, has_details, has_value_details)
  | i :: members' =>
      let summary :=
        if optstr_eqb (member_doc i) enum_doc then ""
        else extract_summary state [] [] (member_doc i) in
      let value :=
        mkEnumValueDoc (member_name i)
                       (inl (html_escape (member_value_repr i))) summary in
      if Py.truthy summary
      then enum_values_loop state enum_doc members' (values ++ [value])%list
                            true true
      else enum_values_loop state enum_doc members' (values ++ [value])%list
                            has_details has_value_details
  end.

(** The loop over [enum_.__members__.items()]. *)
Fixpoint pybind_enum_values_loop (members : list (string * Z))
    (values : list EnumValueDoc) : list EnumValueDoc :=
  match members with
  | [] => values
  | (name, v) :: members' =>
      pybind_enum_values_loop members'
        (values ++ [mkEnumValueDoc name (inr v) ""])%list
  end.

Definition extract_enum_doc (state : State) (path : list string)
    (enum_ : PyEnum) : result EnumDoc :=
  name <- path_last path ;;
  if is_Enum_subclass enum_
  then
    let summary :=
      if optstr_eqb (enum___doc__ enum_) (Some "An enumeration.") then ""
      else extract_summary state [] [] (enum___doc__ enum_) in
    let base := extract_type (fst (enum___base__ enum_))
                             (snd (enum___base__ enum_)) in
    let '(values, has_details, has_value_details) :=
      enum_values_loop state (enum___doc__ enum_) (enum_iter enum_)
                       [] false false in
    Ok (mkEnumDoc name values has_details has_value_details
                  (Some summary) (Some (Some base)))
  else if PYBIND11_COMPATIBILITY state
  then
    members <- match enum___members__ enum_ with
               | Some members => Ok members
               | None => Raise AssertionError
               end ;;
    let summary := extract_summary state [] [] (enum___doc__ enum_) in
    Ok (mkEnumDoc name (pybind_enum_values_loop members []) false false
                  (Some summary) (Some None))
  else Ok (mkEnumDoc name [] false false None None).

End Enums.

(** ** Member extraction: properties and data *)

(** What [extract_property_doc] reads of the getter of a property. *)
Record PyGetter : Type := mkPyGetter {
  (* [inspect.signature(fget)]; [None] where it raises [ValueError] *)
  getter_signature : option PySignature;
  getter___doc__ : option string
}.

(** What [extract_property_doc] reads of a data descriptor.  For [fset],
    [fdel] and [fget], [None] is a missing attribute, as on slot and
    getset descriptors; [Some b] for the first two says whether the value
    is not [None]; [Some None] for [fget] is the value [None]. *)
Record PyProperty : Type := mkPyProperty {
  isdatadescriptor : bool;
  property___doc__ : option string;
  fset : option bool;
  fdel : option bool;
  fget : option (option PyGetter)
}.

Record PropertyDoc : Type := mkPropertyDoc {
  property_name : string;
  property_summary : string;
  is_settable : bool;
  is_deletable : bool;
  property_has_details : bool;
  property_type : option string
}.

(** The tests of [inspect] and of [is_enum] on an object. *)
Record Kind : Type := mkKind {
  kind_ismodule : bool;
  kind_isclass : bool;
  kind_isfunction : bool;
  kind_isbuiltin : bool;
  kind_isroutine : bool;
  kind_isframe : bool;
  kind_istraceback : bool;
  kind_iscode : bool;
  kind_is_Enum_subclass : bool;         (* [issubclass(object, enum.Enum)] *)
  kind_has___members__ : bool
}.

Definition is_enum (state : State) (object : Kind) : bool :=
  (kind_isclass object && kind_is_Enum_subclass object)
  || (PYBIND11_COMPATIBILITY state && kind_has___members__ object).

(** What [extract_data_doc] reads of a value. *)
Record PyData : Type := mkPyData {
  data_kind : Kind;
  (* [repr(data)] when ['__repr__' in type(data).__dict__] *)
  data_repr : option string
}.

Record DataDoc : Type := mkDataDoc {
  data_name : string;
  data_summary : string;
  data_has_details : bool;
  data_type : option string;
  data_value : option string
}.

(** [key in d] and [del d[key]] for a dict kept as the list of its items. *)
Definition dict_has {V : Type} (key : string) (d : list (string * V)) : bool :=
  match dict_get key d with Some _ => true | None => false end.

Definition dict_del {V : Type} (key : string) (d : list (string * V))
  : list (string * V) :=
  filter (fun item => negb (String.eqb (fst item) key)) d.

Section PropertiesAndData.
Context {lib : Library}.

(** [extract_property_doc], with the warnings the signature parser logs.
    [inspect.signature(None)] and the regular expression match on a
    docstring that is [None] raise [TypeError]. *)
Definition extract_property_doc (state : State) (path : list string)
    (property : PyProperty) : result (PropertyDoc * list string) :=
  _ <- py_assert (isdatadescriptor property) ;;
  name <- path_last path ;;
  let summary := extract_summary state [] [] (property___doc__ property) in
  settable <- getattr (fset property) ;;
  deletable <- getattr (fdel property) ;;
  getter <- getattr (fget property) ;;
  getter <- match getter with
            | Some getter => Ok getter
            | None => Raise TypeError
            end ;;
  '(type, warnings) <-
     match getter_signature getter with
     | Some signature =>
         type <- extract_annotation state (return_annotation signature) ;;
         Ok (type, [])
     | None =>
         if PYBIND11_COMPATIBILITY state
         then doc <- match getter___doc__ getter with
                     | Some doc => Ok doc
                     | None => Raise TypeError
                     end ;;
              '(parsed, warnings) <- parse_pybind_signature state doc ;;
              Ok (snd parsed, warnings)
         else Ok (None, [])
     end ;;
  Ok (mkPropertyDoc name summary settable deletable false type, warnings).

(** [extract_data_doc]: the record, and [state.data_docs] after the call.
    [annotations] is [parent.__annotations__], when the parent has it. *)
Definition extract_data_doc (state : State)
    (data_docs : list (string * ExternalDoc))
    (annotations : option (list (string * Annotation)))
    (path : list string) (data : PyData)
  : result (DataDoc * list (string * ExternalDoc)) :=
  let kind := data_kind data in
  _ <- py_assert (negb (kind_ismodule kind) && negb (kind_isclass kind)
                  && negb (kind_isroutine kind) && negb (kind_isframe kind)
                  && negb (kind_istraceback kind) && negb (kind_iscode kind)) ;;
  name <- path_last path ;;
  type <-
    match annotations with
    | Some annotations =>
        match dict_get name annotations with
        | Some annotation => extract_annotation state annotation
        | None => Ok None
        end
    | None => Ok None
    end ;;
  let value := option_map html_escape (data_repr data) in
  let path_str := Py.join "." path in
  match dict_get path_str data_docs with
  | Some doc =>
      Ok (mkDataDoc name (render_inline_rst state (doc_summary doc)) false
                    type value,
          dict_del path_str data_docs)
  | None => Ok (mkDataDoc name "" false type value, data_docs)
  end.

End PropertiesAndData.

(** ** The handlers of the export list *)

(** The branches of the second loop over [module.__all__]. *)
Inductive Handler : Type :=
| AsModule
| AsClass
| AsEnum
| AsFunction
| AsData
| AsUnknown.

Definition export_handler (state : State) (object : Kind) : Handler :=
  if kind_ismodule object then AsModule
  else if kind_isclass object && negb (is_enum state object) then AsClass
  else if kind_isclass object && is_enum state object then AsEnum
  else if kind_isfunction object || kind_isbuiltin object then AsFunction
  else if negb (kind_isframe object) && negb (kind_istraceback object)
          && negb (kind_iscode object)
  then AsData
  else AsUnknown.

(** ** Sample objects *)

(** [class Color(enum.Enum)] with a documented and an undocumented
    member. *)
Definition sample_enum : PyEnum :=
  mkPyEnum true (Some "Colors.") ("enum", "Enum")
    [ mkPyEnumMember "RED" "1" (Some "Colors.");
      mkPyEnumMember "GREEN" "2" (Some "The colour green.") ]
    None.

(** A bound method: a routine that is neither a function nor a builtin. *)
Definition sample_bound_method : Kind :=
  mkKind false false false false true false false false false false.

Definition sample_plain_value : Kind :=
  mkKind false false false false false false false false false false.

Definition sample_pybind_property : PyProperty :=
  mkPyProperty true (Some "The size.") (Some true) (Some false)
    (Some (Some (mkPyGetter None
                   (Some "(self: pkg._impl.Pub) -> List[int]")))).

(** A slot of a class with [__slots__]: a member descriptor, which is a
    data descriptor without [fget], [fset] and [fdel]. *)
Definition sample_slot : PyProperty :=
  mkPyProperty true None None None None.

(** The value one member of a native enum contributes. *)
Definition enum_value {lib : Library} (state : State)
    (enum_doc : option string) (i : PyEnumMember) : EnumValueDoc :=
  mkEnumValueDoc (member_name i) (inl (html_escape (member_value_repr i)))
    (if optstr_eqb (member_doc i) enum_doc then ""
     else extract_summary state [] [] (member_doc i)).

(** The predicate of the [inspect.getmembers] call that collects data. *)
Definition inspected_as_data (object : Kind) : bool :=
  negb (kind_ismodule object) && negb (kind_isclass object)
  && negb (kind_isroutine object) && negb (kind_isframe object)
  && negb (kind_istraceback object) && negb (kind_iscode object).

(** ** Notions for the statements about parameters and method names *)

(** The arguments are named [arg<first>], [arg<first+1>], ... in order. *)
Definition numbered (first : nat) (args : list Arg) : Prop :=
  forall i arg,
    nth_error args i = Some arg ->
    fst (fst arg) = "arg" ++ Py.str (first + i).

(** [counted] are the arguments whose names decide the kind of the
    parameters: all of them, or in a class all but a leading [self]. *)
Definition counted_args (parent : PyObject) (args counted : list Arg) : Prop :=
  (isclass parent = true
   /\ exists type default, args = ("self", type, default) :: counted)
  \/ ((isclass parent = false \/ ~ leading_self args) /\ counted = args).

(** How the parameter [p] stands for the parsed argument [arg], given
    whether the counted arguments are numbered. *)
Definition param_of_arg (all_numbered : Prop) (arg : Arg) (p : Param) : Prop :=
  let name := fst (fst arg) in
  (name = "*args" ->
     param_name p = "args" /\ param_kind p = Some "VAR_POSITIONAL")
  /\ (name = "**kwargs" ->
     param_name p = "kwargs" /\ param_kind p = Some "VAR_KEYWORD")
  /\ (name <> "*args" -> name <> "**kwargs" ->
     param_name p = name
     /\ (all_numbered -> param_kind p = Some "POSITIONAL_ONLY")
     /\ (~ all_numbered -> param_kind p = Some "POSITIONAL_OR_KEYWORD")).

(** The names in the lists of a class page: dunder names in
    [dunder_methods], names without a leading underscore elsewhere. *)
Definition names_sorted (page : ClassPage) : Prop :=
  Forall (fun function => is_dunder (fn_name function) = true)
         (dunder_methods page)
  /\ forall bucket,
       bucket <> DunderMethods ->
       Forall (fun function => Py.startswith (fn_name function) "_" = false)
              (bucket_list bucket page).

(** ** Notions for the statements about annotations *)

(** The text an annotation stands for: nothing for the empty marker, the
    mapped string for a string, the mapped [str(annotation)] for an object
    of the module [typing], and for any other object with a module and a
    name the mapped name, qualified by the module unless that is
    [builtins]. *)
Inductive annotation_text (state : State) : Annotation -> option string -> Prop :=
| text_of_empty :
    annotation_text state AnnEmpty None
| text_of_str text :
    annotation_text state (AnnStr text) (Some (map_name_prefix state text))
| text_of_typing name text :
    annotation_text state (AnnObject (Some "typing") name text)
                    (Some (map_name_prefix state text))
| text_of_builtin name text :
    annotation_text state (AnnObject (Some "builtins") (Some name) text)
                    (Some (map_name_prefix state name))
| text_of_type module name text :
    module <> "typing" -> module <> "builtins" ->
    annotation_text state (AnnObject (Some module) (Some name) text)
                    (Some (map_name_prefix state (module ++ "." ++ name))).

(** The annotations that lack an attribute [extract_annotation] reads:
    objects without [__module__], such as [None], and objects of a module
    other than [typing] without [__name__]. *)
Inductive annotation_fails : Annotation -> Prop :=
| fails_without_module name text :
    annotation_fails (AnnObject None name text)
| fails_without_name module text :
    module <> "typing" ->
    annotation_fails (AnnObject (Some module) None text).

(** A parameter of a signature and the record that stands for it. *)
Definition param_of_parameter (state : State) (i : PyParameter) (p : Param)
  : Prop :=
  param_name p = parameter_name i
  /\ annotation_text state (parameter_annotation i) (param_type p)
  /\ param_default p = parameter_default i
  /\ param_kind p = Some (parameter_kind i).

(** A function annotated [-> None], as [def close(self) -> None]. *)
Definition sample_returns_none : PyObject :=
  mkPyObject false false false (Some "close") (Some "m") None
    (Some "Close it.")
    (Some (mkPySignature (AnnObject None None "None")
             [mkPyParameter "self" AnnEmpty None "POSITIONAL_OR_KEYWORD"]))
    [].

(* ================================================================== *)
(** * Facts about the string primitives *)
(* ================================================================== *)

Module PyFacts.
Import Py.

Lemma append_nil_r (s : string) : s ++ "" = s.
Proof. induction s as [|c s IH]; simpl; [reflexivity | now rewrite IH]. Qed.

Lemma append_assoc (a b c : string) : (a ++ b) ++ c = a ++ (b ++ c).
Proof. induction a as [|x a IH]; simpl; [reflexivity | now rewrite IH]. Qed.

Lemma length_append (a b : string) :
  String.length (a ++ b) = String.length a + String.length b.
Proof. induction a as [|x a IH]; simpl; [reflexivity | now rewrite IH]. Qed.

Lemma prefix_nil (s : string) : String.prefix "" s = true.
Proof. destruct s; reflexivity. Qed.

Lemma prefix_cons (c d : ascii) (p s : string) :
  String.prefix (String c p) (String d s)
  = Ascii.eqb c d && String.prefix p s.
Proof.
  simpl. destruct (Ascii.ascii_dec c d) as [->|Hne].
  - now rewrite Ascii.eqb_refl.
  - apply Ascii.eqb_neq in Hne. now rewrite Hne.
Qed.

(** [s.startswith(p)] holds exactly when [s] is [p] followed by something. *)
Lemma startswith_iff (s p : string) :
  startswith s p = true <-> exists rest, s = p ++ rest.
Proof.
  unfold startswith. revert s.
  induction p as [|c p IH]; intros s.
  - rewrite prefix_nil. split; [exists s; reflexivity | reflexivity].
  - destruct s as [|d s].
    + simpl. split; [discriminate | intros [r Hr]; discriminate].
    + rewrite prefix_cons, andb_true_iff, Ascii.eqb_eq, IH. split.
      * intros [-> [r ->]]. exists r. reflexivity.
      * intros [r Hr]. simpl in Hr. injection Hr as -> ->.
        split; [reflexivity | exists r; reflexivity].
Qed.

Lemma startswith_append (p rest : string) : startswith (p ++ rest) p = true.
Proof. apply startswith_iff. exists rest. reflexivity. Qed.

Lemma drop_append (p rest : string) : drop (String.length p) (p ++ rest) = rest.
Proof. induction p as [|c p IH]; simpl; [reflexivity | exact IH]. Qed.

Lemma drop_all (s : string) : drop (String.length s) s = "".
Proof. induction s as [|c s IH]; simpl; [reflexivity | exact IH]. Qed.

Lemma take_append (p rest : string) : take (String.length p) (p ++ rest) = p.
Proof. induction p as [|c p IH]; simpl; [reflexivity | now rewrite IH]. Qed.

Lemma length_drop (n : nat) (s : string) :
  String.length (drop n s) = String.length s - n.
Proof.
  revert s. induction n as [|n IH]; intros s.
  - simpl. lia.
  - destruct s as [|c s]; simpl; [reflexivity | apply IH].
Qed.

End PyFacts.

(* ================================================================== *)
(** * The name mapper *)
(* ================================================================== *)

Lemma prefix_matches_iff (n key : string) :
  prefix_matches n key = true <-> key_matches n key.
Proof.
  unfold prefix_matches, key_matches.
  rewrite orb_true_iff, String.eqb_eq, PyFacts.startswith_iff.
  split; (intros [H | [rest H]]; [left; exact H | right; exists rest]).
  - now rewrite <- PyFacts.append_assoc.
  - now rewrite PyFacts.append_assoc.
Qed.

Lemma prefix_matches_false_iff (n key : string) :
  prefix_matches n key = false <-> ~ key_matches n key.
Proof.
  rewrite <- prefix_matches_iff.
  destruct (prefix_matches n key); split; intros H.
  - discriminate.
  - exfalso. apply H. reflexivity.
  - discriminate.
  - reflexivity.
Qed.

Lemma map_name_prefix_items_spec (items : list (string * string)) (n : string) :
  (exists before key replace after,
      items = (before ++ (key, replace) :: after)%list
      /\ (forall k r, In (k, r) before -> ~ key_matches n k)
      /\ key_matches n key
      /\ map_name_prefix_items items n
         = replace ++ Py.drop (String.length key) n)
  \/ ((forall k r, In (k, r) items -> ~ key_matches n k)
      /\ map_name_prefix_items items n = n).
Proof.
  induction items as [|[k r] items IH].
  - right. split; [intros k r [] | reflexivity].
  - simpl. destruct (prefix_matches n k) eqn:Hk.
    + left. exists [], k, r, items. simpl.
      repeat split; [intros ? ? [] | now apply prefix_matches_iff].
    + apply prefix_matches_false_iff in Hk.
      destruct IH as [(before & key & replace & after & -> & Hb & Hm & Hr) | [Hnone Hr]].
      * left. exists ((k, r) :: before), key, replace, after.
        repeat split; try assumption.
        intros k' r' [Heq | Hin]; [injection Heq as <- <-; exact Hk | eauto].
      * right. split; [|exact Hr].
        intros k' r' [Heq | Hin]; [injection Heq as <- <-; exact Hk | eauto].
Qed.

(** C1. [map_name_prefix] returns [replacement + n[len(key):]] for a
    registered key that matches [n] (the name equals the key or starts with
    the key and a dot), and returns [n] unchanged when no registered key
    matches it. *)
Theorem map_name_prefix_spec (state : State) (n : string) :
  (exists key replace,
      In (key, replace) (module_mapping state)
      /\ key_matches n key
      /\ map_name_prefix state n = replace ++ Py.drop (String.length key) n)
  \/ ((forall key replace,
          In (key, replace) (module_mapping state) -> ~ key_matches n key)
      /\ map_name_prefix state n = n).
Proof.
  unfold map_name_prefix.
  destruct (map_name_prefix_items_spec (module_mapping state) n)
    as [(before & key & replace & after & Heq & _ & Hm & Hr) | H].
  - left. exists key, replace. rewrite Heq at 1.
    repeat split; try assumption.
    apply in_or_app. right. left. reflexivity.
  - right. exact H.
Qed.

(** C10. When several registered keys match a name, the replacement of the
    one registered first is used: the table is scanned in insertion order
    and the scan stops at the first key that matches. *)
Theorem map_name_prefix_first_match
    (flag : bool) (before after : list (string * string))
    (key replace n : string) :
  (forall k r, In (k, r) before -> ~ key_matches n k) ->
  key_matches n key ->
  map_name_prefix (mkState flag (before ++ (key, replace) :: after)%list) n
  = replace ++ Py.drop (String.length key) n.
Proof.
  intros Hbefore Hkey. unfold map_name_prefix. simpl.
  induction before as [|[k r] before IH]; simpl.
  - apply prefix_matches_iff in Hkey. now rewrite Hkey.
  - assert (Hk : prefix_matches n k = false).
    { apply prefix_matches_false_iff. apply (Hbefore k r). left. reflexivity. }
    rewrite Hk. apply IH. intros k' r' Hin. apply (Hbefore k' r'). now right.
Qed.

(** Two keys match ["pkg.sub.X"]; the one registered first decides. *)
Lemma map_name_prefix_first_match_witness :
  (forall k r : string, In (k, r) [] -> ~ key_matches "pkg.sub.X" k)
  /\ key_matches "pkg.sub.X" "pkg"
  /\ key_matches "pkg.sub.X" "pkg.sub"
  /\ map_name_prefix
       (mkState false ([] ++ ("pkg", "public") :: [("pkg.sub", "other")])%list)
       "pkg.sub.X"
     = "public.sub.X".
Proof.
  assert (H0 : forall k r : string, In (k, r) [] ->
                                    ~ key_matches "pkg.sub.X" k)
    by (intros k r []).
  assert (H1 : key_matches "pkg.sub.X" "pkg")
    by (right; exists "sub.X"; reflexivity).
  split; [exact H0 | split; [exact H1 | split]].
  - right. exists "X". reflexivity.
  - exact (map_name_prefix_first_match false [] [("pkg.sub", "other")]
             "pkg" "public" "pkg.sub.X" H0 H1).
Defined.

(* ================================================================== *)
(** * The privacy rule and the dunder tables *)
(* ================================================================== *)

Lemma startswith_double_underscore (name : string) :
  Py.startswith name "__" = true -> Py.startswith name "_" = true.
Proof.
  intros H. apply PyFacts.startswith_iff in H as [rest ->].
  apply PyFacts.startswith_iff. exists ("_" ++ rest). reflexivity.
Qed.

Lemma is_internal_function_name_dunder (name : string) :
  is_dunder name = true -> is_internal_function_name name = false.
Proof.
  unfold is_dunder, is_internal_function_name. intros ->.
  apply andb_false_r.
Qed.

Lemma is_internal_function_name_private (name : string) :
  Py.startswith name "_" = true -> is_dunder name = false ->
  is_internal_function_name name = true.
Proof.
  unfold is_dunder, is_internal_function_name. intros -> ->. reflexivity.
Qed.

Lemma method_skipped_dunder (name : string) :
  is_dunder name = true ->
  forall py37 doc,
    method_skipped py37 name doc
    = in_table name doc (_filtered_builtin_functions py37).
Proof.
  intros Hd py37 doc. unfold method_skipped.
  rewrite (is_internal_function_name_dunder name Hd).
  unfold is_dunder in Hd. apply andb_true_iff in Hd as [-> _].
  simpl. now destruct (in_table name doc (_filtered_builtin_functions py37)).
Qed.

(** C4, as stated, fails: the name rule for module members and for class
    properties tests only the leading underscore, so a dunder name is
    excluded there.  The data attribute [__version__] of a module is
    dropped although the same object under the name [version] is kept, and
    a dunder property with documentation of its own is dropped. *)
Lemma dunder_module_member_excluded :
  is_dunder "__version__" = true
  /\ is_internal_or_imported_module_member
       (mkState false []) sample_module ["m"] "__version__" sample_data = true
  /\ is_internal_or_imported_module_member
       (mkState false []) sample_module ["m"] "version" sample_data = false
  /\ is_dunder "__custom__" = true
  /\ property_skipped "__custom__" (Some "Documented by hand.") = true.
Proof. repeat split; reflexivity. Qed.

(** C4, amended.  A name that begins with an underscore and is not a dunder
    name is excluded among class methods, module members and class
    properties alike.  A dunder name is exempt from the name rule for class
    methods only, where nothing but the table of known docstrings decides;
    module members and class properties are excluded whenever the name
    begins with an underscore, dunder or not. *)
Theorem privacy_rule (name : string) :
  (Py.startswith name "_" = true /\ is_dunder name = false ->
     is_internal_function_name name = true
     /\ forall py37 doc, method_skipped py37 name doc = true)
  /\ (is_dunder name = true ->
        is_internal_function_name name = false
        /\ forall py37 doc,
             method_skipped py37 name doc
             = in_table name doc (_filtered_builtin_functions py37))
  /\ (Py.startswith name "_" = true ->
        (forall state parent path object,
            is_internal_or_imported_module_member state parent path name object
            = true)
        /\ (forall doc, property_skipped name doc = true)).
Proof.
  split; [|split].
  - intros [Hus Hnd].
    pose proof (is_internal_function_name_private name Hus Hnd) as Hint.
    split; [exact Hint|]. intros py37 doc. unfold method_skipped.
    now rewrite Hint.
  - intros Hd. split.
    + now apply is_internal_function_name_dunder.
    + now apply method_skipped_dunder.
  - intros Hus. split.
    + intros state parent path object.
      unfold is_internal_or_imported_module_member. now rewrite Hus.
    + intros doc. unfold property_skipped. rewrite Hus.
      now destruct (in_table name doc _filtered_builtin_properties).
Qed.





(* ================================================================== *)
(** * Method buckets of a class page *)
(* ================================================================== *)

Lemma bucket_eqb_eq (a b : Bucket) : bucket_eqb a b = true <-> a = b.
Proof. destruct a, b; simpl; split; congruence. Qed.

Lemma add_to_bucket_list (bucket b : Bucket) (function : FunctionDoc)
    (page : ClassPage) :
  bucket_list b (add_to bucket function page)
  = (bucket_list b page ++ if bucket_eqb bucket b then [function] else [])%list.
Proof.
  destruct bucket, b; simpl; try reflexivity; now rewrite app_nil_r.
Qed.

Lemma method_bucket_flags_set (name : string) (function : FunctionDoc) :
  flags_set function ->
  method_bucket name function = Ok (bucket_in_order name function).
Proof.
  intros [Hc Hs]. unfold method_bucket, bucket_in_order.
  destruct (Py.startswith name "__"); [reflexivity|].
  destruct (is_classmethod function) as [[|]|]; try congruence; simpl;
    try reflexivity.
  destruct (is_staticmethod function) as [[|]|]; try congruence; reflexivity.
Qed.

Lemma place_methods_spec (name : string) (functions : list FunctionDoc) :
  Forall flags_set functions ->
  forall page, exists page',
    place_methods name functions page = Ok page'
    /\ forall b, bucket_list b page'
                 = (bucket_list b page
                    ++ in_bucket b (map (pair name) functions))%list.
Proof.
  induction 1 as [|function functions Hf _ IH]; intros page.
  - exists page. split; [reflexivity|]. intros b.
    unfold in_bucket. simpl. now rewrite app_nil_r.
  - simpl. rewrite (method_bucket_flags_set name function Hf). simpl.
    destruct (IH (add_to (bucket_in_order name function) function page))
      as (page' & Hplace & Hlists).
    exists page'. split; [exact Hplace|]. intros b.
    rewrite Hlists, add_to_bucket_list, <- app_assoc. f_equal.
    unfold in_bucket. simpl.
    now destruct (bucket_eqb (bucket_in_order name function) b).
Qed.

Lemma in_bucket_app (b : Bucket) (l1 l2 : list (string * FunctionDoc)) :
  in_bucket b (l1 ++ l2) = (in_bucket b l1 ++ in_bucket b l2)%list.
Proof. unfold in_bucket. now rewrite filter_app, map_app. Qed.

(** Every record lies in the list of exactly one bucket. *)
Lemma in_bucket_lengths (extracted : list (string * FunctionDoc)) :
  List.length (in_bucket Classmethods extracted)
  + List.length (in_bucket Staticmethods extracted)
  + List.length (in_bucket DunderMethods extracted)
  + List.length (in_bucket Methods extracted)
  = List.length extracted.
Proof.
  induction extracted as [|[name function] extracted IH]; [reflexivity|].
  unfold in_bucket in *. simpl.
  destruct (bucket_in_order name function); simpl; lia.
Qed.

Section BucketFacts.
Context {lib : Library}.

Lemma pybind_function_doc_total (parent : PyObject) (path_name : string)
    (func : Signature) :
  exists out positional_only,
    pybind_function_doc parent path_name func = Ok out
    /\ is_classmethod out = Some false
    /\ is_staticmethod out
       = Some (negb (isclass parent && first_is_self (snd (fst func))))
    /\ fn_params out = map (pybind_param positional_only) (snd (fst func)).
Proof.
  destruct func as [[[name summary] args] type]. unfold pybind_function_doc.
  simpl. destruct (isclass parent); simpl.
  - destruct (first_is_self args) eqn:Hself; simpl;
      eexists; eexists; repeat split.
  - eexists; eexists; repeat split.
Qed.

Lemma pybind_function_docs_total (parent : PyObject) (path_name : string)
    (funcs : list Signature) :
  exists outs,
    pybind_function_docs parent path_name funcs = Ok outs
    /\ Forall2 (fun func out => pybind_function_doc parent path_name func = Ok out)
               funcs outs.
Proof.
  induction funcs as [|func funcs [outs [Houts Hall]]].
  - exists []. split; [reflexivity | constructor].
  - destruct (pybind_function_doc_total parent path_name func)
      as (out & po & Hout & _).
    exists (out :: outs). simpl. rewrite Hout, Houts. simpl.
    split; [reflexivity | now constructor].
Qed.

(** What the record of the introspection path carries whenever it is
    built. *)
Lemma reflected_function_doc_ok (state : State) (parent function : PyObject)
    (path_name : string) (out : FunctionDoc) :
  reflected_function_doc state parent function path_name = Ok out ->
  fn_name out = path_name
  /\ fn_summary out = extract_summary state [] [] (__doc__ function)
  /\ is_classmethod out
     = (if isclass parent then Some (ismethod function) else None)
  /\ is_staticmethod out
     = (if isclass parent
        then Some (existsb (String.eqb path_name) (dict_staticmethods parent))
        else None).
Proof.
  unfold reflected_function_doc. destruct (signature function) as [sig|].
  - destruct (extract_annotation state (return_annotation sig)) as [type| |];
      cbn [bind]; try discriminate.
    destruct (reflected_params state (parameters sig)) as [params| |];
      cbn [bind]; try discriminate.
    intros Hout. injection Hout as <-. repeat split.
  - intros Hout. injection Hout as <-. repeat split.
Qed.

(** With a class as parent, every record [extract_function_doc] returns has
    both flags set. *)
Lemma extract_function_doc_flags (state : State) (parent : PyObject)
    (path : list string) (function : PyObject)
    (outs : list FunctionDoc) (warnings : list string) :
  isclass parent = true ->
  extract_function_doc state parent path function = Ok (outs, warnings) ->
  Forall flags_set outs.
Proof.
  intros Hclass. unfold extract_function_doc.
  destruct (PYBIND11_COMPATIBILITY state
            && match __doc__ function with Some _ => true | None => false end)
    eqn:Hpb.
  - apply andb_true_iff in Hpb as [Hcompat Hdoc]. rewrite Hcompat.
    destruct (__doc__ function) as [doc|]; [|discriminate].
    destruct (path_last path) as [path_name| |]; simpl; try discriminate.
    destruct (Py.startswith doc path_name).
    + destruct (parse_pybind_docstring state path_name doc)
        as [[funcs w]| |]; simpl; try discriminate.
      destruct (pybind_function_docs_total parent path_name funcs)
        as (outs' & Houts & Hall).
      rewrite Houts. simpl. intros Heq. injection Heq as <- <-.
      clear Houts. induction Hall as [|func out funcs outs' Hout _ IH];
        constructor; [|exact IH].
      destruct (pybind_function_doc_total parent path_name func)
        as (out' & po & Hout' & Hc & Hs & _).
      rewrite Hout in Hout'. injection Hout' as <-.
      split; congruence.
    + destruct (reflected_function_doc state parent function path_name)
        as [out| |] eqn:Hout; simpl; try discriminate.
      intros Heq. injection Heq as <- <-. constructor; [|constructor].
      destruct (reflected_function_doc_ok _ _ _ _ _ Hout)
        as (_ & _ & Hc & Hs).
      rewrite Hclass in Hc, Hs. split; congruence.
  - assert (Hno : (if PYBIND11_COMPATIBILITY state
                   then match __doc__ function with
                        | Some doc =>
                            path_name <- path_last path ;;
                            Ok (Py.startswith doc path_name)
                        | None => Raise AttributeError
                        end
                   else Ok false) = Ok false
                  \/ (PYBIND11_COMPATIBILITY state = true
                      /\ __doc__ function = None)).
    { destruct (PYBIND11_COMPATIBILITY state); [|left; reflexivity].
      destruct (__doc__ function); [discriminate | right; split; reflexivity]. }
    destruct Hno as [-> | [-> ->]]; simpl; [|discriminate].
    destruct (path_last path) as [path_name| |]; simpl; try discriminate.
    destruct (reflected_function_doc state parent function path_name)
      as [out| |] eqn:Hout; simpl; try discriminate.
    intros Heq. injection Heq as <- <-. constructor; [|constructor].
    destruct (reflected_function_doc_ok _ _ _ _ _ Hout) as (_ & _ & Hc & Hs).
    rewrite Hclass in Hc, Hs. split; congruence.
Qed.

End BucketFacts.

Lemma render_class_methods_spec {lib : Library} (py37 : bool) (state : State)
    (path : list string) (class_ : PyObject)
    (members : list (string * PyObject)) :
  isclass class_ = true ->
  forall extracted,
    extracted_methods py37 state path class_ members = Ok extracted ->
    forall page log, exists page' log',
      render_class_methods py37 state path class_ members page log
      = Ok (page', log')
      /\ forall b, bucket_list b page'
                   = (bucket_list b page ++ in_bucket b extracted)%list.
Proof.
  intros Hclass.
  induction members as [|[name object] members IH]; intros extracted Hex page log.
  - injection Hex as <-. exists page, log. split; [reflexivity|].
    intros b. unfold in_bucket. simpl. now rewrite app_nil_r.
  - simpl in *. destruct (method_skipped py37 name (__doc__ object)).
    + now apply IH.
    + destruct (extract_function_doc state class_ (path ++ [name])%list object)
        as [[functions warnings]| |] eqn:Hdoc; simpl in *; try discriminate.
      destruct (extracted_methods py37 state path class_ members)
        as [rest| |]; simpl in *; try discriminate.
      injection Hex as <-.
      pose proof (extract_function_doc_flags _ _ _ _ _ _ Hclass Hdoc) as Hflags.
      destruct (place_methods_spec name functions Hflags page)
        as (page1 & Hplace & Hlists1).
      rewrite Hplace. simpl.
      edestruct (IH rest eq_refl page1) as (page' & log' & Hrender & Hlists).
      exists page', log'. split; [exact Hrender|]. intros b.
      now rewrite Hlists, Hlists1, in_bucket_app, app_assoc.
Qed.

(** C5. On a class page every record extracted for a routine that passes
    the filters is appended to exactly one of the four lists
    [classmethods], [staticmethods], [dunder_methods] and [methods], the
    one chosen in the order: name starting with two underscores, then the
    classmethod flag, then the staticmethod flag, else instance method.
    Reading the flags never fails, since both are set whenever the parent
    is a class. *)
Theorem class_methods_partitioned {lib : Library} (py37 : bool) (state : State)
    (path : list string) (class_ : PyObject)
    (members : list (string * PyObject))
    (extracted : list (string * FunctionDoc)) :
  isclass class_ = true ->
  extracted_methods py37 state path class_ members = Ok extracted ->
  exists page log,
    render_class_methods py37 state path class_ members empty_class_page []
    = Ok (page, log)
    /\ classmethods page = in_bucket Classmethods extracted
    /\ staticmethods page = in_bucket Staticmethods extracted
    /\ dunder_methods page = in_bucket DunderMethods extracted
    /\ methods page = in_bucket Methods extracted
    /\ List.length (classmethods page) + List.length (staticmethods page)
       + List.length (dunder_methods page) + List.length (methods page)
       = List.length extracted.
Proof.
  intros Hclass Hex.
  destruct (render_class_methods_spec py37 state path class_ members Hclass
              extracted Hex empty_class_page [])
    as (page & log & Hrender & Hlists).
  exists page, log. split; [exact Hrender|].
  pose proof (Hlists Classmethods) as Hc. pose proof (Hlists Staticmethods) as Hs.
  pose proof (Hlists DunderMethods) as Hd. pose proof (Hlists Methods) as Hm.
  simpl in Hc, Hs, Hd, Hm. rewrite Hc, Hs, Hd, Hm.
  repeat split. apply in_bucket_lengths.
Qed.

Lemma class_methods_partitioned_witness :
  isclass sample_class = true
  /\ @extracted_methods plain_library true (mkState false []) ["m"; "Shape"]
       sample_class sample_members
     = Ok [ ("__str__", sample_record "__str__" ["self"] false false);
            ("area", sample_record "area" ["self"] false false);
            ("from_points", sample_record "from_points" ["points"] true false);
            ("unit", sample_record "unit" [] false true) ]
  /\ exists page log,
       @render_class_methods plain_library true (mkState false [])
         ["m"; "Shape"] sample_class sample_members empty_class_page []
       = Ok (page, log)
       /\ classmethods page = [sample_record "from_points" ["points"] true false]
       /\ staticmethods page = [sample_record "unit" [] false true]
       /\ dunder_methods page = [sample_record "__str__" ["self"] false false]
       /\ methods page = [sample_record "area" ["self"] false false].
Proof.
  assert (Hclass : isclass sample_class = true) by reflexivity.
  assert (Hex : @extracted_methods plain_library true (mkState false [])
                  ["m"; "Shape"] sample_class sample_members
                = Ok [ ("__str__", sample_record "__str__" ["self"] false false);
                       ("area", sample_record "area" ["self"] false false);
                       ("from_points",
                        sample_record "from_points" ["points"] true false);
                       ("unit", sample_record "unit" [] false true) ])
    by reflexivity.
  split; [exact Hclass | split; [exact Hex|]].
  destruct (@class_methods_partitioned plain_library true (mkState false [])
              ["m"; "Shape"] sample_class sample_members _ Hclass Hex)
    as (page & log & Hrender & Hc & Hs & Hd & Hm & _).
  exists page, log. repeat split; assumption.
Defined.

(* ================================================================== *)
(** * The pybind11 path of [extract_function_doc] *)
(* ================================================================== *)

(** The test of the source on the first argument finds a leading [self],
    and nothing else. *)
Lemma first_is_self_iff (args : list Arg) :
  first_is_self args = true <-> leading_self args.
Proof.
  unfold leading_self. split.
  - destruct args as [|[[name type] default] rest]; [discriminate|].
    cbn [first_is_self]. intros Hname. apply String.eqb_eq in Hname.
    subst name. now exists type, default, rest.
  - intros (type & default & rest & ->). reflexivity.
Qed.

Lemma first_is_self_not (args : list Arg) :
  ~ leading_self args -> first_is_self args = false.
Proof.
  intros Hnot. destruct (first_is_self args) eqn:Hself; [|reflexivity].
  destruct Hnot. now apply first_is_self_iff.
Qed.

Lemma pybind_function_doc_self {lib : Library} (parent : PyObject)
    (path_name : string) (func : Signature) (out : FunctionDoc) :
  pybind_function_doc parent path_name func = Ok out ->
  self_convention parent func out.
Proof.
  intros Hout.
  destruct (pybind_function_doc_total parent path_name func)
    as (out' & po & Hout' & Hc & Hs & Hp).
  rewrite Hout in Hout'. injection Hout' as <-.
  unfold self_convention. split; [exact Hc|]. split; [|split].
  - intros Hclass type default rest Hargs.
    rewrite Hs, Hclass, Hargs. split; [reflexivity|].
    rewrite Hp, Hargs. cbn [map]. eexists. eexists.
    split; [reflexivity|]. split; [apply length_map|].
    split; reflexivity.
  - intros Hclass Hself. now rewrite Hs, Hclass, (first_is_self_not _ Hself).
  - intros Hclass. now rewrite Hs, Hclass.
Qed.

(** C8. In the pybind11 path, once the docstring is parsed, every overload
    yields a record that is never a classmethod; with a class as parent and
    a first parameter named [self] it is not a staticmethod and the type of
    [self] is dropped; with a class as parent and any other first
    parameter, and with any parent that is not a class, it is a
    staticmethod. *)
Theorem pybind_self_marks_instance_method {lib : Library} (state : State)
    (parent function : PyObject) (path : list string) (path_name doc : string)
    (funcs : list Signature) (warnings : list string) :
  PYBIND11_COMPATIBILITY state = true ->
  path_last path = Ok path_name ->
  __doc__ function = Some doc ->
  Py.startswith doc path_name = true ->
  parse_pybind_docstring state path_name doc = Ok (funcs, warnings) ->
  exists outs,
    extract_function_doc state parent path function = Ok (outs, warnings)
    /\ Forall2 (self_convention parent) funcs outs.
Proof.
  intros Hcompat Hpath Hdoc Hstarts Hparse.
  destruct (pybind_function_docs_total parent path_name funcs)
    as (outs & Houts & Hall).
  exists outs. split.
  - unfold extract_function_doc.
    rewrite Hcompat, Hdoc, Hpath. simpl. rewrite Hstarts, Hparse. simpl.
    now rewrite Houts.
  - clear Houts Hparse. induction Hall as [|func out funcs outs Hout _ IH];
      constructor; [|exact IH].
    now apply (pybind_function_doc_self parent path_name).
Qed.

Lemma pybind_self_marks_instance_method_witness :
  PYBIND11_COMPATIBILITY (mkState true []) = true
  /\ path_last ["m"; "Foo"; "scale"] = Ok "scale"
  /\ __doc__ sample_pybind_method
     = Some "scale(self: m.Foo, arg0: float) -> None"
  /\ Py.startswith "scale(self: m.Foo, arg0: float) -> None" "scale" = true
  /\ @parse_pybind_docstring plain_library (mkState true []) "scale"
       "scale(self: m.Foo, arg0: float) -> None"
     = Ok ([("scale", "", [("self", Some "m.Foo", None);
                           ("arg0", Some "float", None)], Some "None")], [])
  /\ exists out,
       @extract_function_doc plain_library (mkState true [])
         sample_pybind_class ["m"; "Foo"; "scale"] sample_pybind_method
       = Ok ([out], [])
       /\ is_classmethod out = Some false
       /\ is_staticmethod out = Some false
       /\ exists self params,
            fn_params out = self :: params
            /\ List.length params = 1
            /\ param_name self = "self" /\ param_type self = None.
Proof.
  repeat (split; [reflexivity|]).
  destruct (@pybind_self_marks_instance_method plain_library (mkState true [])
              sample_pybind_class sample_pybind_method ["m"; "Foo"; "scale"]
              "scale" "scale(self: m.Foo, arg0: float) -> None" _ []
              eq_refl eq_refl eq_refl eq_refl eq_refl)
    as (outs & Houts & Hall).
  inversion Hall as [|func out funcs outs' Hout Hrest]; subst.
  inversion Hrest; subst.
  destruct Hout as (Hc & Hself & _).
  destruct (Hself eq_refl _ _ _ eq_refl) as (Hs & Hparams).
  exists out. split; [exact Houts|]. split; [exact Hc|].
  split; [exact Hs | exact Hparams].
Defined.

(** The record of that method, computed. *)
Example pybind_method_record :
  @extract_function_doc plain_library (mkState true [])
    sample_pybind_class ["m"; "Foo"; "scale"] sample_pybind_method
  = Ok ([ mkFunctionDoc "scale"
            [ mkParam "self" None (Some "") (Some "POSITIONAL_ONLY") None;
              mkParam "arg0" (Some "float") (Some "") (Some "POSITIONAL_ONLY") None ]
            true false "" None (Some false) (Some false) ], []).
Proof. reflexivity. Qed.

(* ================================================================== *)
(** * The mapping pass over an export list *)
(* ================================================================== *)

Lemma export_mapping_step_spec (state state' : State) (path : list string)
    (attrs : list (string * PyObject)) (name : string) :
  export_mapping_step state path attrs name = Ok state' ->
  exists object added,
    dict_get name attrs = Some object
    /\ module_mapping state' = (module_mapping state ++ added)%list
    /\ forall qualified,
         natural_name object = Some qualified ->
         qualified <> export_path path name ->
         In (qualified, export_path path name) added.
Proof.
  intros Hstep. unfold export_mapping_step in Hstep.
  destruct (dict_get name attrs) as [object|]; simpl in Hstep; [|discriminate].
  exists object. unfold natural_name, export_path.
  set (subpath := Py.join "." (path ++ [name])%list) in *.
  destruct (ismodule object), (__name__ object) as [object_name|],
           (__module__ object) as [module|];
    simpl in *; try discriminate;
    repeat match type of Hstep with
           | context [String.eqb ?a ?b] =>
               destruct (String.eqb_spec a b); simpl in Hstep
           | context [py_assert ?b] =>
               destruct (py_assert b); simpl in Hstep; try discriminate
           end;
    injection Hstep as <-;
    first [ exists []; split; [reflexivity|];
            split; [simpl; now rewrite app_nil_r|];
            intros q Hq Hne; congruence
          | eexists; split; [reflexivity|]; split; [reflexivity|];
            intros q Hq Hne;
            first [ congruence | injection Hq as <-; left; reflexivity ] ].
Qed.

Lemma export_mapping_pass_spec (path : list string)
    (attrs : list (string * PyObject)) (all : list string) :
  forall state state',
    export_mapping_pass state path attrs all = Ok state' ->
    exists added,
      module_mapping state' = (module_mapping state ++ added)%list
      /\ forall name object qualified,
           In name all ->
           dict_get name attrs = Some object ->
           natural_name object = Some qualified ->
           qualified <> export_path path name ->
           In (qualified, export_path path name) added.
Proof.
  induction all as [|name all IH]; intros state state' Hpass.
  - injection Hpass as <-. exists []. split; [now rewrite app_nil_r|].
    intros ? ? ? [].
  - simpl in Hpass.
    destruct (export_mapping_step state path attrs name) as [state1| |] eqn:Hstep;
      simpl in Hpass; try discriminate.
    apply export_mapping_step_spec in Hstep
      as (object & added1 & Hget & Hmap1 & Hadded1).
    apply IH in Hpass as (added2 & Hmap2 & Hadded2).
    exists (added1 ++ added2)%list. split.
    + now rewrite Hmap2, Hmap1, app_assoc.
    + intros name' object' q [<- | Hin] Hget' Hq Hne; apply in_or_app.
      * left. rewrite Hget in Hget'. injection Hget' as <-. now apply Hadded1.
      * right. now apply (Hadded2 name' object').
Qed.

(** When the mapping pass raises, no member of the list is extracted. *)
Lemma export_mapping_failure_stops {Page : Type}
    (extract_exports : State -> list string -> list (string * PyObject)
                       -> list string -> result Page)
    (state : State) (path : list string) (attrs : list (string * PyObject))
    (all : list string) (e : exn) :
  export_mapping_pass state path attrs all = Raise e ->
  render_module_exports extract_exports state path attrs all = Raise e.
Proof. intros H. unfold render_module_exports. now rewrite H. Qed.

(** C6. When the mapping pass over an export list has run through, the
    table holds, after the entries it held before, a rewrite from the
    natural qualified name to the list-position path for every entry whose
    natural name differs from that path; member extraction starts from that
    table; and a name matched by such a natural name, and by no other key
    of the table, is mapped to the path followed by the rest of the
    name. *)
Theorem export_mapping_complete (state state' : State) (path : list string)
    (attrs : list (string * PyObject)) (all : list string) :
  export_mapping_pass state path attrs all = Ok state' ->
  (exists added, module_mapping state' = (module_mapping state ++ added)%list)
  /\ (forall name object qualified,
        In name all ->
        dict_get name attrs = Some object ->
        natural_name object = Some qualified ->
        qualified <> export_path path name ->
        In (qualified, export_path path name) (module_mapping state')
        /\ forall n,
             key_matches n qualified ->
             (forall k r, In (k, r) (module_mapping state') -> key_matches n k ->
                          k = qualified /\ r = export_path path name) ->
             map_name_prefix state' n
             = export_path path name ++ Py.drop (String.length qualified) n)
  /\ (forall (Page : Type) (extract_exports :
              State -> list string -> list (string * PyObject) -> list string
              -> result Page),
        render_module_exports extract_exports state path attrs all
        = extract_exports state' path attrs all).
Proof.
  intros Hpass.
  destruct (export_mapping_pass_spec path attrs all state state' Hpass)
    as (added & Hmap & Hadded).
  split; [exists added; exact Hmap|]. split.
  - intros name object qualified Hin Hget Hq Hne.
    assert (Hreg : In (qualified, export_path path name) (module_mapping state')).
    { rewrite Hmap. apply in_or_app. right. now apply (Hadded name object). }
    split; [exact Hreg|]. intros n Hmatch Honly.
    unfold map_name_prefix.
    destruct (map_name_prefix_items_spec (module_mapping state') n)
      as [(before & key & replace & after & Heq & _ & Hkey & Hres) | [Hnone _]].
    + assert (Hin' : In (key, replace) (module_mapping state')).
      { rewrite Heq. apply in_or_app. right. left. reflexivity. }
      destruct (Honly key replace Hin' Hkey) as [-> ->]. exact Hres.
    + exfalso. exact (Hnone _ _ Hreg Hmatch).
  - intros Page extract_exports. unfold render_module_exports.
    now rewrite Hpass.
Qed.

Lemma only_key_pub (n : string) (k r : string) :
  In (k, r) (module_mapping sample_pub_state) -> key_matches n k ->
  k = "pkg._impl.Pub" /\ r = export_path ["root"] "Pub".
Proof.
  intros [Heq | []] _. injection Heq as <- <-. split; reflexivity.
Qed.

(** The export list [['Pub']] of the module [root]. *)
Lemma export_mapping_complete_witness :
  export_mapping_pass (mkState false []) ["root"] [("Pub", sample_pub)] ["Pub"]
  = Ok sample_pub_state
  /\ map_name_prefix sample_pub_state "pkg._impl.Pub" = "root.Pub"
  /\ map_name_prefix sample_pub_state "pkg._impl.Pub.method" = "root.Pub.method".
Proof.
  assert (Hpass : export_mapping_pass (mkState false []) ["root"]
                    [("Pub", sample_pub)] ["Pub"] = Ok sample_pub_state)
    by reflexivity.
  split; [exact Hpass|].
  destruct (export_mapping_complete _ _ _ _ _ Hpass) as (_ & Hentries & _).
  destruct (Hentries "Pub" sample_pub "pkg._impl.Pub")
    as [_ Hmap].
  - left. reflexivity.
  - reflexivity.
  - reflexivity.
  - discriminate.
  - split.
    + apply (Hmap "pkg._impl.Pub"); [left; reflexivity | apply only_key_pub].
    + apply (Hmap "pkg._impl.Pub.method");
        [right; exists "method"; reflexivity | apply only_key_pub].
Defined.

(* ================================================================== *)
(** * The grammar of types and [parse_pybind_type] *)
(* ================================================================== *)

(** ** Character classes and [span] *)

Lemma span_append (p : ascii -> bool) (token rest : string) :
  all_chars p token = true -> stops p rest = true ->
  Py.span p (token ++ rest) = (token, rest).
Proof.
  intros Hall Hstop. induction token as [|c token IH]; simpl in *.
  - destruct rest as [|d rest]; [reflexivity|]. simpl in *.
    apply negb_true_iff in Hstop. now rewrite Hstop.
  - apply andb_true_iff in Hall as [Hc Hall]. now rewrite Hc, (IH Hall).
Qed.

Lemma span1_append (p : ascii -> bool) (token rest : string) :
  Py.truthy token = true -> all_chars p token = true -> stops p rest = true ->
  Py.span1 p (token ++ rest) = Some (token, rest).
Proof.
  intros Hne Hall Hstop. unfold Py.span1.
  rewrite (span_append p token rest Hall Hstop).
  destruct token; [discriminate | reflexivity].
Qed.

Lemma span_split (p : ascii -> bool) (s : string) :
  s = fst (Py.span p s) ++ snd (Py.span p s).
Proof.
  induction s as [|c s IH]; [reflexivity|]. simpl.
  destruct (p c); [|reflexivity].
  destruct (Py.span p s) as [m r]. simpl in *. now rewrite <- IH.
Qed.

Lemma span1_length (p : ascii -> bool) (s token rest : string) :
  Py.span1 p s = Some (token, rest) -> String.length rest < String.length s.
Proof.
  unfold Py.span1. intros H. pose proof (span_split p s) as Hs.
  destruct (Py.span p s) as [m r]. simpl in Hs.
  destruct m as [|c m]; [discriminate|]. injection H as <- <-.
  rewrite Hs. simpl. rewrite PyFacts.length_append. lia.
Qed.

Lemma type_char_not_bracket (c : ascii) :
  _pybind_type_rx c = true -> is_bracket c = false.
Proof.
  intros H. unfold is_bracket.
  destruct (Ascii.eqb_spec c "[") as [->|_]; [discriminate H|].
  destruct (Ascii.eqb_spec c "]") as [->|_]; [discriminate H|].
  reflexivity.
Qed.

Lemma all_chars_impl (p q : ascii -> bool) (s : string) :
  (forall c, p c = true -> q c = true) ->
  all_chars p s = true -> all_chars q s = true.
Proof.
  intros Hpq. induction s as [|c s IH]; simpl; [reflexivity|].
  intros H. apply andb_true_iff in H as [Hc Hs].
  now rewrite (Hpq c Hc), (IH Hs).
Qed.

Lemma all_chars_append (p : ascii -> bool) (a b : string) :
  all_chars p (a ++ b) = all_chars p a && all_chars p b.
Proof.
  induction a as [|c a IH]; simpl; [reflexivity|].
  now rewrite IH, andb_assoc.
Qed.

Lemma all_chars_drop (p : ascii -> bool) (n : nat) (s : string) :
  all_chars p s = true -> all_chars p (Py.drop n s) = true.
Proof.
  revert s. induction n as [|n IH]; intros s H; [exact H|].
  destruct s as [|c s]; [reflexivity|]. simpl in *.
  apply andb_true_iff in H as [_ H]. now apply IH.
Qed.

Lemma type_token_bracket_free (token : string) :
  is_type_token token = true -> bracket_free token = true.
Proof.
  unfold is_type_token, bracket_free. intros H.
  apply andb_true_iff in H as [_ H].
  apply (all_chars_impl _pybind_type_rx); [|exact H].
  intros c Hc. now rewrite (type_char_not_bracket c Hc).
Qed.

(** ** Parsing the text of a type *)

Lemma type_boundary_stops (rest : string) :
  type_boundary rest = true ->
  stops _pybind_type_rx rest = true /\ Py.startswith rest "[" = false.
Proof.
  destruct rest as [|c rest]; [split; reflexivity|].
  cbn [type_boundary stops].
  intros H. apply andb_true_iff in H as [Hc Hb]. split; [exact Hc|].
  unfold Py.startswith. rewrite PyFacts.prefix_cons.
  apply negb_true_iff in Hb. rewrite Ascii.eqb_sym in Hb. now rewrite Hb.
Qed.

Lemma render_head (t : TypeExpr) :
  well_formed t = true ->
  exists c s, render t = String c s /\ _pybind_type_rx c = true.
Proof.
  assert (Htok : forall token tail, is_type_token token = true ->
            exists c s, token ++ tail = String c s /\ _pybind_type_rx c = true).
  { intros [|c token] tail H; [discriminate|]. unfold is_type_token in H.
    apply andb_true_iff in H as [_ H]. simpl in H.
    apply andb_true_iff in H as [Hc _]. exists c, (token ++ tail).
    split; [reflexivity | exact Hc]. }
  destruct t as [token | token inner]; simpl; intros H.
  - destruct (Htok token "" H) as (c & s & Heq & Hc).
    rewrite PyFacts.append_nil_r in Heq. eauto.
  - apply andb_true_iff in H as [H _]. now apply Htok.
Qed.

(** Brings nested concatenations into right-nested form. *)
Ltac reassociate :=
  repeat first [ rewrite PyFacts.append_assoc | progress cbn [append] ].

Lemma parse_pybind_type_fuel_unfold (fuel : nat) (state : State)
    (signature : string) :
  parse_pybind_type_fuel (S fuel) state signature
  = match Py.span1 _pybind_type_rx signature with
    | None => Raise AttributeError
    | Some (input_type, signature) =>
        if Py.startswith signature "["
        then
          '(signature, type) <-
             parse_pybind_type_loop fuel state (Py.drop 1 signature)
               (map_name_prefix state input_type ++ "[") ;;
          _ <- py_assert (Py.startswith signature "]") ;;
          Ok (Py.drop 1 signature, type ++ "]")
        else Ok (signature, map_name_prefix state input_type)
    end.
Proof. reflexivity. Qed.

Lemma parse_pybind_type_loop_unfold (fuel : nat) (state : State)
    (c : ascii) (s type : string) :
  parse_pybind_type_loop (S fuel) state (String c s) type
  = if Ascii.eqb c "]" then Ok (String c s, type)
    else
      '(signature, inner_type) <-
         parse_pybind_type_fuel fuel state (String c s) ;;
      match signature with
      | EmptyString => Raise IndexError
      | String c' _ =>
          if Ascii.eqb c' "]" then Ok (signature, type ++ inner_type)
          else
            _ <- py_assert (Py.startswith signature ", ") ;;
            parse_pybind_type_loop fuel state (Py.drop 2 signature)
                                   ((type ++ inner_type) ++ ", ")
      end.
Proof. reflexivity. Qed.

Lemma startswith_head (c : ascii) (s : string) :
  Py.startswith (String c s) (String c "") = true.
Proof.
  unfold Py.startswith. rewrite PyFacts.prefix_cons, Ascii.eqb_refl.
  apply PyFacts.prefix_nil.
Qed.

Lemma startswith_head2 (a b : ascii) (s : string) :
  Py.startswith (String a (String b s)) (String a (String b "")) = true.
Proof.
  unfold Py.startswith.
  rewrite !PyFacts.prefix_cons, !Ascii.eqb_refl. apply PyFacts.prefix_nil.
Qed.

Lemma render_generic_append (token : string) (inner : TypeList) (rest : string) :
  render (Generic token inner) ++ rest
  = token ++ String "[" (render_list inner ++ String "]" rest).
Proof. cbn [render]. now reassociate. Qed.

Lemma render_list_cons_append (first second : TypeExpr) (others : TypeList)
    (rest : string) :
  render_list (TCons first (TCons second others)) ++ rest
  = render first
    ++ String "," (String " " (render_list (TCons second others) ++ rest)).
Proof. cbn [render_list]. now reassociate. Qed.

Lemma parse_pybind_type_render (state : State) :
  (forall t, well_formed t = true ->
     forall fuel rest,
       parse_cost t <= fuel -> type_boundary rest = true ->
       parse_pybind_type_fuel fuel state (render t ++ rest)
       = Ok (rest, render (map_types state t)))
  /\ (forall l, well_formed_list l = true ->
        forall fuel rest type,
          parse_cost_list l <= fuel ->
          parse_pybind_type_loop fuel state
            (render_list l ++ String "]" rest) type
          = Ok (String "]" rest, type ++ render_list (map_type_list state l))).
Proof.
  apply type_mutind.
  - (* Plain *)
    intros token Hwf fuel rest Hfuel Hb. simpl in Hwf, Hfuel.
    destruct fuel as [|fuel]; [lia|].
    unfold is_type_token in Hwf. apply andb_true_iff in Hwf as [Hne Hall].
    destruct (type_boundary_stops rest Hb) as [Hstop Hnb].
    rewrite parse_pybind_type_fuel_unfold. cbn [render map_types].
    rewrite (span1_append _ token rest Hne Hall Hstop). now rewrite Hnb.
  - (* Generic *)
    intros token inner IH Hwf fuel rest Hfuel _. simpl in Hwf, Hfuel.
    apply andb_true_iff in Hwf as [Htok Hwf].
    unfold is_type_token in Htok. apply andb_true_iff in Htok as [Hne Hall].
    destruct fuel as [|fuel]; [lia|].
    rewrite parse_pybind_type_fuel_unfold, render_generic_append.
    rewrite (span1_append _ token _ Hne Hall) by reflexivity.
    rewrite startswith_head. cbn [Py.drop].
    rewrite (IH Hwf fuel rest _) by lia.
    cbn [bind]. rewrite startswith_head. cbn [py_assert bind Py.drop].
    cbn [map_types render]. now reassociate.
  - (* TNil *)
    intros _ fuel rest type Hfuel. simpl in Hfuel.
    destruct fuel as [|fuel]; [lia|].
    cbn [render_list map_type_list append].
    rewrite parse_pybind_type_loop_unfold, Ascii.eqb_refl.
    now rewrite PyFacts.append_nil_r.
  - (* TCons *)
    intros first IHfirst others IHothers Hwf fuel rest type Hfuel.
    simpl in Hwf, Hfuel. apply andb_true_iff in Hwf as [Hwf1 Hwf2].
    destruct fuel as [|fuel]; [lia|].
    destruct (render_head first Hwf1) as (c & s & Hhead & Hc).
    assert (Hnot : Ascii.eqb c "]" = false).
    { destruct (Ascii.eqb_spec c "]") as [->|]; [discriminate Hc | reflexivity]. }
    destruct others as [|second others].
    + cbn [render_list map_type_list]. rewrite !PyFacts.append_nil_r.
      rewrite Hhead at 1. cbn [append].
      rewrite parse_pybind_type_loop_unfold, Hnot.
      change (String c (s ++ String "]" rest))
        with (String c s ++ String "]" rest).
      rewrite <- Hhead.
      rewrite (IHfirst Hwf1 fuel _) by (lia || reflexivity).
      cbn [bind]. now rewrite Ascii.eqb_refl.
    + rewrite render_list_cons_append.
      rewrite Hhead at 1. cbn [append].
      rewrite parse_pybind_type_loop_unfold, Hnot.
      match goal with
      | |- context [parse_pybind_type_fuel fuel state (String c (s ++ ?tail))] =>
          change (String c (s ++ tail)) with (String c s ++ tail)
      end.
      rewrite <- Hhead.
      rewrite (IHfirst Hwf1 fuel _) by (lia || reflexivity).
      cbn [bind]. change (Ascii.eqb "," "]") with false. cbv iota.
      rewrite startswith_head2. cbn [py_assert bind Py.drop].
      rewrite (IHothers Hwf2 fuel rest _) by lia.
      cbn [map_type_list render_list]. now reassociate.
Qed.

Lemma is_type_token_length (token : string) :
  is_type_token token = true -> 1 <= String.length token.
Proof. destruct token; [discriminate | simpl; lia]. Qed.

(** The budget [parse_pybind_type] starts with covers every well-formed
    type text. *)
Lemma parse_cost_bound :
  (forall t, well_formed t = true ->
     parse_cost t <= 2 * String.length (render t))
  /\ (forall l, well_formed_list l = true ->
        parse_cost_list l <= 2 * String.length (render_list l) + 2).
Proof.
  apply type_mutind.
  - intros token Hwf. simpl in *.
    pose proof (is_type_token_length token Hwf). lia.
  - intros token inner IH Hwf. simpl in Hwf.
    apply andb_true_iff in Hwf as [Htok Hwf].
    pose proof (is_type_token_length token Htok). specialize (IH Hwf).
    cbn [render parse_cost]. rewrite !PyFacts.length_append. simpl. lia.
  - intros _. simpl. lia.
  - intros first IH1 others IH2 Hwf. simpl in Hwf.
    apply andb_true_iff in Hwf as [Hwf1 Hwf2].
    specialize (IH1 Hwf1). specialize (IH2 Hwf2).
    cbn [render_list parse_cost_list]. rewrite PyFacts.length_append.
    destruct others as [|second others].
    + simpl in *. lia.
    + rewrite PyFacts.length_append. simpl String.length at 2. lia.
Qed.

(** ** Bracket depth of a rendered type *)

Lemma depth_scan_bracket_free (s rest : string) (open deepest : nat) :
  bracket_free s = true ->
  depth_scan open deepest (s ++ rest) = depth_scan open deepest rest.
Proof.
  unfold bracket_free, is_bracket.
  induction s as [|c s IH]; simpl; [reflexivity|]. intros H.
  apply andb_true_iff in H as [Hc Hs]. apply negb_true_iff in Hc.
  apply orb_false_iff in Hc as [-> ->]. now apply IH.
Qed.

Lemma depth_scan_render :
  (forall t, tokens_bracket_free t = true ->
     forall open deepest rest,
       open <= deepest ->
       depth_scan open deepest (render t ++ rest)
       = depth_scan open (Nat.max deepest (open + nesting t)) rest)
  /\ (forall l, tokens_bracket_free_list l = true ->
        forall open deepest rest,
          open <= deepest ->
          depth_scan open deepest (render_list l ++ rest)
          = depth_scan open (Nat.max deepest (open + nesting_list l)) rest).
Proof.
  apply type_mutind.
  - intros token Hbf open deepest rest Hle. simpl in *.
    rewrite (depth_scan_bracket_free _ _ _ _ Hbf). f_equal. lia.
  - intros token inner IH Hbf open deepest rest Hle. simpl in Hbf.
    apply andb_true_iff in Hbf as [Htok Hbf].
    rewrite render_generic_append.
    rewrite (depth_scan_bracket_free _ _ _ _ Htok).
    cbn [depth_scan]. change (Ascii.eqb "[" "[") with true. cbv iota.
    rewrite (IH Hbf) by lia. cbn [depth_scan].
    change (Ascii.eqb "]" "[") with false. change (Ascii.eqb "]" "]") with true.
    cbv iota. cbn [Nat.pred nesting]. f_equal. lia.
  - intros _ open deepest rest Hle. simpl. f_equal. lia.
  - intros first IH1 others IH2 Hbf open deepest rest Hle. simpl in Hbf.
    apply andb_true_iff in Hbf as [Hbf1 Hbf2].
    destruct others as [|second others].
    + cbn [render_list nesting_list]. rewrite PyFacts.append_nil_r.
      rewrite (IH1 Hbf1) by exact Hle. f_equal. lia.
    + rewrite render_list_cons_append, (IH1 Hbf1) by exact Hle.
      cbn [depth_scan].
      change (Ascii.eqb "," "[") with false. change (Ascii.eqb "," "]") with false.
      change (Ascii.eqb " " "[") with false. change (Ascii.eqb " " "]") with false.
      cbv iota. rewrite (IH2 Hbf2) by lia.
      cbn [nesting_list]. f_equal. lia.
Qed.

Lemma bracket_depth_render (t : TypeExpr) :
  tokens_bracket_free t = true -> bracket_depth (render t) = nesting t.
Proof.
  intros Hbf. unfold bracket_depth.
  rewrite <- (PyFacts.append_nil_r (render t)).
  rewrite (proj1 depth_scan_render t Hbf) by lia. reflexivity.
Qed.

Lemma nesting_map_types (state : State) :
  (forall t, nesting (map_types state t) = nesting t)
  /\ (forall l, nesting_list (map_type_list state l) = nesting_list l).
Proof.
  apply type_mutind; simpl; intros; congruence.
Qed.

Lemma well_formed_bracket_free :
  (forall t, well_formed t = true -> tokens_bracket_free t = true)
  /\ (forall l, well_formed_list l = true -> tokens_bracket_free_list l = true).
Proof.
  apply type_mutind; simpl.
  - intros token H. now apply type_token_bracket_free.
  - intros token inner IH H. apply andb_true_iff in H as [Htok H].
    now rewrite (type_token_bracket_free _ Htok), (IH H).
  - reflexivity.
  - intros first IH1 others IH2 H. apply andb_true_iff in H as [H1 H2].
    now rewrite (IH1 H1), (IH2 H2).
Qed.

Lemma map_name_prefix_bracket_free (state : State) (token : string) :
  replacements_bracket_free state -> bracket_free token = true ->
  bracket_free (map_name_prefix state token) = true.
Proof.
  unfold replacements_bracket_free, map_name_prefix. intros Hall Htok.
  induction Hall as [|[key replace] items Hitem _ IH]; simpl; [exact Htok|].
  destruct (prefix_matches token key); [|exact IH].
  unfold bracket_free in *. rewrite all_chars_append. simpl in Hitem.
  rewrite Hitem. simpl. now apply all_chars_drop.
Qed.

Lemma map_types_bracket_free (state : State) :
  replacements_bracket_free state ->
  (forall t, tokens_bracket_free t = true ->
     tokens_bracket_free (map_types state t) = true)
  /\ (forall l, tokens_bracket_free_list l = true ->
        tokens_bracket_free_list (map_type_list state l) = true).
Proof.
  intros Hall. apply type_mutind; simpl.
  - intros token H. now apply map_name_prefix_bracket_free.
  - intros token inner IH H. apply andb_true_iff in H as [Htok H].
    now rewrite (map_name_prefix_bracket_free _ _ Hall Htok), (IH H).
  - reflexivity.
  - intros first IH1 others IH2 H. apply andb_true_iff in H as [H1 H2].
    now rewrite (IH1 H1), (IH2 H2).
Qed.

Lemma render_starts_with_token (t : TypeExpr) :
  Py.startswith (render t) (top_token t) = true.
Proof.
  apply PyFacts.startswith_iff. destruct t as [token | token inner]; simpl.
  - exists "". now rewrite PyFacts.append_nil_r.
  - eexists. reflexivity.
Qed.

(** C7, amended.  For the text of a type of the grammar, followed by
    anything that does not continue it, [parse_pybind_type] returns that
    remainder and the text of the same type with every token passed
    through [map_name_prefix]: the result starts with the mapped top-level
    token and is nested as the input is, whose bracket depth is that
    nesting.  When no replacement of the table contains a bracket, as in
    the tables the mapping pass builds from names without brackets
    ([export_mapping_pass_bracket_free]), the result nests brackets
    exactly as deep as the text consumed. *)
Theorem parse_pybind_type_generic (state : State) (t : TypeExpr) (rest : string) :
  well_formed t = true ->
  type_boundary rest = true ->
  exists type,
    parse_pybind_type state (render t ++ rest) = Ok (rest, type)
    /\ type = render (map_types state t)
    /\ Py.startswith type (map_name_prefix state (top_token t)) = true
    /\ nesting (map_types state t) = nesting t
    /\ bracket_depth (render t) = nesting t
    /\ (replacements_bracket_free state ->
        bracket_depth type = bracket_depth (render t)).
Proof.
  intros Hwf Hb. exists (render (map_types state t)).
  split; [|split; [reflexivity|split; [|split; [|split]]]];
    [| | apply (proj1 (nesting_map_types state))
       | apply bracket_depth_render, (proj1 well_formed_bracket_free t Hwf) |].
  - unfold parse_pybind_type.
    apply (proj1 (parse_pybind_type_render state) t Hwf); [|exact Hb].
    pose proof (proj1 parse_cost_bound t Hwf) as Hcost.
    rewrite PyFacts.length_append. lia.
  - replace (map_name_prefix state (top_token t))
      with (top_token (map_types state t)) by (destruct t; reflexivity).
    apply render_starts_with_token.
  - intros Hall.
    pose proof (proj1 well_formed_bracket_free t Hwf) as Hbf.
    rewrite (bracket_depth_render t Hbf).
    rewrite (bracket_depth_render _
               (proj1 (map_types_bracket_free state Hall) t Hbf)).
    apply (proj1 (nesting_map_types state)).
Qed.

Lemma parse_pybind_type_generic_witness :
  well_formed sample_type = true
  /\ type_boundary ") -> None" = true
  /\ replacements_bracket_free sample_pub_state
  /\ render sample_type = "List[Tuple[int, pkg._impl.Pub], str]"
  /\ parse_pybind_type sample_pub_state
       "List[Tuple[int, pkg._impl.Pub], str]) -> None"
     = Ok (") -> None", "List[Tuple[int, root.Pub], str]")
  /\ bracket_depth "List[Tuple[int, root.Pub], str]" = 2
  /\ bracket_depth "List[Tuple[int, pkg._impl.Pub], str]" = 2.
Proof.
  assert (Hwf : well_formed sample_type = true) by reflexivity.
  assert (Hb : type_boundary ") -> None" = true) by reflexivity.
  assert (Hfree : replacements_bracket_free sample_pub_state)
    by (repeat constructor).
  destruct (parse_pybind_type_generic sample_pub_state sample_type
              ") -> None" Hwf Hb)
    as (type & Hparse & Htype & _ & _ & _ & Hdepth).
  specialize (Hdepth Hfree). subst type.
  repeat split; try assumption; reflexivity.
Defined.

(** C7, as stated, fails.  [map_name_prefix] puts the replacement of the
    table into the result as it is, so a replacement with brackets changes
    the depth: with [Vec] rewritten to [List[float]], the text
    [Dict[str, Vec]] of depth 1 parses to [Dict[str, List[float]]] of
    depth 2, and the plain token [Vec] of depth 0 to a text of depth 1. *)
Lemma parse_pybind_type_depth_changes :
  well_formed (Generic "Dict" (TCons (Plain "str") (TCons (Plain "Vec") TNil)))
  = true
  /\ render (Generic "Dict" (TCons (Plain "str") (TCons (Plain "Vec") TNil)))
     = "Dict[str, Vec]"
  /\ parse_pybind_type (mkState true [("Vec", "List[float]")]) "Dict[str, Vec]"
     = Ok ("", "Dict[str, List[float]]")
  /\ bracket_depth "Dict[str, Vec]" = 1
  /\ bracket_depth "Dict[str, List[float]]" = 2
  /\ parse_pybind_type (mkState true [("Vec", "List[float]")]) "Vec"
     = Ok ("", "List[float]")
  /\ bracket_depth "Vec" = 0
  /\ bracket_depth "List[float]" = 1.
Proof. repeat split; reflexivity. Qed.

(* ================================================================== *)
(** * Signatures that cannot be parsed *)
(* ================================================================== *)

Lemma bind_ok {A B : Type} (m : result A) (k : A -> result B) (b : B) :
  bind m k = Ok b -> exists a, m = Ok a /\ k a = Ok b.
Proof. destruct m as [a| |]; simpl; [eauto | discriminate | discriminate]. Qed.

Lemma length_drop_le (n : nat) (s : string) :
  String.length (Py.drop n s) <= String.length s.
Proof. rewrite PyFacts.length_drop. lia. Qed.

(** [parse_pybind_type] consumes at least one character, whatever the
    budget. *)
Lemma parse_pybind_type_fuel_consumes (fuel : nat) (state : State) :
  (forall signature rest type,
      parse_pybind_type_fuel fuel state signature = Ok (rest, type) ->
      String.length rest < String.length signature)
  /\ (forall signature type rest type',
         parse_pybind_type_loop fuel state signature type = Ok (rest, type') ->
         String.length rest <= String.length signature).
Proof.
  induction fuel as [|fuel [IHtype IHloop]]; [split; discriminate|]. split.
  - intros signature rest type. rewrite parse_pybind_type_fuel_unfold.
    destruct (Py.span1 _pybind_type_rx signature) as [[token after]|] eqn:Hspan;
      [|discriminate].
    apply span1_length in Hspan.
    destruct (Py.startswith after "[").
    + intros H. apply bind_ok in H as ([inner type1] & Hloop & H).
      apply IHloop in Hloop.
      apply bind_ok in H as (_ & _ & H). injection H as <- _.
      pose proof (length_drop_le 1 after). pose proof (length_drop_le 1 inner).
      cbn [Py.drop] in *. lia.
    + intros H. injection H as <- _. exact Hspan.
  - intros signature type rest type'.
    destruct signature as [|c s]; [discriminate|].
    rewrite parse_pybind_type_loop_unfold.
    destruct (Ascii.eqb c "]"); [intros H; injection H as <- _; lia|].
    intros H. apply bind_ok in H as ([after inner] & Htype & H).
    apply IHtype in Htype.
    destruct after as [|c' after]; [discriminate|].
    destruct (Ascii.eqb c' "]"); [injection H as <- _; lia|].
    apply bind_ok in H as (_ & _ & H). apply IHloop in H.
    pose proof (length_drop_le 2 (String c' after)). cbn [Py.drop] in *. lia.
Qed.

Lemma parse_pybind_type_consumes (state : State) (signature rest type : string) :
  parse_pybind_type state signature = Ok (rest, type) ->
  String.length rest < String.length signature.
Proof. apply parse_pybind_type_fuel_consumes. Qed.

Lemma arg_name_char_not_paren (c : ascii) :
  _pybind_arg_name_rx c = true -> Ascii.eqb c ")" = false.
Proof.
  destruct (Ascii.eqb_spec c ")") as [->|]; [discriminate | reflexivity].
Qed.

(** An argument starts with a character of a name, which a closing
    parenthesis is not, and parsing it consumes at least that character. *)
Lemma parse_pybind_arg_consumes (state : State) (signature rest : string)
    (arg : Arg) :
  parse_pybind_arg state signature = Ok (rest, arg) ->
  String.length rest < String.length signature
  /\ exists c s, signature = String c s /\ Ascii.eqb c ")" = false.
Proof.
  unfold parse_pybind_arg.
  destruct (Py.span1 _pybind_arg_name_rx signature) as [[arg_name after]|] eqn:Hspan;
    [|discriminate].
  intros H. split.
  - apply span1_length in Hspan.
    apply bind_ok in H as ([after1 arg_type] & Htype & H).
    apply bind_ok in H as ([after2 default] & Hdefault & H).
    injection H as <- _.
    assert (H1 : String.length after1 <= String.length after).
    { destruct (Py.startswith after ": ").
      - apply bind_ok in Htype as ([after' type] & Htype & Heq).
        injection Heq as <- _. apply parse_pybind_type_consumes in Htype.
        pose proof (length_drop_le 2 after). cbn [Py.drop] in *. lia.
      - injection Htype as <- _. lia. }
    assert (H2 : String.length after2 <= String.length after1).
    { destruct (Py.startswith after1 "=").
      - destruct (Py.span1 _pybind_default_value_rx (Py.drop 1 after1))
          as [[d after']|] eqn:Hd; [|discriminate].
        injection Hdefault as <- _. apply span1_length in Hd.
        pose proof (length_drop_le 1 after1). cbn [Py.drop] in *. lia.
      - injection Hdefault as <- _. lia. }
    lia.
  - unfold Py.span1 in Hspan. destruct signature as [|c s]; [discriminate|].
    exists c, s. split; [reflexivity|]. simpl in Hspan.
    destruct (_pybind_arg_name_rx c) eqn:Hc; [|discriminate].
    now apply arg_name_char_not_paren.
Qed.

(** ** The line structure of the original text *)

Lemma span_rest_stops (p : ascii -> bool) (s : string) :
  stops p (snd (Py.span p s)) = true.
Proof.
  induction s as [|c s IH]; [reflexivity|]. simpl.
  destruct (p c) eqn:Hc.
  - destruct (Py.span p s). exact IH.
  - simpl. now rewrite Hc.
Qed.

(** A text is its first line, alone or followed by a line break and the
    rest. *)
Lemma first_line_split (s : string) :
  (s = first_line s /\ after_first_line s = ""
   /\ snd (Py.span not_newline s) = "")
  \/ (s = first_line s ++ String Py.LF (after_first_line s)
      /\ snd (Py.span not_newline s) = String Py.LF (after_first_line s)).
Proof.
  unfold first_line, after_first_line.
  pose proof (span_split not_newline s) as Hsplit.
  pose proof (span_rest_stops not_newline s) as Hstop.
  destruct (Py.span not_newline s) as [line rest]. simpl in *.
  destruct rest as [|c rest].
  - left. rewrite PyFacts.append_nil_r in Hsplit. repeat split. exact Hsplit.
  - right. simpl in Hstop. unfold not_newline in Hstop.
    rewrite negb_involutive in Hstop. apply Ascii.eqb_eq in Hstop. subst c.
    split; [exact Hsplit | reflexivity].
Qed.

Lemma find_from_newline (s : string) (i : nat) :
  Py.find_from i s Py.nl
  = match snd (Py.span not_newline s) with
    | EmptyString => None
    | String _ _ => Some (i + String.length (first_line s))
    end.
Proof.
  unfold first_line. revert i. induction s as [|c s IH]; intros i.
  - reflexivity.
  - cbn [Py.find_from]. unfold Py.nl. rewrite PyFacts.prefix_cons.
    rewrite PyFacts.prefix_nil, andb_true_r. cbn [Py.span].
    unfold not_newline at 1 3. rewrite (Ascii.eqb_sym c Py.LF).
    destruct (Ascii.eqb Py.LF c); simpl.
    + f_equal. lia.
    + fold Py.nl. rewrite IH.
      destruct (Py.span not_newline s) as [line rest]. simpl.
      destruct rest; [reflexivity | f_equal; lia].
Qed.

Lemma get_append (a b : string) (n : nat) :
  String.get (String.length a + n) (a ++ b) = String.get n b.
Proof. induction a as [|c a IH]; simpl; [reflexivity | exact IH]. Qed.

Lemma drop_append_more (a b : string) (n : nat) :
  Py.drop (String.length a + n) (a ++ b) = Py.drop n b.
Proof. induction a as [|c a IH]; simpl; [reflexivity | exact IH]. Qed.

(** The failure block logs the first line of the original text and takes
    the summary from the blank line that directly follows it. *)
Lemma parse_failure_spec {lib : Library} (state : State)
    (original_signature name : string) :
  parse_failure state original_signature name
  = ((name, degenerate_summary state original_signature, [("…", None, None)],
      None),
     ["cannot parse pybind11 function signature "
      ++ first_line original_signature]).
Proof.
  unfold parse_failure, degenerate_summary, ellipsis_args, Py.find.
  rewrite find_from_newline.
  destruct (first_line_split original_signature)
    as [(Hs & Hafter & Hrest) | (Hs & Hrest)]; rewrite Hrest.
  - rewrite Hafter. simpl. now rewrite <- Hs.
  - set (line := first_line original_signature) in *.
    set (after := after_first_line original_signature) in *.
    cbn [Nat.add].
    replace ((Z.of_nat (String.length line) =? -1)%Z) with false
      by (symmetry; apply Z.eqb_neq; lia).
    rewrite Nat2Z.id. cbn [negb andb].
    clearbody line after. subst original_signature.
    rewrite PyFacts.take_append.
    unfold Py.item. rewrite get_append, drop_append_more.
    rewrite PyFacts.length_append. cbn [String.length Py.drop].
    destruct after as [|c after].
    + simpl.
      replace (String.length line + 1 <? String.length line + 1)%nat with false
        by (symmetry; apply Nat.ltb_ge; lia).
      reflexivity.
    + replace (String.length line + 1
               <? String.length line + S (String.length (String c after)))%nat
        with true by (symmetry; apply Nat.ltb_lt; simpl; lia).
      cbn [String.get andb]. unfold Py.startswith, Py.nl.
      rewrite PyFacts.prefix_cons, PyFacts.prefix_nil, andb_true_r.
      now rewrite (Ascii.eqb_sym c Py.LF).
Qed.

(** ** The argument loop *)

Lemma parse_pybind_args_unfold {lib : Library} (fuel : nat) (state : State)
    (original_signature name : string) (c : ascii) (s : string)
    (args : list Arg) :
  parse_pybind_args (S fuel) state original_signature name (String c s) args
  = if Ascii.eqb c ")" then Ok (inr (String c s, args))
    else
      '(signature, arg) <- parse_pybind_arg state (String c s) ;;
      match signature with
      | EmptyString => Raise IndexError
      | String c' _ =>
          if Ascii.eqb c' ")" then Ok (inr (signature, (args ++ [arg])%list))
          else if negb (Py.startswith signature ", ")
          then Ok (inl (parse_failure state original_signature name))
          else parse_pybind_args fuel state original_signature name
                                 (Py.drop 2 signature) (args ++ [arg])%list
      end.
Proof. reflexivity. Qed.

Lemma startswith_char (c d : ascii) (s : string) :
  Py.startswith (String c s) (String d "") = Ascii.eqb c d.
Proof.
  unfold Py.startswith.
  now rewrite PyFacts.prefix_cons, PyFacts.prefix_nil, andb_true_r, Ascii.eqb_sym.
Qed.

Lemma args_loop_gives_up {lib : Library} (state : State)
    (original_signature name signature rest : string) (args : list Arg) :
  args_consumed state signature args rest ->
  Py.truthy rest = true ->
  Py.startswith rest ")" = false ->
  Py.startswith rest ", " = false ->
  forall fuel args0,
    String.length signature < fuel ->
    parse_pybind_args fuel state original_signature name signature args0
    = Ok (inl (parse_failure state original_signature name)).
Proof.
  intros Hconsumed Hne Hparen Hcomma.
  induction Hconsumed as [signature rest arg Harg
                         | signature next rest arg args Harg _ IH];
    intros fuel args0 Hfuel;
    (destruct fuel as [|fuel]; [lia|]);
    destruct (parse_pybind_arg_consumes _ _ _ _ Harg) as (Hlen & c & s & -> & Hc);
    rewrite parse_pybind_args_unfold, Hc, Harg; cbn [bind].
  - destruct rest as [|c' rest]; [discriminate|].
    rewrite startswith_char in Hparen. now rewrite Hparen, Hcomma.
  - cbn [append]. change (Ascii.eqb "," ")") with false. cbv iota.
    rewrite startswith_head2. cbn [negb Py.drop].
    apply (IH Hne Hparen Hcomma).
    rewrite PyFacts.length_append in Hlen. simpl in Hlen. simpl in Hfuel. lia.
Qed.

Lemma args_loop_done {lib : Library} (state : State)
    (original_signature name signature rest : string) (args : list Arg) :
  args_done state signature args rest ->
  forall fuel args0,
    String.length signature < fuel ->
    parse_pybind_args fuel state original_signature name signature args0
    = Ok (inr (rest, (args0 ++ args)%list)).
Proof.
  induction 1 as [signature Hparen
                 | signature rest arg Harg Hparen
                 | signature next rest arg args Harg _ IH];
    intros fuel args0 Hfuel; (destruct fuel as [|fuel]; [lia|]).
  - destruct signature as [|c s]; [discriminate|].
    rewrite startswith_char in Hparen.
    now rewrite parse_pybind_args_unfold, Hparen, app_nil_r.
  - destruct (parse_pybind_arg_consumes _ _ _ _ Harg) as (Hlen & c & s & -> & Hc).
    rewrite parse_pybind_args_unfold, Hc, Harg. cbn [bind].
    destruct rest as [|c' rest]; [discriminate|].
    rewrite startswith_char in Hparen. now rewrite Hparen.
  - destruct (parse_pybind_arg_consumes _ _ _ _ Harg) as (Hlen & c & s & -> & Hc).
    rewrite parse_pybind_args_unfold, Hc, Harg. cbn [bind append].
    change (Ascii.eqb "," ")") with false. cbv iota.
    rewrite startswith_head2. cbn [negb Py.drop].
    rewrite IH.
    + now rewrite <- app_assoc.
    + rewrite PyFacts.length_append in Hlen. simpl in Hlen. simpl in Hfuel. lia.
Qed.

(** C2, amended.  When, after one or more arguments, the text goes on with
    something that is neither [", "] nor [")"], or when text that does not
    begin with a line break is left after the closing parenthesis and the
    optional return type, [parse_pybind_signature] does not raise: it
    returns the name, a single parameter ["…"] without type and default,
    no return type, and as summary that of the text from the blank line
    that directly follows the first line (nothing when no blank line follows
    it directly), and it logs one warning that ends with the first line of
    the original text.  Text that ends right after an argument is not
    covered: there the parser raises [IndexError]. *)
Theorem parse_pybind_signature_degrades {lib : Library} (state : State)
    (name tail : string) :
  all_chars _pybind_name_rx name = true ->
  malformed state tail ->
  parse_pybind_signature state (name ++ tail)
  = Ok ((name, degenerate_summary state (name ++ tail), [("…", None, None)],
         None),
        ["cannot parse pybind11 function signature "
         ++ first_line (name ++ tail)]).
Proof.
  intros Hname Hmal. rewrite <- parse_failure_spec.
  unfold parse_pybind_signature.
  destruct Hmal as [body rest args Hconsumed Hne Hparen Hcomma
                   | body after rest args Hdone Hreturn Hne Hnl];
    rewrite (span_append _pybind_name_rx name ("(" ++ body) Hname eq_refl);
    cbn [append]; change (Ascii.eqb "(" "(") with true; cbn [py_assert bind].
  - rewrite (args_loop_gives_up state _ name body rest args Hconsumed Hne Hparen
               Hcomma) by lia.
    reflexivity.
  - rewrite (args_loop_done state _ name body _ args Hdone) by lia.
    cbn [bind app append]. rewrite startswith_head. cbn [py_assert bind].
    change (Py.drop 1 (String ")" after)) with after.
    destruct Hreturn as [[Harrow [type Htype]] | [Harrow ->]]; rewrite Harrow.
    + rewrite Htype. cbn [bind]. now rewrite Hne, Hnl.
    + cbn [bind]. now rewrite Hne, Hnl.
Qed.

Lemma parse_pybind_signature_degrades_witness :
  all_chars _pybind_name_rx "f" = true
  /\ malformed (mkState true []) ("(a; b)" ++ Py.nl ++ Py.nl ++ "Summary.")
  /\ malformed (mkState true []) "(a: int) -> int extra"
  /\ @parse_pybind_signature plain_library (mkState true [])
       ("f" ++ "(a; b)" ++ Py.nl ++ Py.nl ++ "Summary.")
     = Ok (("f", Py.nl ++ "Summary.", [("…", None, None)], None),
           ["cannot parse pybind11 function signature f(a; b)"]).
Proof.
  assert (Hname : all_chars _pybind_name_rx "f" = true) by reflexivity.
  assert (Hmal : malformed (mkState true [])
                   ("(a; b)" ++ Py.nl ++ Py.nl ++ "Summary.")).
  { apply (malformed_argument _ _ ("; b)" ++ Py.nl ++ Py.nl ++ "Summary.")
             [("a", None, None)]); try reflexivity.
    apply consumed_last. reflexivity. }
  split; [exact Hname | split; [exact Hmal | split]].
  - apply (malformed_tail _ "a: int) -> int extra" " -> int extra" " extra"
             [("a", Some "int", None)]); try reflexivity.
    + apply done_after; reflexivity.
    + left. split; [reflexivity|]. exists "int". reflexivity.
  - exact (@parse_pybind_signature_degrades plain_library (mkState true [])
             "f" _ Hname Hmal).
Defined.

(** C2, as stated, fails.  In ["f(a"] the argument [a] is consumed and what
    follows is neither [", "] nor [")"], yet the parser raises
    [IndexError].  And when the first blank line does not directly follow
    the first line, the text after it is not used for the summary. *)
Lemma parse_pybind_signature_truncated :
  args_consumed (mkState true []) "a" [("a", None, None)] ""
  /\ Py.startswith "" ", " = false
  /\ Py.startswith "" ")" = false
  /\ @parse_pybind_signature plain_library (mkState true []) "f(a"
     = Raise IndexError
  /\ @parse_pybind_signature plain_library (mkState true [])
       ("f(a; b)" ++ Py.nl ++ "Notes." ++ Py.nl ++ Py.nl ++ "Summary.")
     = Ok (("f", "", [("…", None, None)], None),
           ["cannot parse pybind11 function signature f(a; b)"]).
Proof.
  split; [apply consumed_last; reflexivity|]. repeat split; reflexivity.
Qed.

(* ================================================================== *)
(** * Overloaded docstrings *)
(* ================================================================== *)

(** ["f(*args, **kwargs)\nOverloaded function.\n\n"] *)
Definition sample_overload_header : string :=
  "f(*args, **kwargs)" ++ Py.nl ++ "Overloaded function." ++ Py.nl ++ Py.nl.

(** The docstring of the specification: two overloads, each followed by a
    blank line, parsed with an empty rewrite table. *)
Example parse_pybind_docstring_two_overloads (lib : Library) (flag : bool) :
  parse_pybind_docstring (mkState flag []) "f"
    (sample_overload_header
     ++ "1. f(a: int) -> int" ++ Py.nl ++ Py.nl
     ++ "2. f(a: str) -> str" ++ Py.nl ++ Py.nl)
  = Ok ([ ("f", "", [("a", Some "int", None)], Some "int");
          ("f", "", [("a", Some "str", None)], Some "str") ], []).
Proof. reflexivity. Qed.

(** The slice the last overload is parsed from: [find] returns [-1] when
    no further marker follows, and [doc[n:-1]] stops one character before
    the end of the text. *)
Lemma slice_to_missing_marker (doc : string) (n : nat) :
  Py.slice doc n (-1)
  = Py.drop n
      (Py.take (String.length doc
                - Py.last_char_bytes (rev (list_ascii_of_string doc))) doc).
Proof.
  unfold Py.slice. cbn [Z.ltb Z.compare Z.opp Z.to_nat].
  change (Pos.to_nat 1) with 1. cbn [Py.last_chars_bytes].
  now rewrite Nat.add_0_r.
Qed.

(** C3 fails on the code at the last block.  With the same two overloads
    and no line break at the end of the docstring, the second block is
    parsed without its last character and the return type comes out as
    ["st"] where the block says ["str"]; a docstring that ends right after
    the closing parenthesis of its only overload makes the parser raise. *)
Theorem last_overload_loses_last_character (lib : Library) :
  parse_pybind_docstring (mkState true []) "f"
    (sample_overload_header
     ++ "1. f(a: int) -> int" ++ Py.nl ++ Py.nl
     ++ "2. f(a: str) -> str")
  = Ok ([ ("f", "", [("a", Some "int", None)], Some "int");
          ("f", "", [("a", Some "str", None)], Some "st") ], [])
  /\ parse_pybind_signature (mkState true []) "f(a: str) -> str"
     = Ok (("f", "", [("a", Some "str", None)], Some "str"), [])
  /\ parse_pybind_docstring (mkState true []) "f"
       (sample_overload_header ++ "1. f()")
     = Raise IndexError.
Proof. repeat split; reflexivity. Qed.

(* ================================================================== *)
(** * The recursion budgets suffice *)
(* ================================================================== *)

Lemma bind_terminates {A B : Type} (m : result A) (k : A -> result B) :
  terminates m -> (forall a, m = Ok a -> terminates (k a)) ->
  terminates (bind m k).
Proof.
  unfold terminates. destruct m as [a| |]; simpl; intros Hm Hk.
  - now apply Hk.
  - discriminate.
  - congruence.
Qed.

Lemma py_assert_terminates (b : bool) : terminates (py_assert b).
Proof. destruct b; discriminate. Qed.

(** Closes a goal [terminates r] where [r] is visibly a value or an
    exception. *)
Ltac ends :=
  solve [ discriminate | cbv [terminates]; simpl; discriminate ].

Lemma parse_pybind_type_fuel_terminates (fuel : nat) (state : State) :
  (forall signature,
      2 * String.length signature + 1 <= fuel ->
      terminates (parse_pybind_type_fuel fuel state signature))
  /\ (forall signature type,
         2 * String.length signature + 2 <= fuel ->
         terminates (parse_pybind_type_loop fuel state signature type)).
Proof.
  induction fuel as [|fuel [IHtype IHloop]]; [split; intros; lia|]. split.
  - intros signature Hfuel. rewrite parse_pybind_type_fuel_unfold.
    destruct (Py.span1 _pybind_type_rx signature) as [[token after]|] eqn:Hspan;
      [|ends].
    apply span1_length in Hspan.
    destruct (Py.startswith after "[") eqn:Hopen; [|ends].
    apply bind_terminates.
    + apply IHloop. destruct after as [|c after]; [ends|].
      simpl in *. lia.
    + intros [inner type] _.
      apply bind_terminates; [apply py_assert_terminates | intros; ends].
  - intros signature type Hfuel. destruct signature as [|c s]; [ends|].
    rewrite parse_pybind_type_loop_unfold.
    destruct (Ascii.eqb c "]"); [ends|].
    apply bind_terminates; [apply IHtype; lia|].
    intros [after inner] Htype.
    apply (proj1 (parse_pybind_type_fuel_consumes fuel state)) in Htype.
    destruct after as [|c' after]; [ends|].
    destruct (Ascii.eqb c' "]"); [ends|].
    apply bind_terminates; [apply py_assert_terminates|].
    intros _ _. apply IHloop.
    pose proof (length_drop_le 2 (String c' after)). lia.
Qed.

Lemma parse_pybind_type_terminates (state : State) (signature : string) :
  terminates (parse_pybind_type state signature).
Proof.
  unfold parse_pybind_type. apply parse_pybind_type_fuel_terminates. lia.
Qed.

Lemma parse_pybind_arg_terminates (state : State) (signature : string) :
  terminates (parse_pybind_arg state signature).
Proof.
  unfold parse_pybind_arg.
  destruct (Py.span1 _pybind_arg_name_rx signature) as [[arg_name after]|];
    [|ends].
  apply bind_terminates.
  - destruct (Py.startswith after ": "); [|ends].
    apply bind_terminates; [apply parse_pybind_type_terminates|].
    intros [s t] _. ends.
  - intros [after1 arg_type] _. apply bind_terminates.
    + destruct (Py.startswith after1 "="); [|ends].
      destruct (Py.span1 _ _) as [[d s]|]; ends.
    + intros [after2 default] _. ends.
Qed.

Lemma parse_pybind_args_terminates {lib : Library} (state : State)
    (original_signature name : string) (fuel : nat) :
  forall signature args,
    String.length signature < fuel ->
    terminates (parse_pybind_args fuel state original_signature name
                                  signature args).
Proof.
  induction fuel as [|fuel IH]; intros signature args Hfuel; [lia|].
  destruct signature as [|c s]; [ends|].
  rewrite parse_pybind_args_unfold.
  destruct (Ascii.eqb c ")"); [ends|].
  apply bind_terminates; [apply parse_pybind_arg_terminates|].
  intros [after arg] Harg. apply parse_pybind_arg_consumes in Harg as [Hlen _].
  destruct after as [|c' after]; [ends|].
  destruct (Ascii.eqb c' ")"); [ends|].
  destruct (negb (Py.startswith (String c' after) ", ")); [ends|].
  apply IH. pose proof (length_drop_le 2 (String c' after)). lia.
Qed.

(** [parse_pybind_signature] ends by itself on every input. *)
Lemma parse_pybind_signature_terminates {lib : Library} (state : State)
    (signature : string) :
  terminates (parse_pybind_signature state signature).
Proof.
  unfold parse_pybind_signature.
  destruct (Py.span _pybind_name_rx signature) as [name after].
  destruct after as [|c after]; [ends|].
  apply bind_terminates; [apply py_assert_terminates|].
  intros _ _. apply bind_terminates; [apply parse_pybind_args_terminates; lia|].
  intros [failed | [rest args]] _; [ends|].
  apply bind_terminates; [apply py_assert_terminates|].
  intros _ _. apply bind_terminates.
  - destruct (Py.startswith _ " -> "); [|ends].
    apply bind_terminates; [apply parse_pybind_type_terminates|].
    intros [s t] _. ends.
  - intros [rest' return_type] _.
    destruct (Py.truthy rest' && negb (Py.startswith rest' Py.nl)); ends.
Qed.

(** ** The loop over overloads *)

Lemma string_of_uint_digits (d : Decimal.uint) :
  all_chars is_digit (NilEmpty.string_of_uint d) = true.
Proof. induction d; simpl; try reflexivity; exact IHd. Qed.

Lemma str_injective (n m : nat) : Py.str n = Py.str m -> n = m.
Proof.
  unfold Py.str. intros H. apply DecimalNat.Unsigned.to_uint_inj.
  pose proof (NilEmpty.usu (Nat.to_uint n)) as Hn.
  pose proof (NilEmpty.usu (Nat.to_uint m)) as Hm.
  rewrite H in Hn. rewrite Hn in Hm. now injection Hm.
Qed.

(** Two runs of digits, each followed by a dot, that begin the same text
    are the same run. *)
Lemma digits_then_dot (a b x y : string) :
  all_chars is_digit a = true -> all_chars is_digit b = true ->
  a ++ String "." x = b ++ String "." y -> a = b.
Proof.
  revert b. induction a as [|c a IH]; intros [|d b] Ha Hb Heq; simpl in *.
  - reflexivity.
  - injection Heq as <- _. discriminate.
  - injection Heq as -> _. discriminate.
  - injection Heq as -> Heq.
    apply andb_true_iff in Ha as [_ Ha]. apply andb_true_iff in Hb as [_ Hb].
    f_equal. now apply IH.
Qed.

(** A text begins with the marker of at most one overload number. *)
Lemma overload_marker_unique (doc name : string) (id : nat) :
  Py.startswith doc (overload_marker id name) = true ->
  Py.startswith doc (overload_marker (id + 1) name) = false.
Proof.
  intros H. apply not_true_is_false. intros H'.
  apply PyFacts.startswith_iff in H as [x Hx].
  apply PyFacts.startswith_iff in H' as [y Hy].
  unfold overload_marker in *. rewrite Hx in Hy.
  rewrite !PyFacts.append_assoc in Hy. cbn [append] in Hy.
  apply digits_then_dot in Hy; try apply string_of_uint_digits.
  apply str_injective in Hy. lia.
Qed.

Lemma find_from_bounds (sub s : string) (i k : nat) :
  Py.find_from i s sub = Some k ->
  i <= k
  /\ (k = i -> String.prefix sub s = true)
  /\ k - i <= String.length s.
Proof.
  revert i. induction s as [|c s IH]; intros i; cbn [Py.find_from].
  - destruct (String.prefix sub ""); [|discriminate].
    intros H. injection H as <-. repeat split; lia.
  - destruct (String.prefix sub (String c s)) eqn:Hp.
    + intros H. injection H as <-. repeat split; lia.
    + intros H. apply IH in H as (Hle & _ & Hlen).
      repeat split; [lia | lia | simpl; lia].
Qed.

Lemma parse_pybind_overloads_terminates {lib : Library} (state : State)
    (name : string) (fuel : nat) :
  forall doc id overloads log,
    String.length doc < fuel ->
    terminates (parse_pybind_overloads fuel state name doc id overloads log).
Proof.
  induction fuel as [|fuel IH]; intros doc id overloads log Hfuel; [lia|].
  cbn [parse_pybind_overloads]. unfold py_assert at 1.
  destruct (Py.startswith doc (overload_marker id name)) eqn:Hmarker; [|ends].
  cbn [bind]. apply bind_terminates; [apply parse_pybind_signature_terminates|].
  intros [parsed warnings] _.
  apply bind_terminates; [apply py_assert_terminates|]. intros _ _.
  unfold Py.find.
  destruct (Py.find_from 0 doc (overload_marker (id + 1) name)) as [next|] eqn:Hfind;
    [|ends].
  replace ((Z.of_nat next =? -1)%Z) with false by (symmetry; apply Z.eqb_neq; lia).
  rewrite Nat2Z.id. apply IH.
  apply find_from_bounds in Hfind as (_ & Hzero & _).
  assert (Hpos : next <> 0).
  { intros ->. specialize (Hzero eq_refl).
    pose proof (overload_marker_unique doc name id Hmarker) as Hnot.
    unfold Py.startswith in Hnot. congruence. }
  rewrite PyFacts.length_drop.
  assert (Hdoc : 1 <= String.length doc).
  { apply PyFacts.startswith_iff in Hmarker as [rest ->].
    unfold overload_marker. rewrite !PyFacts.length_append. simpl. lia. }
  lia.
Qed.

(** [parse_pybind_docstring] ends by itself on every input. *)
Lemma parse_pybind_docstring_terminates {lib : Library} (state : State)
    (name doc : string) :
  terminates (parse_pybind_docstring state name doc).
Proof.
  unfold parse_pybind_docstring.
  destruct (Py.startswith doc _).
  - apply parse_pybind_overloads_terminates. lia.
  - apply bind_terminates; [apply parse_pybind_signature_terminates|].
    intros [parsed warnings] _. ends.
Qed.

(* ================================================================== *)
(** * Page URLs, breadcrumbs and links *)
(* ================================================================== *)

Lemma join_cons (sep i : string) (rest : list string) :
  rest <> [] -> Py.join sep (i :: rest) = i ++ sep ++ Py.join sep rest.
Proof. destruct rest; [congruence | reflexivity]. Qed.

Lemma prefixes_nonempty (path : list string) :
  Forall (fun pre => pre <> []) (prefixes path).
Proof.
  induction path as [|i path IH]; simpl; constructor; [discriminate|].
  apply Forall_map. apply Forall_forall. discriminate.
Qed.

Lemma prefixes_snoc (path : list string) (i : string) :
  prefixes (path ++ [i]) = (prefixes path ++ [path ++ [i]])%list.
Proof.
  induction path as [|j path IH]; [reflexivity|].
  cbn [app prefixes]. now rewrite IH, map_app.
Qed.

Lemma breadcrumb_loop_spec (path : list string) :
  forall url_base breadcrumb,
    breadcrumb_loop url_base breadcrumb path
    = (breadcrumb
       ++ map (fun pre => (last pre "", (url_base ++ make_url pre)%string))
              (prefixes path))%list.
Proof.
  induction path as [|i path IH]; intros url_base breadcrumb; simpl.
  - now rewrite app_nil_r.
  - rewrite IH, <- app_assoc. f_equal. simpl. f_equal.
    + unfold make_url. simpl. now reassociate.
    + rewrite map_map. apply map_ext_in. intros pre Hin.
      pose proof (prefixes_nonempty path) as Hne.
      rewrite Forall_forall in Hne. specialize (Hne pre Hin).
      unfold make_url. rewrite (join_cons "." i pre Hne).
      destruct pre as [|j pre]; [congruence|]. f_equal. now reassociate.
Qed.

Lemma py_last_snoc {A : Type} (l : list A) (x : A) : py_last (l ++ [x]) = Ok x.
Proof. unfold py_last. now rewrite rev_unit. Qed.

Lemma path_last_snoc (path : list string) (name : string) :
  path_last (path ++ [name]) = Ok name.
Proof. unfold path_last. now rewrite rev_unit. Qed.

Lemma prefix_wbr_concat (sep : string) (path : list string) :
  Py.join sep (path ++ [""])
  = String.concat "" (map (fun i => i ++ sep) path).
Proof.
  induction path as [|i path IH]; [reflexivity|].
  cbn [app map]. rewrite join_cons by (destruct path; discriminate).
  rewrite IH. destruct path as [|j path]; simpl.
  - now rewrite !PyFacts.append_nil_r.
  - now reassociate.
Qed.

(** The head of a page whose path ends in [name]. *)
Lemma page_head_snoc {lib : Library} (state : State)
    (docs : list (string * ExternalDoc)) (path : list string) (name : string)
    (doc : option string) :
  page_head state docs (path ++ [name]) doc
  = Ok (mkPageHead
          (extract_summary state docs (path ++ [name]) doc)
          (make_url (path ++ [name]))
          (map (fun pre => (last pre "", make_url pre)) (prefixes (path ++ [name])))
          (String.concat "" (map (fun i => i ++ ".<wbr />") (path ++ [name])))
          name).
Proof.
  unfold page_head. rewrite breadcrumb_loop_spec. cbn [app append].
  rewrite prefixes_snoc at 1 2. rewrite map_app. cbn [map].
  rewrite !py_last_snoc. cbn [bind]. rewrite last_last.
  rewrite prefixes_snoc, map_app. cbn [map]. rewrite last_last.
  rewrite py_last_snoc. cbn [bind]. now rewrite prefix_wbr_concat.
Qed.

(** X1. For a non-empty path the page of a module or class has the URL
    [make_url(path)], one breadcrumb per non-empty prefix of the path,
    labelled with the last segment of the prefix and linked to the URL of
    the prefix, the last segment as the name of its index entry, and as
    [prefix_wbr] every segment followed by [".<wbr />"].  For the empty path
    [breadcrumb[-1]] raises [IndexError]. *)
Theorem page_head_breadcrumb {lib : Library} (state : State)
    (docs : list (string * ExternalDoc)) (path : list string)
    (doc : option string) :
  (path = [] -> page_head state docs path doc = Raise IndexError)
  /\ (path <> [] ->
      exists head,
        page_head state docs path doc = Ok head
        /\ page_url head = make_url path
        /\ path_last path = Ok (index_entry_name head)
        /\ page_breadcrumb head
           = map (fun pre => (last pre "", make_url pre)) (prefixes path)
        /\ List.length (page_breadcrumb head) = List.length path
        /\ page_prefix_wbr head
           = String.concat "" (map (fun i => i ++ ".<wbr />") path)).
Proof.
  split; [intros ->; reflexivity|]. intros Hne.
  destruct (exists_last Hne) as (init & name & ->).
  eexists. split; [apply page_head_snoc|]. cbn.
  repeat split; try reflexivity.
  - apply path_last_snoc.
  - rewrite length_map. clear. induction (init ++ [name])%list as [|i l IH];
      [reflexivity|]. simpl. now rewrite length_map, IH.
Qed.

Lemma extract_module_doc_url {lib : Library} (state : State)
    (class_docs : list (string * ExternalDoc)) (path : list string)
    (name : string) (module : PyObject) (doc : LinkDoc) :
  extract_module_doc state class_docs (path ++ [name]) module = Ok doc ->
  link_url doc = make_url (path ++ [name]) /\ link_name doc = name.
Proof.
  unfold extract_module_doc. destruct (py_assert _); simpl; try discriminate.
  rewrite path_last_snoc. simpl. intros H. injection H as <-. split; reflexivity.
Qed.

Lemma extract_class_doc_url {lib : Library} (state : State)
    (class_docs : list (string * ExternalDoc)) (path : list string)
    (name : string) (class_ : PyObject) (doc : LinkDoc) :
  extract_class_doc state class_docs (path ++ [name]) class_ = Ok doc ->
  link_url doc = make_url (path ++ [name]) /\ link_name doc = name.
Proof.
  unfold extract_class_doc. destruct (py_assert _); simpl; try discriminate.
  rewrite path_last_snoc. simpl. intros H. injection H as <-. split; reflexivity.
Qed.

Lemma inspect_modules_spec {lib : Library} (state : State)
    (class_docs : list (string * ExternalDoc)) (module : PyObject)
    (path : list string) (members : list (string * PyObject)) :
  forall modules queue modules' queue',
    inspect_modules state class_docs module path members modules queue
    = Ok (modules', queue') ->
    exists links queued,
      modules' = (modules ++ links)%list /\ queue' = (queue ++ queued)%list
      /\ Forall3 (linked state path)
                 (kept_names state module path members) links queued.
Proof.
  induction members as [|[name object] members IH];
    intros modules queue modules' queue' H; simpl in H.
  - injection H as <- <-. exists [], []. rewrite !app_nil_r.
    repeat split. constructor.
  - unfold kept_names. simpl.
    destruct (is_internal_or_imported_module_member state module path name object).
    + simpl. now apply IH.
    + apply bind_ok in H as (doc & Hdoc & H).
      apply IH in H. destruct H as (links & queued & -> & -> & Hall).
      exists (doc :: links), (((path ++ [name])%list, object) :: queued).
      rewrite <- !app_assoc. repeat split. simpl. constructor; [|exact Hall].
      apply extract_module_doc_url in Hdoc as [Hurl Hname].
      repeat split; [exact Hname|]. intros docs d. eexists.
      split; [apply page_head_snoc|]. simpl. now rewrite Hurl.
Qed.

Lemma inspect_classes_spec {lib : Library} (state : State)
    (class_docs : list (string * ExternalDoc)) (module : PyObject)
    (path : list string) (members : list (string * PyObject)) :
  forall classes queue log classes' queue' log',
    inspect_classes state class_docs module path members classes queue log
    = Ok (classes', queue', log') ->
    exists links queued,
      classes' = (classes ++ links)%list /\ queue' = (queue ++ queued)%list
      /\ Forall3 (linked state path)
                 (kept_names state module path members) links queued.
Proof.
  induction members as [|[name object] members IH];
    intros classes queue log classes' queue' log' H; simpl in H.
  - injection H as <- <- <-. exists [], []. rewrite !app_nil_r.
    repeat split. constructor.
  - unfold kept_names. simpl.
    destruct (is_internal_or_imported_module_member state module path name object).
    + simpl. now apply IH in H.
    + apply bind_ok in H as (doc & Hdoc & H).
      apply IH in H. destruct H as (links & queued & -> & -> & Hall).
      exists (doc :: links), (((path ++ [name])%list, object) :: queued).
      rewrite <- !app_assoc. repeat split. simpl. constructor; [|exact Hall].
      apply extract_class_doc_url in Hdoc as [Hurl Hname].
      repeat split; [exact Hname|]. intros docs d. eexists.
      split; [apply page_head_snoc|]. simpl. now rewrite Hurl.
Qed.

(** X2. In inspection mode the entries listed under the modules and under
    the classes of a module page are, in order, those of the members the
    filter keeps; each is queued for rendering under the path of the module
    extended by the member name, and its link is the URL the queued page
    gets, so no entry links to a page that is not rendered. *)
Theorem inspected_members_linked {lib : Library} (state : State)
    (class_docs : list (string * ExternalDoc)) (module : PyObject)
    (path : list string) (members : list (string * PyObject)) :
  (forall modules queued,
      inspect_modules state class_docs module path members [] []
      = Ok (modules, queued) ->
      Forall3 (linked state path)
              (kept_names state module path members) modules queued)
  /\ (forall classes queued log,
         inspect_classes state class_docs module path members [] [] []
         = Ok (classes, queued, log) ->
         Forall3 (linked state path)
                 (kept_names state module path members) classes queued).
Proof.
  split.
  - intros modules queued H.
    apply inspect_modules_spec in H.
    destruct H as (links & q & Hl & Hq & Hall). simpl in Hl, Hq. now subst.
  - intros classes queued log H.
    apply inspect_classes_spec in H.
    destruct H as (links & q & Hl & Hq & Hall). simpl in Hl, Hq. now subst.
Qed.

(* ================================================================== *)
(** * Marking the index tree *)
(* ================================================================== *)

(** The loop returns whether it met a module entry, or the flag it was
    started with, and replaces exactly the module entries. *)
Lemma mark_nested_loop_spec (mark_children : IndexEntry -> IndexEntry)
    (entries : list IndexEntry) :
  forall flag,
    mark_nested_loop mark_children entries flag
    = (flag || existsb is_module_entry entries,
       map (fun i => if is_module_entry i then mark_children i else i) entries).
Proof.
  induction entries as [|i entries IH]; intros flag; simpl.
  - now rewrite orb_false_r.
  - unfold is_module_entry at 1 3.
    destruct (String.eqb (entry_kind i) "module"); simpl; rewrite IH.
    + now rewrite orb_true_r.
    + reflexivity.
Qed.

Lemma mark_entry_unfold (i : IndexEntry) :
  mark_entry i
  = mkIndexEntry (entry_kind i) (entry_name i) (entry_url i) (entry_summary i)
      (has_nestaable_children i)
      (Some (existsb is_module_entry (entry_children i)))
      (map (fun j => if is_module_entry j then mark_entry j else j)
           (entry_children i)).
Proof.
  destruct i as [kind name url summary declared flag children]. simpl.
  now rewrite mark_nested_loop_spec.
Qed.

Lemma mark_keeps_kind (i : IndexEntry) :
  is_module_entry (if is_module_entry i then mark_entry i else i)
  = is_module_entry i.
Proof.
  destruct (is_module_entry i) eqn:H; [|exact H].
  rewrite mark_entry_unfold. exact H.
Qed.

Lemma existsb_marked (entries : list IndexEntry) :
  existsb is_module_entry
    (map (fun i => if is_module_entry i then mark_entry i else i) entries)
  = existsb is_module_entry entries.
Proof.
  induction entries as [|i entries IH]; [reflexivity|]. simpl.
  now rewrite mark_keeps_kind, IH.
Qed.

(** X3. [mark_nested_modules] returns whether the list holds an entry of
    kind ['module'].  It leaves every other entry as it is, with everything
    below it, and gives every module entry the flag saying whether one of
    its own children is a module, after treating its children the same
    way. *)
Theorem mark_nested_modules_result (entries : list IndexEntry) :
  fst (mark_nested_modules entries) = existsb is_module_entry entries
  /\ List.length (snd (mark_nested_modules entries)) = List.length entries
  /\ forall n i,
       nth_error entries n = Some i ->
       exists i',
         nth_error (snd (mark_nested_modules entries)) n = Some i'
         /\ (is_module_entry i = false -> i' = i)
         /\ (is_module_entry i = true ->
             has_nestable_children i'
             = Some (existsb is_module_entry (entry_children i))
             /\ has_nestable_children i'
                = Some (fst (mark_nested_modules (entry_children i)))
             /\ entry_children i'
                = snd (mark_nested_modules (entry_children i))).
Proof.
  unfold mark_nested_modules. rewrite !mark_nested_loop_spec. simpl.
  split; [reflexivity|]. split; [apply length_map|].
  intros n i Hn. eexists. split.
  - rewrite nth_error_map, Hn. reflexivity.
  - split; intros Hi; rewrite Hi; [reflexivity|].
    rewrite mark_entry_unfold, mark_nested_loop_spec. simpl. repeat split.
Qed.

Lemma modules_marked_in_unfold (i : IndexEntry) :
  modules_marked_in i
  <-> (is_module_entry i = true ->
       has_nestable_children i = Some (existsb is_module_entry (entry_children i))
       /\ modules_marked (entry_children i)).
Proof.
  destruct i as [kind name url summary declared flag children].
  unfold modules_marked, is_module_entry. simpl.
  assert (Hall : forall l,
             (fix all (l : list IndexEntry) : Prop :=
                match l with
                | [] => True
                | j :: l' => modules_marked_in j /\ all l'
                end) l <-> Forall modules_marked_in l).
  { induction l as [|j l IH]; split; intros H.
    - constructor.
    - exact I.
    - destruct H as [Hj Hl]. constructor; [exact Hj | now apply IH].
    - inversion H; subst. split; [assumption | now apply IH]. }
  split; intros H Hk; destruct (H Hk) as [Hf Hc]; split;
    try exact Hf; now apply Hall.
Qed.

Lemma mark_entry_marked (i : IndexEntry) :
  modules_marked_in (if is_module_entry i then mark_entry i else i).
Proof.
  induction i as [kind name url summary declared flag children IH]
    using IndexEntry_forall_ind.
  destruct (is_module_entry (mkIndexEntry kind name url summary declared flag
                                          children)) eqn:Hk.
  - rewrite mark_entry_unfold. apply modules_marked_in_unfold. simpl.
    intros _. split; [now rewrite existsb_marked|].
    unfold modules_marked. apply Forall_map.
    eapply Forall_impl; [|exact IH]. intros j Hj. exact Hj.
  - apply modules_marked_in_unfold. congruence.
Qed.

(** X4. After [mark_nested_modules] every module entry of the list, and
    every module entry reached from it through module entries, carries the
    flag [has_nestable_children], and the flag is true exactly when one of
    the children of the entry is a module. *)
Theorem mark_nested_modules_marks (entries : list IndexEntry) :
  modules_marked (snd (mark_nested_modules entries)).
Proof.
  unfold mark_nested_modules, modules_marked.
  rewrite mark_nested_loop_spec. simpl. apply Forall_map.
  apply Forall_forall. intros i _. apply mark_entry_marked.
Qed.

Lemma without_marks_mark (i : IndexEntry) :
  without_marks (if is_module_entry i then mark_entry i else i)
  = without_marks i.
Proof.
  induction i as [kind name url summary declared flag children IH]
    using IndexEntry_forall_ind.
  destruct (is_module_entry _); [|reflexivity].
  rewrite mark_entry_unfold. simpl. f_equal. rewrite map_map.
  apply map_ext_Forall. exact IH.
Qed.

Lemma mark_entry_again (i : IndexEntry) :
  is_module_entry i = true -> mark_entry (mark_entry i) = mark_entry i.
Proof.
  induction i as [kind name url summary declared flag children IH]
    using IndexEntry_forall_ind.
  intros Hk. rewrite (mark_entry_unfold (mark_entry _)).
  rewrite !mark_entry_unfold. simpl. rewrite existsb_marked. f_equal.
  rewrite map_map. apply map_ext_Forall.
  eapply Forall_impl; [|exact IH]. intros j Hj. simpl in Hj.
  rewrite mark_keeps_kind. destruct (is_module_entry j); [now apply Hj | reflexivity].
Qed.

(** X5. [mark_nested_modules] changes nothing but the flag: kinds, names,
    URLs, summaries, the declared attribute [has_nestaable_children] and
    the children with their order stay as they were at every depth.
    Running it once more changes nothing and returns the same value. *)
Theorem mark_nested_modules_stable (entries : list IndexEntry) :
  map without_marks (snd (mark_nested_modules entries)) = map without_marks entries
  /\ mark_nested_modules (snd (mark_nested_modules entries))
     = mark_nested_modules entries.
Proof.
  unfold mark_nested_modules. rewrite !mark_nested_loop_spec. simpl. split.
  - rewrite map_map. apply map_ext. intros i. apply without_marks_mark.
  - rewrite existsb_marked. f_equal. rewrite map_map. apply map_ext.
    intros i. rewrite mark_keeps_kind.
    destruct (is_module_entry i) eqn:Hk; [now apply mark_entry_again | reflexivity].
Qed.

(* ================================================================== *)
(** * More on the mapping pass *)
(* ================================================================== *)

(** A step of the pass leaves the table alone or adds one key it did not
    hold. *)
Lemma export_mapping_step_cases (state state' : State) (path : list string)
    (attrs : list (string * PyObject)) (name : string) :
  export_mapping_step state path attrs name = Ok state' ->
  state' = state
  \/ exists key,
       mapping_has key (module_mapping state) = false
       /\ state' = register_mapping state key (export_path path name).
Proof.
  intros Hstep. unfold export_mapping_step in Hstep.
  destruct (dict_get name attrs) as [object|]; simpl in Hstep; [|discriminate].
  unfold export_path. set (subpath := Py.join "." (path ++ [name])%list) in *.
  destruct (ismodule object), (__name__ object) as [object_name|],
           (__module__ object) as [module|];
    simpl in *; try discriminate;
    repeat match type of Hstep with
           | context [String.eqb ?a ?b] =>
               destruct (String.eqb_spec a b); simpl in Hstep
           | context [py_assert (negb ?b)] =>
               destruct b eqn:?; simpl in Hstep; try discriminate
           end;
    injection Hstep as <-;
    first [ left; reflexivity | right; eexists; split; [eassumption | reflexivity] ].
Qed.

Lemma mapping_has_in (key : string) (items : list (string * string)) :
  mapping_has key items = false -> ~ In key (map fst items).
Proof.
  unfold mapping_has. intros H Hin. apply in_map_iff in Hin as [[k v] [Hk Hin]].
  simpl in Hk. subst k.
  assert (Hex : existsb (fun kv => String.eqb (fst kv) key) items = true).
  { apply existsb_exists. exists (key, v). split; [exact Hin|].
    apply String.eqb_refl. }
  congruence.
Qed.

(** X6. The mapping pass keeps the keys of the rewrite table distinct:
    started on a table without repeated keys, a pass that runs through
    leaves a table without repeated keys. *)
Theorem export_mapping_keys_distinct (path : list string)
    (attrs : list (string * PyObject)) (all : list string) :
  forall state state',
    NoDup (map fst (module_mapping state)) ->
    export_mapping_pass state path attrs all = Ok state' ->
    NoDup (map fst (module_mapping state')).
Proof.
  induction all as [|name all IH]; intros state state' Hnd Hpass; simpl in Hpass.
  - now injection Hpass as <-.
  - apply bind_ok in Hpass as (state1 & Hstep & Hpass).
    apply (IH state1 state'); [|exact Hpass].
    apply export_mapping_step_cases in Hstep as [-> | (key & Hkey & ->)];
      [exact Hnd|].
    simpl. rewrite map_app. simpl.
    apply NoDup_app; [exact Hnd | repeat constructor; intros [] |].
    intros k Hin [Heq | []]. subst k.
    now apply (mapping_has_in key (module_mapping state)).
Qed.

Lemma export_mapping_keys_distinct_witness :
  NoDup (map fst (module_mapping (mkState false [])))
  /\ export_mapping_pass (mkState false []) ["root"] [("Pub", sample_pub)] ["Pub"]
     = Ok sample_pub_state
  /\ NoDup (map fst (module_mapping sample_pub_state)).
Proof.
  assert (H0 : NoDup (map fst (module_mapping (mkState false []))))
    by constructor.
  assert (H1 : export_mapping_pass (mkState false []) ["root"]
                 [("Pub", sample_pub)] ["Pub"] = Ok sample_pub_state)
    by reflexivity.
  split; [exact H0 | split; [exact H1|]].
  exact (export_mapping_keys_distinct _ _ _ _ _ H0 H1).
Defined.

Lemma export_mapping_pass_app (path : list string)
    (attrs : list (string * PyObject)) (before after : list string) :
  forall state,
    export_mapping_pass state path attrs (before ++ after)
    = (state1 <- export_mapping_pass state path attrs before ;;
       export_mapping_pass state1 path attrs after).
Proof.
  induction before as [|name before IH]; intros state; [reflexivity|].
  simpl. destruct (export_mapping_step state path attrs name); simpl;
    [apply IH | reflexivity | reflexivity].
Qed.

Lemma export_mapping_step_duplicate (state : State) (path : list string)
    (attrs : list (string * PyObject)) (name qualified : string)
    (object : PyObject) :
  dict_get name attrs = Some object ->
  natural_name object = Some qualified ->
  qualified <> export_path path name ->
  mapping_has qualified (module_mapping state) = true ->
  export_mapping_step state path attrs name = Raise AssertionError.
Proof.
  intros Hget Hnat Hne Hhas. unfold export_mapping_step. rewrite Hget. simpl.
  unfold natural_name, export_path in *.
  destruct (ismodule object).
  - rewrite Hnat. simpl.
    destruct (String.eqb_spec qualified (Py.join "." (path ++ [name])%list));
      [contradiction|].
    simpl. now rewrite Hhas.
  - simpl. destruct (__module__ object) as [module|]; [|discriminate].
    destruct (__name__ object) as [object_name|]; [|discriminate].
    injection Hnat as <-. simpl in *.
    apply String.eqb_neq in Hne. rewrite Hne. simpl. now rewrite Hhas.
Qed.

(** X7. An export list cannot name an object whose rewrite is in the
    table already: when the pass has run through the entries before such
    an entry and the table then holds the natural name of the entry, which
    differs from its place in the list, the pass stops with
    [AssertionError].  Exporting one re-exported class under two names
    does that. *)
Theorem export_mapping_duplicate_raises (state state1 : State)
    (path : list string) (attrs : list (string * PyObject))
    (before after : list string) (name qualified : string) (object : PyObject) :
  export_mapping_pass state path attrs before = Ok state1 ->
  mapping_has qualified (module_mapping state1) = true ->
  dict_get name attrs = Some object ->
  natural_name object = Some qualified ->
  qualified <> export_path path name ->
  export_mapping_pass state path attrs (before ++ name :: after)
  = Raise AssertionError.
Proof.
  intros Hbefore Hhas Hget Hnat Hne.
  rewrite export_mapping_pass_app, Hbefore. simpl.
  now rewrite (export_mapping_step_duplicate state1 path attrs name qualified
                 object Hget Hnat Hne Hhas).
Qed.

Lemma export_mapping_duplicate_raises_witness :
  export_mapping_pass (mkState false []) ["root"] sample_alias_attrs ["Pub"]
  = Ok sample_pub_state
  /\ mapping_has "pkg._impl.Pub" (module_mapping sample_pub_state) = true
  /\ dict_get "Alias" sample_alias_attrs = Some sample_pub
  /\ natural_name sample_pub = Some "pkg._impl.Pub"
  /\ "pkg._impl.Pub" <> export_path ["root"] "Alias"
  /\ export_mapping_pass (mkState false []) ["root"] sample_alias_attrs
       (["Pub"] ++ "Alias" :: [])
     = Raise AssertionError.
Proof.
  assert (Hne : "pkg._impl.Pub" <> export_path ["root"] "Alias") by discriminate.
  repeat (split; [first [reflexivity | exact Hne]|]).
  exact (export_mapping_duplicate_raises (mkState false []) sample_pub_state
           ["root"] sample_alias_attrs ["Pub"] [] "Alias" "pkg._impl.Pub"
           sample_pub eq_refl eq_refl eq_refl eq_refl Hne).
Defined.

Lemma export_mapping_step_native (state : State) (path : list string)
    (attrs : list (string * PyObject)) (name : string) (object : PyObject) :
  dict_get name attrs = Some object ->
  native_export path name object ->
  export_mapping_step state path attrs name = Ok state.
Proof.
  intros Hget Hnative. unfold export_mapping_step. rewrite Hget. simpl.
  unfold native_export, export_path in Hnative.
  destruct (ismodule object).
  - destruct Hnative as [Hname Hmodule]. rewrite Hname, Hmodule. simpl.
    now rewrite String.eqb_refl.
  - simpl. destruct (__module__ object) as [module|]; [|reflexivity].
    destruct Hnative as (object_name & Hname & Heq). rewrite Hname.
    simpl in *. rewrite Heq. now rewrite String.eqb_refl.
Qed.

(** X8. An export list all of whose entries are exported from where they
    are defined registers no rewrite: the pass runs through and leaves the
    state as it was. *)
Theorem export_mapping_native_unchanged (state : State) (path : list string)
    (attrs : list (string * PyObject)) (all : list string) :
  (forall name, In name all ->
     exists object,
       dict_get name attrs = Some object /\ native_export path name object) ->
  export_mapping_pass state path attrs all = Ok state.
Proof.
  induction all as [|name all IH]; intros Hall; [reflexivity|]. simpl.
  destruct (Hall name (or_introl eq_refl)) as (object & Hget & Hnative).
  rewrite (export_mapping_step_native state path attrs name object Hget Hnative).
  simpl. apply IH. intros n Hn. apply Hall. now right.
Qed.

Lemma export_mapping_native_unchanged_witness :
  (forall name, In name ["func"] ->
     exists object,
       dict_get name [("func", sample_native_function)] = Some object
       /\ native_export ["pkg"; "_native"; "sub"] name object)
  /\ export_mapping_pass sample_pub_state ["pkg"; "_native"; "sub"]
       [("func", sample_native_function)] ["func"]
     = Ok sample_pub_state.
Proof.
  assert (H : forall name, In name ["func"] ->
     exists object,
       dict_get name [("func", sample_native_function)] = Some object
       /\ native_export ["pkg"; "_native"; "sub"] name object).
  { intros name [<- | []]. exists sample_native_function.
    split; [reflexivity|]. exists "func". split; reflexivity. }
  split; [exact H|].
  exact (export_mapping_native_unchanged sample_pub_state _ _ _ H).
Defined.

(** X9. Once the mapping pass has registered the rewrite of a re-exported
    module and no other key of the table matches the name of that module,
    the members defined in it pass the ownership test of the module
    filter on the public path of the module; with a table in which no key
    matches that name they are taken for imported and dropped. *)
Theorem reexported_module_members_kept (state state' : State)
    (path : list string) (attrs : list (string * PyObject)) (all : list string)
    (name qualified : string) (module : PyObject) :
  export_mapping_pass state path attrs all = Ok state' ->
  In name all ->
  dict_get name attrs = Some module ->
  ismodule module = true ->
  __name__ module = Some qualified ->
  qualified <> export_path path name ->
  (forall k r, In (k, r) (module_mapping state') -> key_matches qualified k ->
               k = qualified /\ r = export_path path name) ->
  forall parent member_name member,
    ismodule member = false ->
    __module__ member = Some qualified ->
    Py.startswith member_name "_" = false ->
    is_internal_or_imported_module_member state' parent (path ++ [name])
                                          member_name member = false
    /\ forall other,
         (forall k r, In (k, r) (module_mapping other) ->
                      ~ key_matches qualified k) ->
         is_internal_or_imported_module_member other parent (path ++ [name])
                                               member_name member = true.
Proof.
  intros Hpass Hin Hget Hmod Hname Hne Honly parent member_name member
         Hnotmod Hmember Hpublic.
  destruct (export_mapping_pass_spec path attrs all state state' Hpass)
    as (added & Hmap & Hadded).
  assert (Hreg : In (qualified, export_path path name) (module_mapping state')).
  { rewrite Hmap. apply in_or_app. right. apply (Hadded name module); try assumption.
    unfold natural_name. now rewrite Hmod. }
  unfold is_internal_or_imported_module_member.
  rewrite Hpublic, Hnotmod, Hmember. simpl. split.
  - unfold map_name_prefix.
    destruct (map_name_prefix_items_spec (module_mapping state') qualified)
      as [(before & key & replace & after & Heq & _ & Hkey & Hres) | [Hnone _]].
    + assert (Hin' : In (key, replace) (module_mapping state')).
      { rewrite Heq. apply in_or_app. right. left. reflexivity. }
      destruct (Honly key replace Hin' Hkey) as [-> ->]. rewrite Hres.
      rewrite PyFacts.drop_all, PyFacts.append_nil_r.
      unfold export_path. now rewrite String.eqb_refl.
    + exfalso. apply (Hnone _ _ Hreg). left. reflexivity.
  - intros other Hnone. unfold map_name_prefix.
    destruct (map_name_prefix_items_spec (module_mapping other) qualified)
      as [(before & key & replace & after & Heq & _ & Hkey & _) | [_ Hres]].
    + exfalso. apply (Hnone key replace); [|exact Hkey].
      rewrite Heq. apply in_or_app. right. left. reflexivity.
    + rewrite Hres. unfold export_path in Hne.
      apply String.eqb_neq in Hne. now rewrite Hne.
Qed.

Lemma only_key_submodule (k r : string) :
  In (k, r) (module_mapping sample_submodule_state) ->
  key_matches "pkg._native.sub" k ->
  k = "pkg._native.sub" /\ r = export_path ["root"] "submodule".
Proof.
  intros [Heq | []] _. injection Heq as <- <-. split; reflexivity.
Qed.

Lemma reexported_module_members_kept_witness :
  export_mapping_pass (mkState false []) ["root"]
    [("submodule", sample_native_module)] ["submodule"]
  = Ok sample_submodule_state
  /\ is_internal_or_imported_module_member sample_submodule_state
       sample_native_module ["root"; "submodule"] "func" sample_native_function
     = false
  /\ is_internal_or_imported_module_member (mkState false [])
       sample_native_module ["root"; "submodule"] "func" sample_native_function
     = true.
Proof.
  assert (Hpass : export_mapping_pass (mkState false []) ["root"]
                    [("submodule", sample_native_module)] ["submodule"]
                  = Ok sample_submodule_state) by reflexivity.
  assert (Hne : "pkg._native.sub" <> export_path ["root"] "submodule")
    by discriminate.
  split; [exact Hpass|].
  destruct (reexported_module_members_kept _ _ _ _ _ "submodule"
              "pkg._native.sub" sample_native_module Hpass
              (or_introl eq_refl) eq_refl eq_refl eq_refl Hne
              only_key_submodule sample_native_module "func"
              sample_native_function eq_refl eq_refl eq_refl)
    as [Hkept Hdropped].
  split; [exact Hkept|].
  apply Hdropped. intros k r [].
Defined.

(* ================================================================== *)
(** * Signatures that parse *)
(* ================================================================== *)

Lemma parse_pybind_type_of_render (state : State) (t : TypeExpr) (rest : string) :
  well_formed t = true -> type_boundary rest = true ->
  parse_pybind_type state (render t ++ rest)
  = Ok (rest, render (map_types state t)).
Proof.
  intros Hwf Hb. unfold parse_pybind_type.
  apply (proj1 (parse_pybind_type_render state) t Hwf); [|exact Hb].
  pose proof (proj1 parse_cost_bound t Hwf). rewrite PyFacts.length_append. lia.
Qed.

Lemma arg_end_cases (rest : string) :
  arg_end rest = true ->
  exists c r, rest = String c r /\ (c = "," \/ c = ")")%char.
Proof.
  destruct rest as [|c r]; [discriminate|]. simpl. intros H.
  exists c, r. split; [reflexivity|].
  apply orb_true_iff in H as [H | H]; apply Ascii.eqb_eq in H; auto.
Qed.

Lemma parse_pybind_arg_render (state : State) (a : ArgText) (rest : string) :
  arg_well_formed a = true -> arg_end rest = true ->
  parse_pybind_arg state (render_arg a ++ rest) = Ok (rest, parsed_arg state a).
Proof.
  intros Hwf Hend. destruct a as [name type default].
  unfold arg_well_formed in Hwf. simpl in Hwf.
  apply andb_true_iff in Hwf as [Hwf Hdefault].
  apply andb_true_iff in Hwf as [Hwf Htype].
  apply andb_true_iff in Hwf as [Hne Hname].
  destruct (arg_end_cases rest Hend) as (c & r & -> & Hc).
  unfold parse_pybind_arg, render_arg, parsed_arg, mapped_type. simpl.
  assert (Hdef :
            forall d, default = Some d ->
              Py.span1 _pybind_default_value_rx (d ++ String c r)
              = Some (d, String c r)).
  { intros d ->. apply andb_true_iff in Hdefault as [Hd1 Hd2].
    apply span1_append; try assumption.
    destruct Hc as [-> | ->]; reflexivity. }
  destruct type as [t|], default as [d|]; simpl; reassociate.
  - rewrite (span1_append _ name _ Hne Hname) by reflexivity.
    rewrite startswith_head2. cbn [Py.drop].
    rewrite (parse_pybind_type_of_render state t _ Htype) by reflexivity.
    cbn [bind]. rewrite startswith_head. cbn [Py.drop].
    now rewrite (Hdef d eq_refl).
  - rewrite (span1_append _ name _ Hne Hname) by reflexivity.
    rewrite startswith_head2. cbn [Py.drop].
    rewrite (parse_pybind_type_of_render state t (String c r) Htype)
      by (destruct Hc as [-> | ->]; reflexivity).
    cbn [bind]. rewrite startswith_char.
    destruct Hc as [-> | ->]; reflexivity.
  - rewrite (span1_append _ name _ Hne Hname) by reflexivity.
    change (Py.startswith (String "=" (d ++ String c r)) ": ") with false.
    cbn [bind]. rewrite startswith_head. cbn [Py.drop].
    now rewrite (Hdef d eq_refl).
  - rewrite (span1_append _ name (String c r) Hne Hname)
      by (destruct Hc as [-> | ->]; reflexivity).
    destruct Hc as [-> | ->]; reflexivity.
Qed.

Lemma args_done_render (state : State) (args : list ArgText) (after : string) :
  forallb arg_well_formed args = true ->
  args_done state (render_args args ++ String ")" after)
            (map (parsed_arg state) args) (String ")" after).
Proof.
  induction args as [|a args IH]; intros Hwf.
  - apply done_here. apply startswith_head.
  - simpl in Hwf. apply andb_true_iff in Hwf as [Ha Hwf].
    destruct args as [|b args].
    + cbn [render_args map]. rewrite PyFacts.append_nil_r.
      apply done_after; [|apply startswith_head].
      now apply parse_pybind_arg_render.
    + cbn [map]. apply (done_more state _
                          (render_args (b :: args) ++ String ")" after)).
      * replace (render_args (a :: b :: args) ++ String ")" after)
          with (render_arg a
                ++ ", " ++ render_args (b :: args) ++ String ")" after)
          by (cbn [render_args]; now reassociate).
        now apply parse_pybind_arg_render.
      * now apply IH.
Qed.

(** The summary the parser takes from what follows a signature. *)
Lemma tail_summary_test (tail : string) :
  tail = "" \/ Py.startswith tail Py.nl = true ->
  Py.truthy tail && negb (Py.startswith tail Py.nl) = false
  /\ ((1 <? String.length tail)%nat
      && match Py.item tail 1 with
         | Some c => Ascii.eqb c Py.LF
         | None => false
         end)
     = Py.startswith tail (Py.nl ++ Py.nl)
  /\ type_boundary tail = true
  /\ Py.startswith tail " -> " = false.
Proof.
  intros [-> | H]; [repeat split|].
  destruct tail as [|c tail]; [discriminate|].
  unfold Py.nl in *. rewrite startswith_char in H. apply Ascii.eqb_eq in H.
  subst c. split; [now rewrite startswith_head|].
  split; [|split; reflexivity].
  destruct tail as [|c tail]; [reflexivity|].
  unfold Py.startswith. cbn [append]. rewrite !PyFacts.prefix_cons.
  rewrite PyFacts.prefix_nil, andb_true_r. simpl.
  now rewrite (Ascii.eqb_sym c Py.LF).
Qed.

(** The parse of a rendered signature. *)
Lemma parse_pybind_signature_of_render {lib : Library} (state : State)
    (name : string) (args : list ArgText) (return_type : option TypeExpr)
    (tail : string) :
  all_chars _pybind_name_rx name = true ->
  forallb arg_well_formed args = true ->
  match return_type with Some t => well_formed t | None => true end = true ->
  tail = "" \/ Py.startswith tail Py.nl = true ->
  parse_pybind_signature state (render_signature name args return_type ++ tail)
  = Ok ((name,
         (if Py.startswith tail (Py.nl ++ Py.nl)
          then extract_summary state [] [] (Some (Py.drop 2 tail))
          else ""),
         map (parsed_arg state) args,
         mapped_type state return_type), []).
Proof.
  intros Hname Hargs Hret Htail.
  destruct (tail_summary_test tail Htail) as (Hfail & Hsum & Hb & Harrow).
  unfold parse_pybind_signature, render_signature. reassociate.
  rewrite (span_append _pybind_name_rx name (String "(" _) Hname eq_refl).
  change (Ascii.eqb "(" "(") with true. cbn [py_assert bind].
  match goal with
  | |- context [parse_pybind_args _ state ?orig name (render_args args ++ String ")" ?after) []] =>
      rewrite (args_loop_done state orig name _ _ _
                 (args_done_render state args after Hargs)) by lia
  end.
  cbn [bind app]. rewrite startswith_head. cbn [py_assert bind].
  match goal with
  | |- context [Py.drop 1 (String ")" ?after)] =>
      change (Py.drop 1 (String ")" after)) with after
  end.
  destruct return_type as [t|]; cbn [mapped_type option_map].
  - reassociate. 
    change (Py.startswith (String " " (String "-" (String ">" (String " "
              (render t ++ tail))))) " -> ") with (String.prefix "" (render t ++ tail)).
    rewrite PyFacts.prefix_nil. cbn [Py.drop].
    rewrite (parse_pybind_type_of_render state t tail Hret Hb). cbn [bind].
    now rewrite Hfail, Hsum.
  - cbn [append]. rewrite Harrow. cbn [bind]. now rewrite Hfail, Hsum.
Qed.

(** X10. Parsing gives back what was written: for a signature text made
    of a name, arguments with optional types of the grammar and optional
    default values, and an optional return type, followed by nothing or by
    a line break, [parse_pybind_signature] returns that name, those
    arguments in order and that return type, the types with their names
    mapped, and logs nothing; the summary is that of the text after a
    blank line when one follows directly, and empty otherwise. *)
Theorem parse_pybind_signature_round_trip {lib : Library} (state : State)
    (name : string) (args : list ArgText) (return_type : option TypeExpr)
    (tail : string) :
  all_chars _pybind_name_rx name = true ->
  forallb arg_well_formed args = true ->
  match return_type with Some t => well_formed t | None => true end = true ->
  tail = "" \/ Py.startswith tail Py.nl = true ->
  parse_pybind_signature state (render_signature name args return_type ++ tail)
  = Ok ((name,
         (if Py.startswith tail (Py.nl ++ Py.nl)
          then extract_summary state [] [] (Some (Py.drop 2 tail))
          else ""),
         map (parsed_arg state) args,
         mapped_type state return_type), []).
Proof.
  intros Hname Hargs Hret Htail.
  now apply parse_pybind_signature_of_render.
Qed.

Lemma parse_pybind_signature_round_trip_witness :
  all_chars _pybind_name_rx "resize" = true
  /\ forallb arg_well_formed sample_args = true
  /\ well_formed (Plain "None") = true
  /\ render_signature "resize" sample_args (Some (Plain "None"))
     = "resize(self: pkg._impl.Pub, items: List[int]=[], *args, **kwargs) -> None"
  /\ @parse_pybind_signature plain_library sample_pub_state
       ("resize(self: pkg._impl.Pub, items: List[int]=[], *args, **kwargs) -> None"
        ++ Py.nl ++ Py.nl ++ "Resizes.")
     = Ok (("resize", "Resizes.",
            [ ("self", Some "root.Pub", None);
              ("items", Some "List[int]", Some "[]");
              ("*args", None, None);
              ("**kwargs", None, None) ],
            Some "None"), []).
Proof.
  assert (H1 : all_chars _pybind_name_rx "resize" = true) by reflexivity.
  assert (H2 : forallb arg_well_formed sample_args = true) by reflexivity.
  assert (H3 : well_formed (Plain "None") = true) by reflexivity.
  repeat (split; [reflexivity|]).
  exact (@parse_pybind_signature_round_trip plain_library sample_pub_state
           "resize" sample_args (Some (Plain "None"))
           (Py.nl ++ Py.nl ++ "Resizes.") H1 H2 H3 (or_intror eq_refl)).
Defined.

(* ================================================================== *)
(** * Input the parser rejects *)
(* ================================================================== *)

Lemma span1_none (p : ascii -> bool) (s : string) :
  stops p s = true -> Py.span1 p s = None.
Proof.
  destruct s as [|c s]; [reflexivity|]. unfold Py.span1. simpl.
  intros H. apply negb_true_iff in H. now rewrite H.
Qed.

(** X11. [parse_pybind_signature] raises on text that does not get as far
    as the argument list: [IndexError] when the text is a name and nothing
    else or stops after the opening parenthesis, [AssertionError] when the
    name is followed by something other than an opening parenthesis, and
    [AttributeError] when the parenthesis is followed by something that is
    neither an argument name nor a closing parenthesis. *)
Theorem parse_pybind_signature_rejects {lib : Library} (state : State)
    (name : string) :
  all_chars _pybind_name_rx name = true ->
  parse_pybind_signature state name = Raise IndexError
  /\ parse_pybind_signature state (name ++ "(") = Raise IndexError
  /\ (forall c rest,
        _pybind_name_rx c = false -> c <> "("%char ->
        parse_pybind_signature state (name ++ String c rest)
        = Raise AssertionError)
  /\ (forall c rest,
        _pybind_arg_name_rx c = false -> c <> ")"%char ->
        parse_pybind_signature state (name ++ "(" ++ String c rest)
        = Raise AttributeError).
Proof.
  intros Hname. unfold parse_pybind_signature. repeat split.
  - rewrite <- (PyFacts.append_nil_r name) at 1.
    now rewrite (span_append _pybind_name_rx name "" Hname eq_refl).
  - now rewrite (span_append _pybind_name_rx name "(" Hname eq_refl).
  - intros c rest Hc Hparen.
    rewrite (span_append _pybind_name_rx name (String c rest) Hname)
      by (simpl; now rewrite Hc).
    apply Ascii.eqb_neq in Hparen. now rewrite Hparen.
  - intros c rest Hc Hparen. cbn [append].
    rewrite (span_append _pybind_name_rx name (String "(" _) Hname eq_refl).
    change (Ascii.eqb "(" "(") with true. cbn [py_assert bind].
    rewrite parse_pybind_args_unfold.
    apply Ascii.eqb_neq in Hparen. rewrite Hparen.
    unfold parse_pybind_arg. rewrite span1_none; [reflexivity|].
    simpl. now rewrite Hc.
Qed.

Lemma parse_pybind_signature_rejects_witness :
  all_chars _pybind_name_rx "area" = true
  /\ @parse_pybind_signature plain_library (mkState true []) "area"
     = Raise IndexError
  /\ @parse_pybind_signature plain_library (mkState true []) "area("
     = Raise IndexError
  /\ @parse_pybind_signature plain_library (mkState true []) "area -> float"
     = Raise AssertionError
  /\ @parse_pybind_signature plain_library (mkState true []) "area(, x)"
     = Raise AttributeError.
Proof.
  assert (H : all_chars _pybind_name_rx "area" = true) by reflexivity.
  destruct (@parse_pybind_signature_rejects plain_library (mkState true [])
              "area" H) as (H1 & H2 & H3 & H4).
  split; [exact H|]. split; [exact H1|]. split; [exact H2|]. split.
  - apply (H3 " "%char "-> float"); [reflexivity | discriminate].
  - apply (H4 ","%char " x)"); [reflexivity | discriminate].
Defined.

(** The loop over the inner types runs into the end of the text when the
    closing bracket is missing. *)
Lemma parse_pybind_type_loop_unterminated (state : State) (l : TypeList) :
  well_formed_list l = true ->
  forall fuel type,
    parse_cost_list l <= fuel ->
    parse_pybind_type_loop fuel state (render_list l) type = Raise IndexError.
Proof.
  induction l as [|first others IH].
  - intros _ fuel type Hfuel. simpl in Hfuel.
    destruct fuel as [|fuel]; [lia | reflexivity].
  - intros Hwf fuel type Hfuel. simpl in Hwf, Hfuel.
    apply andb_true_iff in Hwf as [Hwf1 Hwf2].
    destruct fuel as [|fuel]; [lia|].
    destruct (render_head first Hwf1) as (c & s & Hhead & Hc).
    assert (Hnot : Ascii.eqb c "]" = false).
    { destruct (Ascii.eqb_spec c "]") as [->|]; [discriminate Hc | reflexivity]. }
    destruct others as [|second others].
    + cbn [render_list]. rewrite PyFacts.append_nil_r.
      rewrite Hhead at 1. rewrite parse_pybind_type_loop_unfold, Hnot.
      rewrite <- Hhead. rewrite <- (PyFacts.append_nil_r (render first)).
      rewrite (proj1 (parse_pybind_type_render state) first Hwf1 fuel "")
        by (lia || reflexivity).
      reflexivity.
    + replace (render_list (TCons first (TCons second others)))
        with (render first
              ++ String "," (String " " (render_list (TCons second others))))
        by (cbn [render_list]; now reassociate).
      rewrite Hhead at 1. cbn [append].
      rewrite parse_pybind_type_loop_unfold, Hnot.
      match goal with
      | |- context [parse_pybind_type_fuel fuel state (String c (s ++ ?tail))] =>
          change (String c (s ++ tail)) with (String c s ++ tail)
      end.
      rewrite <- Hhead.
      rewrite (proj1 (parse_pybind_type_render state) first Hwf1 fuel _)
        by (lia || reflexivity).
      cbn [bind]. change (Ascii.eqb "," "]") with false. cbv iota.
      rewrite startswith_head2. cbn [py_assert bind Py.drop].
      apply IH; [exact Hwf2 | lia].
Qed.

Lemma parse_pybind_type_fuel_bad_separator (state : State) (token : string)
    (first : TypeExpr) (c : ascii) (rest : string) (fuel : nat) :
  is_type_token token = true -> well_formed first = true ->
  type_boundary (String c rest) = true ->
  c <> "]"%char ->
  Py.startswith (String c rest) ", " = false ->
  parse_cost first + 2 <= fuel ->
  parse_pybind_type_fuel fuel state
    (token ++ "[" ++ render first ++ String c rest)
  = Raise AssertionError.
Proof.
  intros Htok Hwf Hb Hc Hsep Hfuel.
  unfold is_type_token in Htok. apply andb_true_iff in Htok as [Hne Hall].
  destruct (render_head first Hwf) as (d & s & Hhead & Hd).
  assert (Hnot : Ascii.eqb d "]" = false).
  { destruct (Ascii.eqb_spec d "]") as [->|]; [discriminate Hd | reflexivity]. }
  destruct fuel as [|[|fuel]]; try lia. cbn [append].
  rewrite parse_pybind_type_fuel_unfold.
  rewrite (span1_append _ token (String "[" _) Hne Hall) by reflexivity.
  rewrite startswith_head. cbn [Py.drop].
  rewrite Hhead at 1. cbn [append].
  rewrite parse_pybind_type_loop_unfold, Hnot.
  change (String d (s ++ String c rest)) with (String d s ++ String c rest).
  rewrite <- Hhead.
  rewrite (proj1 (parse_pybind_type_render state) first Hwf _ _)
    by (lia || exact Hb).
  cbn [bind]. apply Ascii.eqb_neq in Hc. rewrite Hc, Hsep. reflexivity.
Qed.

(** An inner type followed by neither a closing bracket nor a comma and a
    space fails the assertion of the loop. *)
Lemma parse_pybind_type_bad_separator (state : State) (token : string)
    (first : TypeExpr) (c : ascii) (rest : string) :
  is_type_token token = true -> well_formed first = true ->
  type_boundary (String c rest) = true ->
  c <> "]"%char ->
  Py.startswith (String c rest) ", " = false ->
  parse_pybind_type state (token ++ "[" ++ render first ++ String c rest)
  = Raise AssertionError.
Proof.
  intros Htok Hwf Hb Hc Hsep. unfold parse_pybind_type.
  apply parse_pybind_type_fuel_bad_separator; try assumption.
  pose proof (proj1 parse_cost_bound first Hwf) as Hcost.
  rewrite !PyFacts.length_append. lia.
Qed.

(** X12. [parse_pybind_type] raises on text that is not a type:
    [AttributeError] when the text is empty or begins with a character
    that no type name has, [IndexError] when the text ends inside the
    brackets of a generic type, and [AssertionError] when an inner type is
    followed by something other than a closing bracket or a comma and a
    space. *)
Theorem parse_pybind_type_rejects (state : State) :
  (forall signature,
      stops _pybind_type_rx signature = true ->
      parse_pybind_type state signature = Raise AttributeError)
  /\ (forall token inner,
         is_type_token token = true -> well_formed_list inner = true ->
         parse_pybind_type state (token ++ "[" ++ render_list inner)
         = Raise IndexError)
  /\ (forall token first c rest,
         is_type_token token = true -> well_formed first = true ->
         type_boundary (String c rest) = true ->
         c <> "]"%char ->
         Py.startswith (String c rest) ", " = false ->
         parse_pybind_type state (token ++ "[" ++ render first ++ String c rest)
         = Raise AssertionError).
Proof.
  unfold parse_pybind_type. repeat split.
  - intros signature Hstop.
    replace (2 * String.length signature + 2)
      with (S (2 * String.length signature + 1)) by lia.
    rewrite parse_pybind_type_fuel_unfold. now rewrite span1_none.
  - intros token inner Htok Hwf.
    pose proof (proj2 parse_cost_bound inner Hwf) as Hcost.
    unfold is_type_token in Htok. apply andb_true_iff in Htok as [Hne Hall].
    rewrite !PyFacts.length_append. cbn [append String.length].
    match goal with
    | |- parse_pybind_type_fuel ?n _ _ = _ => replace n with (S (n - 1)) by lia
    end.
    rewrite parse_pybind_type_fuel_unfold.
    rewrite (span1_append _ token (String "[" _) Hne Hall) by reflexivity.
    rewrite startswith_head. cbn [Py.drop].
    now rewrite (parse_pybind_type_loop_unterminated state inner Hwf) by lia.
  - intros token first c rest. apply parse_pybind_type_bad_separator.
Qed.

(** X13. A type that is not well-formed is not degraded to the ellipsis
    parameter: when the type of an argument is a generic type in which an
    inner type is followed by something other than a closing bracket or a
    comma and a space, [parse_pybind_signature] raises [AssertionError]. *)
Theorem parse_pybind_signature_malformed_type {lib : Library} (state : State)
    (name arg_name token : string) (first : TypeExpr) (c : ascii) (rest : string) :
  all_chars _pybind_name_rx name = true ->
  Py.truthy arg_name = true ->
  all_chars _pybind_arg_name_rx arg_name = true ->
  is_type_token token = true ->
  well_formed first = true ->
  type_boundary (String c rest) = true ->
  c <> "]"%char ->
  Py.startswith (String c rest) ", " = false ->
  parse_pybind_signature state
    (name ++ "(" ++ arg_name ++ ": " ++ token ++ "[" ++ render first
          ++ String c rest)
  = Raise AssertionError.
Proof.
  intros Hname Hne Harg Htok Hwf Hb Hc Hsep.
  pose proof (parse_pybind_type_bad_separator state token first c rest
                Htok Hwf Hb Hc Hsep) as Hbad.
  cbn [append] in Hbad.
  unfold parse_pybind_signature. reassociate.
  rewrite (span_append _pybind_name_rx name (String "(" _) Hname eq_refl).
  change (Ascii.eqb "(" "(") with true. cbn [py_assert bind].
  destruct arg_name as [|a arg_name]; [discriminate|].
  assert (Ha : Ascii.eqb a ")" = false).
  { apply arg_name_char_not_paren. simpl in Harg.
    now apply andb_true_iff in Harg as [Ha _]. }
  cbn [append]. rewrite parse_pybind_args_unfold, Ha.
  unfold parse_pybind_arg.
  match goal with
  | |- context [Py.span1 _pybind_arg_name_rx (String a (arg_name ++ ?tail))] =>
      change (String a (arg_name ++ tail)) with (String a arg_name ++ tail)
  end.
  rewrite (span1_append _ (String a arg_name) _ Hne Harg) by reflexivity.
  rewrite startswith_head2. cbn [Py.drop]. now rewrite Hbad.
Qed.

Lemma parse_pybind_signature_malformed_type_witness :
  all_chars _pybind_name_rx "f" = true
  /\ Py.truthy "a" = true
  /\ all_chars _pybind_arg_name_rx "a" = true
  /\ is_type_token "Dict" = true
  /\ well_formed (Plain "str") = true
  /\ type_boundary ",int]) -> None" = true
  /\ Py.startswith ",int]) -> None" ", " = false
  /\ @parse_pybind_signature plain_library (mkState true [])
       "f(a: Dict[str,int]) -> None"
     = Raise AssertionError.
Proof.
  repeat (split; [reflexivity|]).
  apply (@parse_pybind_signature_malformed_type plain_library (mkState true [])
           "f" "a" "Dict" (Plain "str") ","%char "int]) -> None");
    try reflexivity.
  discriminate.
Defined.

(* ================================================================== *)
(** * The list of overloads *)
(* ================================================================== *)

Lemma parse_pybind_overloads_spec {lib : Library} (state : State)
    (name : string) (fuel : nat) :
  forall doc id overloads log overloads' log',
    parse_pybind_overloads fuel state name doc id overloads log
    = Ok (overloads', log') ->
    Py.startswith doc (overload_marker id name) = true
    /\ exists parsed,
         overloads' = (overloads ++ parsed)%list
         /\ parsed <> []
         /\ Forall (fun sig : Signature => fst (fst (fst sig)) = name) parsed.
Proof.
  induction fuel as [|fuel IH]; intros doc id overloads log overloads' log' H;
    [discriminate|].
  cbn [parse_pybind_overloads] in H. unfold py_assert at 1 in H.
  destruct (Py.startswith doc (overload_marker id name)); [|discriminate].
  split; [reflexivity|]. cbn [bind] in H.
  apply bind_ok in H as ([parsed warnings] & _ & H).
  unfold py_assert in H.
  destruct (String.eqb_spec (fst (fst (fst parsed))) name) as [Hname|];
    [|discriminate].
  cbn [bind] in H.
  destruct (Py.find doc (overload_marker (id + 1) name) =? -1)%Z.
  - injection H as <- _. exists [parsed].
    split; [reflexivity|]. split; [discriminate|]. now constructor.
  - apply IH in H as (_ & more & -> & _ & Hall).
    exists (parsed :: more). rewrite <- app_assoc.
    split; [reflexivity|]. split; [discriminate|]. now constructor.
Qed.

(** X14. [parse_pybind_docstring] never returns an empty list.  When the
    docstring begins with the header of an overloaded function, every
    tuple it returns carries the name of the function, and a text after the
    header that does not begin with ["1. name("] makes it raise
    [AssertionError]. *)
Theorem parse_pybind_docstring_overloads {lib : Library} (state : State)
    (name doc : string) :
  (forall overloads log,
      parse_pybind_docstring state name doc = Ok (overloads, log) ->
      overloads <> []
      /\ (Py.startswith doc (overload_header name) = true ->
          Forall (fun sig : Signature => fst (fst (fst sig)) = name) overloads))
  /\ (Py.startswith doc (overload_header name) = true ->
      Py.startswith (Py.drop (String.length (overload_header name)) doc)
                    (overload_marker 1 name) = false ->
      parse_pybind_docstring state name doc = Raise AssertionError).
Proof.
  unfold parse_pybind_docstring. fold (overload_header name). split.
  - intros overloads log H.
    destruct (Py.startswith doc (overload_header name)).
    + apply parse_pybind_overloads_spec in H
        as (_ & parsed & -> & Hne & Hall).
      split; [exact Hne | intros _; exact Hall].
    + apply bind_ok in H as ([parsed warnings] & _ & H). injection H as <- _.
      split; [discriminate | discriminate].
  - intros -> Hmarker. cbn [parse_pybind_overloads].
    now rewrite Hmarker.
Qed.

(* ================================================================== *)
(** * Summaries *)
(* ================================================================== *)

Lemma prefix_extends (sub s rest : string) :
  String.prefix sub s = true -> String.prefix sub (s ++ rest) = true.
Proof.
  intros H. apply PyFacts.startswith_iff in H as [r ->].
  apply PyFacts.startswith_iff. exists (r ++ rest). now rewrite PyFacts.append_assoc.
Qed.

(** [find] reports no occurrence only when there is none. *)
Lemma find_from_none (sub s : string) (i : nat) :
  Py.find_from i s sub = None -> ~ occurs_in sub s.
Proof.
  revert i. induction s as [|c s IH]; intros i; cbn [Py.find_from].
  - destruct (String.prefix sub "") eqn:Hp; [discriminate|]. intros _ (a & b & H).
    destruct a; [|discriminate]. simpl in H.
    assert (Hs : Py.startswith "" sub = true)
      by (apply PyFacts.startswith_iff; exists b; exact H).
    unfold Py.startswith in Hs. congruence.
  - destruct (String.prefix sub (String c s)) eqn:Hp; [discriminate|].
    intros H (a & b & Heq). destruct a as [|d a].
    + assert (Hs : Py.startswith (String c s) sub = true)
        by (apply PyFacts.startswith_iff; exists b; exact Heq).
      unfold Py.startswith in Hs. congruence.
    + simpl in Heq. injection Heq as _ ->.
      apply (IH (S i) H). exists a, b. reflexivity.
Qed.

Lemma find_from_none_shift (sub s : string) (i j : nat) :
  Py.find_from i s sub = None -> Py.find_from j s sub = None.
Proof.
  revert i j. induction s as [|c s IH]; intros i j; cbn [Py.find_from].
  - destruct (String.prefix sub ""); [discriminate | reflexivity].
  - destruct (String.prefix sub (String c s)); [discriminate | apply IH].
Qed.

(** Where [find] reports an occurrence, the text splits there, and [sub]
    does not occur in the text before it. *)
Lemma find_from_some (sub s : string) :
  sub <> "" ->
  forall i k,
    Py.find_from i s sub = Some k ->
    exists before after,
      s = before ++ sub ++ after
      /\ k = i + String.length before
      /\ Py.find_from 0 before sub = None.
Proof.
  intros Hsub. induction s as [|c s IH]; intros i k; cbn [Py.find_from].
  - destruct (String.prefix sub "") eqn:Hp; [|discriminate].
    destruct sub; [congruence | discriminate].
  - destruct (String.prefix sub (String c s)) eqn:Hp.
    + intros H. injection H as <-.
      apply PyFacts.startswith_iff in Hp as [after Hafter].
      exists "", after. repeat split; [exact Hafter | simpl; lia |].
      destruct sub; [congruence | reflexivity].
    + intros H. apply IH in H as (before & after & -> & -> & Hnone).
      exists (String c before), after. repeat split; [simpl; lia|].
      cbn [Py.find_from].
      destruct (String.prefix sub (String c before)) eqn:Hp'.
      * apply (prefix_extends _ _ (sub ++ after)) in Hp'. simpl in Hp', Hp.
        congruence.
      * now apply (find_from_none_shift sub before 0 1).
Qed.

(** X15. An external summary that is not empty always wins and is rendered
    as inline markup.  Without one, a missing or empty docstring gives the
    empty summary, and any other docstring gives the escaped text of its
    first paragraph: the cleaned docstring up to its first blank line,
    which is the whole of it when it has none. *)
Theorem extract_summary_first_paragraph {lib : Library} (state : State)
    (docs : list (string * ExternalDoc)) (path : list string) :
  (forall summary doc,
      external_summary docs path = Some summary ->
      extract_summary state docs path doc = render_inline_rst state summary)
  /\ (external_summary docs path = None ->
      extract_summary state docs path None = ""
      /\ extract_summary state docs path (Some "") = ""
      /\ forall doc,
           Py.truthy doc = true ->
           exists paragraph rest,
             cleandoc doc = paragraph ++ rest
             /\ (rest = "" \/ Py.startswith rest blank_line = true)
             /\ ~ occurs_in blank_line paragraph
             /\ extract_summary state docs path (Some doc)
                = html_escape paragraph).
Proof.
  unfold extract_summary, external_summary. split.
  - intros summary doc H.
    destruct (dict_get (Py.join "." path) docs) as [d|]; [|discriminate].
    destruct (Py.truthy (doc_summary d)); [|discriminate].
    now injection H as <-.
  - intros H.
    assert (Hnone :
              match dict_get (Py.join "." path) docs with
              | Some d =>
                  if Py.truthy (doc_summary d) then Some (doc_summary d) else None
              | None => None
              end = None) by exact H.
    rewrite Hnone. repeat split.
    intros doc Hdoc. destruct doc as [|c doc]; [discriminate|].
    fold blank_line. unfold Py.find.
    destruct (Py.find_from 0 (cleandoc (String c doc)) blank_line) as [k|] eqn:Hfind.
    + apply find_from_some in Hfind as (before & after & Heq & -> & Hbefore);
        [|discriminate].
      exists before, (blank_line ++ after). split; [exact Heq|].
      split; [right; apply PyFacts.startswith_append|].
      split; [now apply (find_from_none _ _ 0)|].
      replace ((Z.of_nat (0 + String.length before) =? -1)%Z) with false
        by (symmetry; apply Z.eqb_neq; lia).
      rewrite Nat2Z.id, Heq. cbn [Nat.add]. now rewrite PyFacts.take_append.
    + exists (cleandoc (String c doc)), "". rewrite PyFacts.append_nil_r.
      split; [reflexivity|]. split; [now left|].
      split; [now apply (find_from_none _ _ 0) | reflexivity].
Qed.

(* ================================================================== *)
(** * Enums, properties and data *)

Lemma existsb_map {A B : Type} (f : B -> bool) (g : A -> B) (l : list A) :
  existsb f (map g l) = existsb (fun a => f (g a)) l.
Proof. induction l as [|a l IH]; simpl; [reflexivity | now rewrite IH]. Qed.

Lemma path_last_nonempty (path : list string) :
  path <> [] -> exists name, path_last path = Ok name.
Proof.
  intros Hne. unfold path_last.
  destruct (rev path) as [|name rest] eqn:Hrev; [|now exists name].
  destruct Hne. apply (f_equal (@rev string)) in Hrev.
  now rewrite rev_involutive in Hrev.
Qed.

Lemma enum_values_loop_spec {lib : Library} (state : State)
    (enum_doc : option string) (members : list PyEnumMember) :
  forall values has_details has_value_details,
    enum_values_loop state enum_doc members values has_details
                     has_value_details
    = ((values ++ map (enum_value state enum_doc) members)%list,
       has_details
       || existsb (fun i => Py.truthy (value_summary (enum_value state enum_doc i)))
                  members,
       has_value_details
       || existsb (fun i => Py.truthy (value_summary (enum_value state enum_doc i)))
                  members).
Proof.
  induction members as [|i members IH]; intros values hd hvd.
  - simpl. now rewrite app_nil_r, !orb_false_r.
  - cbn [enum_values_loop map existsb].
    change (mkEnumValueDoc _ _ _) with (enum_value state enum_doc i).
    change (Py.truthy (if optstr_eqb (member_doc i) enum_doc then ""
                       else extract_summary state [] [] (member_doc i)))
      with (Py.truthy (value_summary (enum_value state enum_doc i))).
    destruct (Py.truthy (value_summary (enum_value state enum_doc i)));
      rewrite IH, <- app_assoc; cbn [app orb].
    + now rewrite !orb_true_r.
    + reflexivity.
Qed.


(** X16. For a subclass of [enum.Enum] and a non-empty path,
    [extract_enum_doc] lists one value per member, in the order of
    iteration and under the member's name, with its escaped [repr]; a
    member whose docstring is the enum's own gets an empty summary; and
    both [has_details] and [has_value_details] are set exactly when some
    value has a non-empty summary.  The base is always recorded. *)
Theorem extract_enum_doc_native {lib : Library} (state : State)
    (path : list string) (enum_ : PyEnum) :
  is_Enum_subclass enum_ = true ->
  path <> [] ->
  exists out,
    extract_enum_doc state path enum_ = Ok out
    /\ path_last path = Ok (enum_name out)
    /\ map value_name (enum_values out) = map member_name (enum_iter enum_)
    /\ map value_value (enum_values out)
       = map (fun i => inl (html_escape (member_value_repr i))) (enum_iter enum_)
    /\ (forall v, In v (enum_values out) ->
          exists i, In i (enum_iter enum_)
                    /\ value_name v = member_name i
                    /\ (member_doc i = enum___doc__ enum_ -> value_summary v = ""))
    /\ enum_has_details out
       = existsb (fun v => Py.truthy (value_summary v)) (enum_values out)
    /\ enum_has_value_details out = enum_has_details out
    /\ enum_base out <> None /\ enum_base out <> Some None.
Proof.
  intros Hsub Hne. destruct (path_last_nonempty path Hne) as [name Hname].
  unfold extract_enum_doc. rewrite Hname, Hsub. cbn [bind].
  rewrite enum_values_loop_spec. cbn [app orb].
  eexists. split; [reflexivity|].
  cbn [enum_name enum_values enum_has_details enum_has_value_details
       enum_base].
  split; [reflexivity|]. split; [now rewrite map_map|].
  split; [now rewrite map_map|]. split.
  - intros v Hin. apply in_map_iff in Hin as (i & <- & Hin).
    exists i. split; [exact Hin|]. split; [reflexivity|]. intros Hdoc.
    cbn [enum_value value_summary].
    rewrite Hdoc. destruct (enum___doc__ enum_) as [d|]; cbn [optstr_eqb];
      [|reflexivity].
    now rewrite String.eqb_refl.
  - split; [now rewrite existsb_map|]. split; [reflexivity|].
    split; discriminate.
Qed.

Lemma extract_enum_doc_native_witness :
  exists out,
    extract_enum_doc (lib := plain_library) sample_pub_state ["pkg"; "Color"]
                     sample_enum = Ok out
    /\ map value_name (enum_values out) = ["RED"; "GREEN"]
    /\ enum_has_details out = true.
Proof.
  destruct (extract_enum_doc_native (lib := plain_library) sample_pub_state
              ["pkg"; "Color"] sample_enum eq_refl ltac:(discriminate))
    as (out & Hout & _ & Hnames & _ & _ & Hdetails & _).
  exists out. split; [exact Hout|]. split; [exact Hnames|].
  rewrite Hdetails. vm_compute in Hout. injection Hout as <-. reflexivity.
Defined.



Lemma dict_get_del_same {V : Type} (key : string) (d : list (string * V)) :
  dict_get key (dict_del key d) = None.
Proof.
  unfold dict_del. induction d as [|[k v] d IH]; [reflexivity|].
  cbn [filter fst].
  destruct (String.eqb k key) eqn:Heq; cbn [negb]; [exact IH|].
  cbn [dict_get]. now rewrite Heq.
Qed.

Lemma dict_get_del_other {V : Type} (key key' : string)
    (d : list (string * V)) :
  key' <> key -> dict_get key' (dict_del key d) = dict_get key' d.
Proof.
  intros Hne. unfold dict_del.
  induction d as [|[k v] d IH]; [reflexivity|].
  cbn [filter fst dict_get].
  destruct (String.eqb k key) eqn:Heq; cbn [negb dict_get].
  - apply String.eqb_eq in Heq. subst k.
    apply not_eq_sym, String.eqb_neq in Hne. now rewrite Hne.
  - now rewrite IH.
Qed.

(** The outcome of [extract_annotation], by the shape of the annotation. *)
Lemma extract_annotation_text (state : State) (annotation : Annotation)
    (type : option string) :
  annotation_text state annotation type ->
  extract_annotation state annotation = Ok type.
Proof.
  intros Htext. destruct Htext as [|text|name text|name text
                                   |module name text Htyping Hbuiltins];
    try reflexivity.
  cbn [extract_annotation getattr bind].
  apply String.eqb_neq in Htyping, Hbuiltins. rewrite Htyping.
  unfold extract_type. rewrite Hbuiltins. cbn [negb].
  now rewrite PyFacts.append_assoc.
Qed.

Lemma extract_annotation_fails (state : State) (annotation : Annotation) :
  annotation_fails annotation ->
  extract_annotation state annotation = Raise AttributeError.
Proof.
  intros Hfails. destruct Hfails as [name text|module text Htyping];
    [reflexivity|].
  cbn [extract_annotation getattr bind].
  apply String.eqb_neq in Htyping. now rewrite Htyping.
Qed.

Lemma annotation_cases (state : State) (annotation : Annotation) :
  (exists type, annotation_text state annotation type)
  \/ annotation_fails annotation.
Proof.
  destruct annotation as [|text|[module|] name text].
  - left. eexists. constructor.
  - left. eexists. constructor.
  - destruct (string_dec module "typing") as [->|Htyping].
    + left. eexists. constructor.
    + destruct name as [name|]; [|right; now constructor].
      destruct (string_dec module "builtins") as [->|Hbuiltins];
        left; eexists; now constructor.
  - right. constructor.
Qed.

Lemma annotation_without_failure (state : State) (annotation : Annotation) :
  ~ annotation_fails annotation ->
  exists type,
    annotation_text state annotation type
    /\ extract_annotation state annotation = Ok type.
Proof.
  intros Hnot. destruct (annotation_cases state annotation) as [[type Htext]|Hfails];
    [|now destruct Hnot].
  exists type. split; [exact Htext | now apply extract_annotation_text].
Qed.

(** X18. The type of a property.  For a data descriptor and a non-empty
    path, [extract_property_doc] raises [AttributeError] when the
    descriptor has no [fset], [fdel] or [fget], as slot and getset
    descriptors have not, and [TypeError] when [fget] is [None].  For a
    property with a getter, whether it can be set or deleted is recorded
    as found, and the type is: for a getter with a signature, the text of
    its return annotation, [AttributeError] being raised when that
    annotation lacks the attribute read; for a getter without signature,
    absent without pybind11 compatibility, and with it the return type
    written in the getter's docstring, with its names mapped and nothing
    logged, when that docstring is a signature text of the grammar
    followed by nothing or by a line break, [TypeError] being raised when
    the getter has no docstring. *)
Theorem extract_property_doc_type {lib : Library} (state : State)
    (path : list string) (property : PyProperty) :
  isdatadescriptor property = true ->
  path <> [] ->
  (fset property = None \/ fdel property = None \/ fget property = None ->
   extract_property_doc state path property = Raise AttributeError)
  /\ (fset property <> None -> fdel property <> None ->
      fget property = Some None ->
      extract_property_doc state path property = Raise TypeError)
  /\ (forall settable deletable getter,
        fset property = Some settable ->
        fdel property = Some deletable ->
        fget property = Some (Some getter) ->
        (forall signature,
            getter_signature getter = Some signature ->
            (annotation_fails (return_annotation signature) ->
             extract_property_doc state path property = Raise AttributeError)
            /\ (~ annotation_fails (return_annotation signature) ->
                exists out,
                  extract_property_doc state path property = Ok (out, [])
                  /\ annotation_text state (return_annotation signature)
                                     (property_type out)
                  /\ is_settable out = settable
                  /\ is_deletable out = deletable))
        /\ (getter_signature getter = None ->
            PYBIND11_COMPATIBILITY state = false ->
            exists out,
              extract_property_doc state path property = Ok (out, [])
              /\ property_type out = None
              /\ is_settable out = settable
              /\ is_deletable out = deletable)
        /\ (getter_signature getter = None ->
            PYBIND11_COMPATIBILITY state = true ->
            getter___doc__ getter = None ->
            extract_property_doc state path property = Raise TypeError)
        /\ (getter_signature getter = None ->
            PYBIND11_COMPATIBILITY state = true ->
            forall name args return_type tail,
              all_chars _pybind_name_rx name = true ->
              forallb arg_well_formed args = true ->
              match return_type with
              | Some t => well_formed t
              | None => true
              end = true ->
              tail = "" \/ Py.startswith tail Py.nl = true ->
              getter___doc__ getter
              = Some (render_signature name args return_type ++ tail) ->
              exists out,
                extract_property_doc state path property = Ok (out, [])
                /\ property_type out = mapped_type state return_type
                /\ is_settable out = settable
                /\ is_deletable out = deletable)).
Proof.
  intros Hdesc Hne. destruct (path_last_nonempty path Hne) as [last Hlast].
  unfold extract_property_doc. rewrite Hdesc, Hlast. cbn [py_assert bind].
  split; [|split].
  - intros [Hset | [Hdel | Hget]].
    + now rewrite Hset.
    + rewrite Hdel. now destruct (fset property).
    + rewrite Hget. now destruct (fset property), (fdel property).
  - intros Hset Hdel ->.
    destruct (fset property); [|now destruct Hset].
    destruct (fdel property); [|now destruct Hdel]. reflexivity.
  - intros settable deletable getter -> -> ->. cbn [getattr bind].
    split; [|split; [|split]].
    + intros signature ->. split.
      * intros Hfails. now rewrite (extract_annotation_fails state _ Hfails).
      * intros Hnot.
        destruct (annotation_without_failure state _ Hnot)
          as (type & Htext & ->).
        cbn [bind]. eexists. split; [reflexivity|]. now cbn.
    + intros -> ->. cbn [bind]. eexists. split; [reflexivity|]. now cbn.
    + now intros -> -> ->.
    + intros -> -> name args return_type tail Hname Hargs Hret Htail ->.
      cbn [bind].
      rewrite (parse_pybind_signature_of_render state name args return_type
                 tail Hname Hargs Hret Htail).
      cbn [bind snd]. eexists. split; [reflexivity|]. now cbn.
Qed.

Lemma extract_property_doc_type_witness :
  (exists out,
      extract_property_doc (lib := plain_library)
        (mkState true [("pkg._impl.Pub", "root.Pub")]) ["pkg"; "Pub"; "size"]
        sample_pybind_property = Ok (out, [])
      /\ property_type out = Some "List[int]")
  /\ extract_property_doc (lib := plain_library)
       (mkState true [("pkg._impl.Pub", "root.Pub")]) ["pkg"; "Pub"; "slot"]
       sample_slot = Raise AttributeError.
Proof.
  split.
  - destruct (proj2 (proj2 (proj2
                (proj2 (proj2
                   (extract_property_doc_type (lib := plain_library)
                      (mkState true [("pkg._impl.Pub", "root.Pub")])
                      ["pkg"; "Pub"; "size"] sample_pybind_property eq_refl
                      ltac:(discriminate)))
                   true false _ eq_refl eq_refl eq_refl)))
                eq_refl eq_refl ""
                [mkArgText "self" (Some (Plain "pkg._impl.Pub")) None]
                (Some (Generic "List" (TCons (Plain "int") TNil))) ""
                eq_refl eq_refl eq_refl (or_introl eq_refl) eq_refl)
      as (out & Hout & Htype & _).
    exists out. split; [exact Hout | exact Htype].
  - exact (proj1 (extract_property_doc_type (lib := plain_library)
                    (mkState true [("pkg._impl.Pub", "root.Pub")])
                    ["pkg"; "Pub"; "slot"] sample_slot eq_refl
                    ltac:(discriminate))
                 (or_introl eq_refl)).
Defined.

(** X19. An external summary of a data member is used once.  For a value
    that passes the assertion and a path with a last component whose
    dotted form has an entry in [state.data_docs]: when the parent
    annotates the name with an annotation that lacks the attribute read,
    [extract_data_doc] raises [AttributeError]; otherwise it takes the
    summary from the entry, rendered, and deletes the entry, leaving the
    others as they are, and extracting the same member again gives the
    same record with an empty summary and changes the table no more. *)
Theorem extract_data_doc_consumes {lib : Library} (state : State)
    (data_docs : list (string * ExternalDoc))
    (annotations : option (list (string * Annotation)))
    (path : list string) (name : string) (data : PyData)
    (doc : ExternalDoc) :
  inspected_as_data (data_kind data) = true ->
  path_last path = Ok name ->
  dict_get (Py.join "." path) data_docs = Some doc ->
  (forall table annotation,
      annotations = Some table ->
      dict_get name table = Some annotation ->
      annotation_fails annotation ->
      extract_data_doc state data_docs annotations path data
      = Raise AttributeError)
  /\ ((forall table annotation,
          annotations = Some table ->
          dict_get name table = Some annotation ->
          ~ annotation_fails annotation) ->
      exists out data_docs',
        extract_data_doc state data_docs annotations path data
        = Ok (out, data_docs')
        /\ data_name out = name
        /\ data_summary out = render_inline_rst state (doc_summary doc)
        /\ dict_get (Py.join "." path) data_docs' = None
        /\ (forall key, key <> Py.join "." path ->
              dict_get key data_docs' = dict_get key data_docs)
        /\ extract_data_doc state data_docs' annotations path data
           = Ok (mkDataDoc name "" (data_has_details out)
                           (data_type out) (data_value out), data_docs')).
Proof.
  intros Hplain Hname Hdoc.
  unfold extract_data_doc. fold (inspected_as_data (data_kind data)).
  rewrite Hplain, Hname. cbn [py_assert bind]. split.
  - intros table annotation -> -> Hfails.
    now rewrite (extract_annotation_fails state _ Hfails).
  - intros Hfine.
    assert (Htype : exists type,
               match annotations with
               | Some table =>
                   match dict_get name table with
                   | Some annotation => extract_annotation state annotation
                   | None => Ok None
                   end
               | None => Ok None
               end = Ok type).
    { destruct annotations as [table|]; [|now exists None].
      destruct (dict_get name table) as [annotation|] eqn:Hann;
        [|now exists None].
      destruct (annotation_without_failure state annotation
                  (Hfine table annotation eq_refl Hann)) as (type & _ & ->).
      now exists type. }
    destruct Htype as [type ->]. cbn [bind]. rewrite Hdoc.
    eexists. eexists. split; [reflexivity|].
    cbn [data_summary data_name data_has_details data_type data_value].
    split; [reflexivity|]. split; [reflexivity|].
    split; [apply dict_get_del_same|].
    split; [intros key Hkey; now apply dict_get_del_other|].
    now rewrite dict_get_del_same.
Qed.

Lemma extract_data_doc_consumes_witness :
  exists out,
    extract_data_doc (lib := plain_library) sample_pub_state
      [("pkg.VERSION", mkExternalDoc "The version." "")]
      (Some [("VERSION", AnnObject (Some "builtins") (Some "str") "")])
      ["pkg"; "VERSION"] (mkPyData sample_plain_value (Some "'1.0'"))
    = Ok (out, [])
    /\ data_summary out = "The version."
    /\ data_type out = Some "str".
Proof.
  destruct (proj2 (extract_data_doc_consumes (lib := plain_library)
                     sample_pub_state
                     [("pkg.VERSION", mkExternalDoc "The version." "")]
                     (Some [("VERSION",
                             AnnObject (Some "builtins") (Some "str") "")])
                     ["pkg"; "VERSION"] "VERSION"
                     (mkPyData sample_plain_value (Some "'1.0'"))
                     (mkExternalDoc "The version." "") eq_refl eq_refl
                     eq_refl))
    as (out & docs' & Hout & _ & Hsummary & _).
  - intros table annotation Htable Hann Hfails.
    injection Htable as <-. cbn in Hann. injection Hann as <-.
    inversion Hfails.
  - exists out. split; [|split; [exact Hsummary|]].
    + rewrite Hout. vm_compute in Hout. now injection Hout as _ <-.
    + vm_compute in Hout. now injection Hout as <- _.
Defined.

(** X20. Which exported names fail the assertion of [extract_data_doc].
    Among the objects the export list hands to [extract_data_doc], the
    assertion fails exactly on the routines, which here are neither
    functions nor builtins; the others are exactly those that the
    inspection of the module collects as data. *)
Theorem exported_routine_fails_assertion {lib : Library} (state : State)
    (data_docs : list (string * ExternalDoc))
    (annotations : option (list (string * Annotation)))
    (path : list string) (data : PyData) :
  export_handler state (data_kind data) = AsData ->
  (extract_data_doc state data_docs annotations path data
   = Raise AssertionError
   <-> kind_isroutine (data_kind data) = true)
  /\ inspected_as_data (data_kind data)
     = negb (kind_isroutine (data_kind data))
  /\ kind_isfunction (data_kind data) = false
  /\ kind_isbuiltin (data_kind data) = false.
Proof.
  intros Hhandler.
  assert (Hflags : kind_ismodule (data_kind data) = false
                   /\ kind_isclass (data_kind data) = false
                   /\ kind_isfunction (data_kind data) = false
                   /\ kind_isbuiltin (data_kind data) = false
                   /\ kind_isframe (data_kind data) = false
                   /\ kind_istraceback (data_kind data) = false
                   /\ kind_iscode (data_kind data) = false).
  { unfold export_handler in Hhandler.
    destruct (kind_ismodule (data_kind data)); [discriminate|].
    destruct (kind_isclass (data_kind data)).
    - destruct (is_enum state (data_kind data)); discriminate.
    - cbn [andb] in Hhandler.
      destruct (kind_isfunction (data_kind data)); [discriminate|].
      destruct (kind_isbuiltin (data_kind data)); [discriminate|].
      cbn [orb] in Hhandler.
      destruct (kind_isframe (data_kind data)); [discriminate|].
      destruct (kind_istraceback (data_kind data)); [discriminate|].
      destruct (kind_iscode (data_kind data)); [discriminate|].
      repeat split. }
  destruct Hflags as (Hm & Hc & Hf & Hb & Hfr & Ht & Hco).
  assert (Hdata : inspected_as_data (data_kind data)
                  = negb (kind_isroutine (data_kind data))).
  { unfold inspected_as_data. rewrite Hm, Hc, Hfr, Ht, Hco. cbn [negb andb].
    now rewrite !andb_true_r. }
  split; [|split; [exact Hdata | split; assumption]].
  unfold extract_data_doc. fold (inspected_as_data (data_kind data)).
  rewrite Hdata.
  destruct (kind_isroutine (data_kind data)); cbn [negb py_assert bind].
  - split; reflexivity.
  - split; [|discriminate]. intros Hraise.
    unfold path_last in Hraise.
    destruct (rev path) as [|name rest]; cbn [bind] in Hraise;
      [discriminate|].
    destruct annotations as [table|];
      [destruct (dict_get name table) as [annotation|];
       [destruct (annotation_cases state annotation) as [[type Htext]|Hfails];
        [rewrite (extract_annotation_text state _ _ Htext) in Hraise
        |rewrite (extract_annotation_fails state _ Hfails) in Hraise]|]|];
      cbn [bind] in Hraise; try discriminate;
      destruct (dict_get (Py.join "." path) data_docs); discriminate.
Qed.

Lemma exported_routine_fails_assertion_witness :
  extract_data_doc (lib := plain_library) sample_pub_state [] None
    ["pkg"; "method"] (mkPyData sample_bound_method None)
  = Raise AssertionError.
Proof.
  exact (proj2 (proj1 (exported_routine_fails_assertion (lib := plain_library)
                         sample_pub_state [] None ["pkg"; "method"]
                         (mkPyData sample_bound_method None) eq_refl))
               eq_refl).
Defined.

(* ================================================================== *)
(** * Parameters and names of extracted functions *)

Lemma positional_only_names_spec (args : list Arg) :
  forall first,
    positional_only_names first args = true <-> numbered first args.
Proof.
  induction args as [|[[name type] default] args IH]; intros first.
  - split; [|reflexivity]. intros _ [|i] arg Hnth; discriminate.
  - cbn [positional_only_names].
    destruct (String.eqb_spec name ("arg" ++ Py.str first)) as [Heq|Hne];
      cbn [negb].
    + rewrite IH. split.
      * intros Hrest [|i] arg Hnth.
        -- injection Hnth as <-. cbn [fst]. now rewrite Nat.add_0_r.
        -- cbn [nth_error] in Hnth. rewrite (Hrest i arg Hnth).
           now rewrite Nat.add_succ_comm.
      * intros Hall i arg Hnth.
        rewrite (Hall (S i) arg Hnth). now rewrite Nat.add_succ_comm.
    + split; [discriminate|]. intros Hall. destruct Hne.
      rewrite <- (Nat.add_0_r first). exact (Hall 0 _ eq_refl).
Qed.

Lemma pybind_param_spec {lib : Library} (positional_only : bool)
    (all_numbered : Prop) (arg : Arg) :
  (positional_only = true <-> all_numbered) ->
  param_of_arg all_numbered arg (pybind_param positional_only arg).
Proof.
  intros Hiff. destruct arg as [[name type] default].
  unfold param_of_arg, pybind_param. cbn [fst].
  destruct (String.eqb_spec name "*args") as [Hargs|Hargs].
  - subst name. repeat split; try discriminate; congruence.
  - destruct (String.eqb_spec name "**kwargs") as [Hkw|Hkw].
    + subst name. repeat split; try discriminate; congruence.
    + split; [congruence|]. split; [congruence|]. intros _ _.
      cbn [param_name param_kind]. split; [reflexivity|].
      destruct positional_only.
      * split; [reflexivity|]. intros Hnot. destruct Hnot. now apply Hiff.
      * split; [|reflexivity]. intros Hall. apply Hiff in Hall. discriminate.
Qed.

(** The record of an overload carries the name it was asked for. *)
Lemma pybind_parameters_names {lib : Library} (parent : PyObject)
    (path_name name summary : string) (args : list Arg)
    (type : option string) :
  exists out,
    pybind_function_doc parent path_name (name, summary, args, type) = Ok out
    /\ fn_name out = path_name.
Proof.
  unfold pybind_function_doc.
  destruct (isclass parent); cbn [andb].
  - destruct (first_is_self args); cbn [negb py_assert bind];
      eexists; split; reflexivity.
  - eexists; split; reflexivity.
Qed.

(** X21. The kinds of the parameters in the pybind11 path.  The record of
    a parsed overload always exists and has one parameter per parsed
    argument, in order.  An argument [*args] or [**kwargs] becomes the
    variadic parameter [args] or [kwargs]; every other parameter keeps its
    name, and all of them are positional-only when the arguments (without
    a leading [self] in a class) are named [arg0], [arg1], ... in order,
    and all of them are positional-or-keyword otherwise.  A return type
    [None] is dropped. *)
Theorem pybind_parameters_all_or_none {lib : Library} (parent : PyObject)
    (path_name name summary : string) (args : list Arg)
    (type : option string) :
  exists out counted,
    pybind_function_doc parent path_name (name, summary, args, type) = Ok out
    /\ counted_args parent args counted
    /\ (forall counted',
          counted_args parent args counted' -> counted' = counted)
    /\ Forall2 (param_of_arg (numbered 0 counted)) args (fn_params out)
    /\ fn_name out = path_name
    /\ fn_summary out = summary
    /\ fn_type out = (if optstr_eqb type (Some "None") then None else type).
Proof.
  assert (Hparams : forall positional_only counted,
             (positional_only = true <-> numbered 0 counted) ->
             Forall2 (param_of_arg (numbered 0 counted))
                     args (map (pybind_param positional_only) args)).
  { intros po counted Hiff. induction args as [|arg rest IH]; cbn [map];
      constructor; [now apply pybind_param_spec | exact IH]. }
  assert (Htype : match type with
                  | Some t => if String.eqb t "None" then None else type
                  | None => None
                  end = (if optstr_eqb type (Some "None") then None else type)).
  { destruct type as [t|]; reflexivity. }
  assert (Hcounted : exists counted,
             counted_args parent args counted
             /\ (forall counted',
                   counted_args parent args counted' -> counted' = counted)
             /\ counted
                = (if isclass parent && first_is_self args
                   then tl args else args)).
  { unfold counted_args. destruct (isclass parent) eqn:Hclass; cbn [andb].
    - destruct (first_is_self args) eqn:Hself.
      + apply first_is_self_iff in Hself as (t & d & rest & ->).
        exists rest. split; [left; split; [reflexivity | now exists t, d]|].
        split; [|reflexivity].
        intros counted' [[_ (t' & d' & Heq)] | [[Hno | Hno] ->]].
        * now injection Heq as _ _ <-.
        * discriminate.
        * destruct Hno. now exists t, d, rest.
      + exists args. split; [right; split; [right|reflexivity]|].
        * intros Hlead. apply first_is_self_iff in Hlead. congruence.
        * split; [|reflexivity].
          intros counted' [[_ (t' & d' & Heq)] | [_ ->]]; [|reflexivity].
          subst args. discriminate.
    - exists args. split; [right; split; [now left | reflexivity]|].
      split; [|reflexivity].
      intros counted' [[Hyes _] | [_ ->]]; [discriminate | reflexivity]. }
  destruct Hcounted as (counted & Hrel & Hunique & Hcounted).
  unfold pybind_function_doc.
  destruct (isclass parent); cbn [andb] in *.
  - destruct (first_is_self args) eqn:Hself; cbn [negb py_assert bind].
    + eexists. exists counted. split; [reflexivity|].
      split; [exact Hrel|]. split; [exact Hunique|]. cbn.
      split; [apply Hparams; subst counted; apply positional_only_names_spec|].
      repeat split. exact Htype.
    + eexists. exists counted. split; [reflexivity|].
      split; [exact Hrel|]. split; [exact Hunique|]. cbn.
      split; [apply Hparams; subst counted; apply positional_only_names_spec|].
      repeat split. exact Htype.
  - eexists. exists counted. split; [reflexivity|].
    split; [exact Hrel|]. split; [exact Hunique|]. cbn.
    split; [apply Hparams; subst counted; apply positional_only_names_spec|].
    repeat split. exact Htype.
Qed.

(** The kinds of [scale(self, arg0)] in a class and of the same arguments
    in a module. *)
Example pybind_parameters_of_method {lib : Library} :
  (exists out,
      pybind_function_doc sample_pybind_class "scale"
        ("scale", "", [("self", Some "m.Foo", None);
                       ("arg0", Some "float", None)], Some "None") = Ok out
      /\ map param_kind (fn_params out)
         = [Some "POSITIONAL_ONLY"; Some "POSITIONAL_ONLY"])
  /\ (exists out,
        pybind_function_doc sample_module "scale"
          ("scale", "", [("self", Some "m.Foo", None);
                         ("arg0", Some "float", None)], Some "None") = Ok out
        /\ map param_kind (fn_params out)
           = [Some "POSITIONAL_OR_KEYWORD"; Some "POSITIONAL_OR_KEYWORD"]).
Proof. split; eexists; split; reflexivity. Qed.

Lemma reflected_params_spec {lib : Library} (state : State)
    (parameters : list PyParameter) :
  (Forall (fun i => ~ annotation_fails (parameter_annotation i)) parameters ->
   exists params,
     reflected_params state parameters = Ok params
     /\ Forall2 (param_of_parameter state) parameters params)
  /\ (Exists (fun i => annotation_fails (parameter_annotation i)) parameters ->
      reflected_params state parameters = Raise AttributeError).
Proof.
  induction parameters as [|i parameters [IHok IHfails]].
  - split.
    + intros _. exists []. split; [reflexivity | constructor].
    + intros Hex. inversion Hex.
  - cbn [reflected_params]. unfold reflected_param. split.
    + intros Hall. inversion Hall as [|? ? Hi Hrest]; subst.
      destruct (annotation_without_failure state _ Hi) as (type & Htext & ->).
      destruct (IHok Hrest) as (params & -> & Hparams). cbn [bind].
      eexists. split; [reflexivity|]. constructor; [|exact Hparams].
      repeat split. exact Htext.
    + intros Hex. inversion Hex as [? ? Hi | ? ? Hrest]; subst.
      * now rewrite (extract_annotation_fails state _ Hi).
      * destruct (annotation_cases state (parameter_annotation i))
          as [[type Htext] | Hfails].
        -- rewrite (extract_annotation_text state _ _ Htext). cbn [bind].
           now rewrite (IHfails Hrest).
        -- now rewrite (extract_annotation_fails state _ Hfails).
Qed.

(** X22. When [extract_function_doc] leaves the pybind11 path.  With
    pybind11 compatibility a function without a docstring raises
    [AttributeError], whatever the path; otherwise an empty path raises
    [IndexError].  Without pybind11 compatibility, or with a docstring
    that does not start with the last path component: a function without
    a signature gives exactly one record, with that component as name,
    the summary of the docstring, the single parameter [...] and no type;
    a function with a signature raises [AttributeError] when its return
    annotation or the annotation of one of its parameters lacks the
    attribute read, as for [-> None], and otherwise gives exactly one
    record, with one parameter per parameter of the signature, carrying
    its name, the text of its annotation, its default and its kind, and
    the text of the return annotation as type.  Nothing is logged. *)
Theorem extract_function_doc_introspection {lib : Library} (state : State)
    (parent : PyObject) (path : list string) (function : PyObject) :
  (PYBIND11_COMPATIBILITY state = true ->
   __doc__ function = None ->
   extract_function_doc state parent path function = Raise AttributeError)
  /\ (path = [] ->
      PYBIND11_COMPATIBILITY state = false \/ __doc__ function <> None ->
      extract_function_doc state parent path function = Raise IndexError)
  /\ (forall name,
        path_last path = Ok name ->
        PYBIND11_COMPATIBILITY state = false
        \/ (exists doc, __doc__ function = Some doc
                        /\ Py.startswith doc name = false) ->
        match signature function with
        | None =>
            exists out,
              extract_function_doc state parent path function = Ok ([out], [])
              /\ fn_name out = name
              /\ fn_summary out
                 = extract_summary state [] [] (__doc__ function)
              /\ map param_name (fn_params out) = ["..."]
              /\ fn_type out = None
              /\ fn_has_complex_params out = false
        | Some sig =>
            (annotation_fails (return_annotation sig)
             \/ Exists (fun i => annotation_fails (parameter_annotation i))
                       (parameters sig) ->
             extract_function_doc state parent path function
             = Raise AttributeError)
            /\ (~ annotation_fails (return_annotation sig) ->
                Forall (fun i => ~ annotation_fails (parameter_annotation i))
                       (parameters sig) ->
                exists out,
                  extract_function_doc state parent path function
                  = Ok ([out], [])
                  /\ fn_name out = name
                  /\ fn_summary out
                     = extract_summary state [] [] (__doc__ function)
                  /\ annotation_text state (return_annotation sig)
                                     (fn_type out)
                  /\ Forall2 (param_of_parameter state) (parameters sig)
                             (fn_params out))
        end).
Proof.
  unfold extract_function_doc. split; [|split].
  - now intros -> ->.
  - intros -> [-> | Hdoc]; [reflexivity|].
    destruct (PYBIND11_COMPATIBILITY state); [|reflexivity].
    destruct (__doc__ function); [reflexivity | now destruct Hdoc].
  - intros name Hname Hwhy.
    assert (Huse : (if PYBIND11_COMPATIBILITY state
                    then match __doc__ function with
                         | Some doc =>
                             path_name <- path_last path ;;
                             Ok (Py.startswith doc path_name)
                         | None => Raise AttributeError
                         end
                    else Ok false) = Ok false).
    { destruct Hwhy as [-> | (doc & -> & Hstarts)]; [reflexivity|].
      destruct (PYBIND11_COMPATIBILITY state); [|reflexivity].
      rewrite Hname. cbn [bind]. now rewrite Hstarts. }
    rewrite Huse, Hname. cbn [bind].
    unfold reflected_function_doc.
    destruct (signature function) as [sig|].
    + destruct (reflected_params_spec state (parameters sig))
        as [Hok Hfails].
      split.
      * intros [Hreturn | Hparam].
        -- now rewrite (extract_annotation_fails state _ Hreturn).
        -- destruct (annotation_cases state (return_annotation sig))
             as [[type Htext] | Hreturn].
           ++ rewrite (extract_annotation_text state _ _ Htext). cbn [bind].
              now rewrite (Hfails Hparam).
           ++ now rewrite (extract_annotation_fails state _ Hreturn).
      * intros Hreturn Hparams.
        destruct (annotation_without_failure state _ Hreturn)
          as (type & Htext & ->).
        destruct (Hok Hparams) as (params & -> & Hall). cbn [bind].
        eexists. split; [reflexivity|].
        cbn [fn_name fn_summary fn_params fn_type].
        repeat split; assumption.
    + cbn [bind]. eexists. split; [reflexivity|]. repeat split.
Qed.

(** [def close(self) -> None] in a module, without pybind11
    compatibility. *)
Example extract_function_doc_returns_none {lib : Library} :
  extract_function_doc (mkState false []) sample_module ["m"; "close"]
                       sample_returns_none
  = Raise AttributeError.
Proof. reflexivity. Qed.

(* ================================================================== *)
(** * The names on a class page *)

Lemma startswith_one_of_two (name : string) :
  Py.startswith name "__" = true -> Py.startswith name "_" = true.
Proof.
  unfold Py.startswith. destruct name as [|c name]; [discriminate|].
  cbn [String.prefix]. destruct (Ascii.ascii_dec "_" c); [|discriminate].
  intros _. now destruct name.
Qed.

(** The names of the records are the last component of the path. *)
Lemma extract_function_doc_names {lib : Library} (state : State)
    (parent : PyObject) (path : list string) (function : PyObject)
    (outs : list FunctionDoc) (warnings : list string) :
  extract_function_doc state parent path function = Ok (outs, warnings) ->
  exists name,
    path_last path = Ok name /\ Forall (fun out => fn_name out = name) outs.
Proof.
  unfold extract_function_doc. intros Hout.
  destruct (if PYBIND11_COMPATIBILITY state
            then match __doc__ function with
                 | Some doc =>
                     path_name <- path_last path ;;
                     Ok (Py.startswith doc path_name)
                 | None => Raise AttributeError
                 end
            else Ok false) as [use| |]; cbn [bind] in Hout; try discriminate.
  destruct (path_last path) as [name| |]; cbn [bind] in Hout;
    try discriminate.
  exists name. split; [reflexivity|]. destruct use.
  - destruct (parse_pybind_docstring state name _) as [[funcs w]| |];
      cbn [bind] in Hout; try discriminate.
    destruct (pybind_function_docs_total parent name funcs)
      as (outs' & Houts & Hall).
    rewrite Houts in Hout. cbn [bind] in Hout. injection Hout as <- <-.
    clear Houts. induction Hall as [|func out funcs outs' Hfunc _ IH];
      constructor; [|exact IH].
    destruct func as [[[n summary] args] type].
    destruct (pybind_parameters_names parent name n summary args type)
      as (out' & Hout' & Hn).
    rewrite Hfunc in Hout'. now injection Hout' as <-.
  - destruct (reflected_function_doc state parent function name)
      as [out| |] eqn:Hdoc; cbn [bind] in Hout; try discriminate.
    injection Hout as <- <-. constructor; [|constructor].
    exact (proj1 (reflected_function_doc_ok _ _ _ _ _ Hdoc)).
Qed.

Lemma add_to_names_sorted (name : string) (function : FunctionDoc)
    (bucket : Bucket) (page : ClassPage) :
  is_internal_function_name name = false ->
  fn_name function = name ->
  method_bucket name function = Ok bucket ->
  names_sorted page ->
  names_sorted (add_to bucket function page).
Proof.
  intros Hinternal Hname Hbucket [Hdunder Hothers].
  unfold is_internal_function_name in Hinternal.
  unfold method_bucket in Hbucket.
  destruct (Py.startswith name "__") eqn:Htwo.
  - injection Hbucket as <-.
    rewrite (startswith_one_of_two name Htwo) in Hinternal.
    cbn [andb negb] in Hinternal. apply negb_false_iff in Hinternal.
    split.
    + cbn [add_to dunder_methods]. apply Forall_app. split; [exact Hdunder|].
      constructor; [|constructor]. rewrite Hname. unfold is_dunder.
      now rewrite Htwo.
    + intros b Hb. specialize (Hothers b Hb). now destruct b.
  - cbn [andb negb] in Hinternal. rewrite andb_true_r in Hinternal.
    assert (Hadd : Forall (fun f => Py.startswith (fn_name f) "_" = false)
                          [function]).
    { constructor; [now rewrite Hname | constructor]. }
    assert (Hb : bucket <> DunderMethods).
    { destruct (is_classmethod function) as [[|]|]; cbn in Hbucket;
        try discriminate; [now injection Hbucket as <-|].
      destruct (is_staticmethod function) as [[|]|]; cbn in Hbucket;
        try discriminate; now injection Hbucket as <-. }
    split.
    + now destruct bucket.
    + intros b Hb'. specialize (Hothers b Hb').
      destruct bucket, b; cbn [add_to bucket_list classmethods staticmethods
                               dunder_methods methods] in *;
        try assumption; try (now destruct Hb); try (now destruct Hb');
        apply Forall_app; split; assumption.
Qed.

Lemma place_methods_names_sorted (name : string)
    (functions : list FunctionDoc) :
  is_internal_function_name name = false ->
  Forall (fun out => fn_name out = name) functions ->
  forall page page',
    place_methods name functions page = Ok page' ->
    names_sorted page -> names_sorted page'.
Proof.
  intros Hinternal Hall.
  induction Hall as [|function functions Hname _ IH]; intros page page' Hplace Hpage.
  - now injection Hplace as <-.
  - cbn [place_methods] in Hplace.
    destruct (method_bucket name function) as [bucket| |] eqn:Hbucket;
      cbn [bind] in Hplace; try discriminate.
    apply (IH _ _ Hplace).
    now apply (add_to_names_sorted name).
Qed.

(** X23. The names in the method lists of a class page.  Whatever the
    members of the class, when the method loop of [render_class] finishes,
    every record in [dunder_methods] has a name with two leading and two
    trailing underscores, and no record in [classmethods], [staticmethods]
    or [methods] has a name with a leading underscore. *)
Theorem class_page_names_sorted {lib : Library} (py37 : bool) (state : State)
    (path : list string) (class_ : PyObject)
    (members : list (string * PyObject)) (page : ClassPage)
    (log : list string) :
  render_class_methods py37 state path class_ members empty_class_page []
  = Ok (page, log) ->
  names_sorted page.
Proof.
  assert (Hgen : forall page0 log0,
             render_class_methods py37 state path class_ members page0 log0
             = Ok (page, log) ->
             names_sorted page0 -> names_sorted page).
  { induction members as [|[name object] members IH]; intros page0 log0 Hrender Hpage0.
    - now injection Hrender as <- _.
    - cbn [render_class_methods] in Hrender.
      destruct (method_skipped py37 name (__doc__ object)) eqn:Hskip.
      + exact (IH _ _ Hrender Hpage0).
      + destruct (extract_function_doc state class_ (path ++ [name])%list object)
          as [[functions warnings]| |] eqn:Hdoc; cbn [bind] in Hrender;
          try discriminate.
        destruct (place_methods name functions page0) as [page1| |] eqn:Hplace;
          cbn [bind] in Hrender; try discriminate.
        apply (IH _ _ Hrender).
        destruct (extract_function_doc_names _ _ _ _ _ _ Hdoc)
          as (last & Hlast & Hnames).
        unfold path_last in Hlast. rewrite rev_unit in Hlast.
        injection Hlast as <-.
        refine (place_methods_names_sorted name functions _ Hnames
                  page0 page1 Hplace Hpage0).
        unfold method_skipped in Hskip.
        now destruct (is_internal_function_name name). }
  intros Hrender. apply (Hgen _ _ Hrender).
  split; [constructor|]. intros bucket _. destruct bucket; constructor.
Qed.

Lemma class_page_names_sorted_witness :
  exists page log,
    @render_class_methods plain_library true (mkState false [])
      ["m"; "Shape"] sample_class sample_members empty_class_page []
    = Ok (page, log)
    /\ names_sorted page.
Proof.
  assert (Hrender : { result |
            @render_class_methods plain_library true (mkState false [])
              ["m"; "Shape"] sample_class sample_members empty_class_page []
            = Ok result }) by (eexists; reflexivity).
  destruct Hrender as [[page log] Hrender]. exists page, log.
  split; [exact Hrender|].
  exact (class_page_names_sorted (lib := plain_library) true
           (mkState false []) ["m"; "Shape"] sample_class sample_members
           page log Hrender).
Defined.

(* ================================================================== *)
(** * Replacements registered by the mapping pass *)

Lemma join_bracket_free (l : list string) :
  Forall (fun component => bracket_free component = true) l ->
  bracket_free (Py.join "." l) = true.
Proof.
  induction 1 as [|component l Hc Hl IH]; [reflexivity|].
  destruct l as [|next l]; [exact Hc|].
  rewrite join_cons by discriminate. unfold bracket_free in *.
  rewrite !all_chars_append, Hc, IH. reflexivity.
Qed.

(** The replacements the mapping pass registers are dotted paths: when
    neither the path of the module nor a name of its export list contains
    a bracket, a table without brackets in its replacements stays so. *)
Lemma export_mapping_pass_bracket_free (path : list string)
    (attrs : list (string * PyObject)) (all : list string) :
  Forall (fun component => bracket_free component = true) path ->
  Forall (fun name => bracket_free name = true) all ->
  forall state state',
    replacements_bracket_free state ->
    export_mapping_pass state path attrs all = Ok state' ->
    replacements_bracket_free state'.
Proof.
  intros Hpath Hall. induction Hall as [|name all Hname _ IH];
    intros state state' Hstate Hpass.
  - now injection Hpass as <-.
  - cbn [export_mapping_pass] in Hpass.
    destruct (export_mapping_step state path attrs name) as [state1| |] eqn:Hstep;
      cbn [bind] in Hpass; try discriminate.
    apply (IH state1 state'); [|exact Hpass].
    destruct (export_mapping_step_cases _ _ _ _ _ Hstep)
      as [-> | (key & _ & ->)]; [exact Hstate|].
    unfold replacements_bracket_free, register_mapping. cbn [module_mapping].
    apply Forall_app. split; [exact Hstate|].
    constructor; [|constructor]. cbn [snd]. unfold export_path.
    apply join_bracket_free, Forall_app. split; [exact Hpath|].
    now constructor.
Qed.
